(** * Inventory-Pulse: reorder decision engine and pending-approval workflow

    A shallow embedding of
      - [src/policies/reorder_policy.py]  (module [Policy]),
      - [src/webhook/app.py]              (module [Webhook]),
      - [src/agent_main.py]               (module [Agent]),
      - [src/connectors/unified_mcp_connector.py] and
        [src/connectors/composio_notion_connector.py]
        (modules [Demo], [UnifiedMCPConnector], [ComposioNotionConnector]),
    followed by the properties established about them.

    Conventions.
      - Python numbers (int and float alike) are exact rationals [Q]; the
        only non-finite float the code manipulates, [float('inf')], is the
        constructor [Infinity] of [pyfloat].
      - A naive [datetime] is an integer number of microseconds, counted
        from [datetime.min] (0001-01-01T00:00:00); an ISO-8601 text
        produced by [isoformat()] orders as the instant it denotes, so the
        text comparison done by the SQLite backend is the comparison of
        the instants.
      - A Python call either returns or raises: [Outcome].
      - Logging is not an observable effect and is left out. *)

From Stdlib Require Import QArith Qround ZArith Lia Lqa.
From stdpp Require Import gmap strings list pretty.
From stdpp Require Import sorting.

Local Open Scope Z_scope.

(** ** Python values shared by the three modules *)

Inductive Outcome (A : Type) : Type :=
| Returns (a : A)
| Raises (exc : string).
Arguments Returns {A} a.
Arguments Raises {A} exc.

Definition outcome_map {A B} (f : A -> B) (o : Outcome A) : Outcome B :=
  match o with
  | Returns a => Returns (f a)
  | Raises exc => Raises exc
  end.

Inductive pyfloat : Type :=
| Finite (q : Q)
| Infinity.

Definition Qlt_bool (x y : Q) : bool := negb (Qle_bool y x).

(** [max(a, b)]: the first of the maximal arguments. *)
Definition py_max (a b : Q) : Q := if Qlt_bool a b then b else a.

(** [max(a, b, c)]. *)
Definition py_max3 (a b c : Q) : Q := py_max (py_max a b) c.

(** [x <= y] for a float [x] that may be [inf] and a finite [y]. *)
Definition float_le (x : pyfloat) (y : Q) : bool :=
  match x with
  | Finite q => Qle_bool q y
  | Infinity => false
  end.

(** [int(q)]: truncation toward zero. *)
Definition py_int (q : Q) : Z := Z.quot (Qnum q) (Z.pos (Qden q)).

(** [round(q)] to the nearest integer, ties to even. *)
Definition round_half_even (q : Q) : Z :=
  let f := Qfloor q in
  match Qcompare (q - inject_Z f) (1 # 2) with
  | Lt => f
  | Gt => f + 1
  | Eq => if Z.even f then f else f + 1
  end.

(** [round(q, ndigits)]. *)
Definition py_round (q : Q) (ndigits : nat) : Q :=
  let scale := inject_Z (10 ^ Z.of_nat ndigits) in
  (inject_Z (round_half_even (q * scale)) / scale)%Q.

Definition py_round_float (x : pyfloat) (ndigits : nat) : pyfloat :=
  match x with
  | Finite q => Finite (py_round q ndigits)
  | Infinity => Infinity
  end.

(** [x < y] on floats, [inf] included. *)
Definition float_lt (x y : pyfloat) : bool :=
  match x, y with
  | Finite a, Finite b => Qlt_bool a b
  | Finite _, Infinity => true
  | Infinity, _ => false
  end.

(** [k1 < k2] on tuples [(bool, float)]: the first components decide when
    they differ ([False < True]), the second ones otherwise. *)
Definition key_lt (k1 k2 : bool * pyfloat) : bool :=
  if Bool.eqb k1.1 k2.1 then float_lt k1.2 k2.2 else negb k1.1.

(** [list.sort(key=...)] is a stable sort: elements with equal keys keep
    their order. The result of a stable sort is unique; it is computed here
    by insertion, an element going before the first one that is not
    strictly smaller. *)
Fixpoint insert_by_key {A} (key : A -> bool * pyfloat) (x : A) (l : list A)
  : list A :=
  match l with
  | [] => [x]
  | y :: l' =>
      if key_lt (key y) (key x) then y :: insert_by_key key x l'
      else x :: y :: l'
  end.

Definition sort_by_key {A} (key : A -> bool * pyfloat) (l : list A) : list A :=
  foldr (insert_by_key key) [] l.

(** Truthiness of a value read with [dict.get]: a missing key gives [None],
    and both [None] and the empty text are falsy. *)
Definition truthy (o : option string) : bool :=
  match o with
  | Some s => negb (String.eqb s "")
  | None => false
  end.

(** Microseconds in 24 hours ([timedelta(hours=24)], [timedelta(days=1)]). *)
Definition DAY : Z := 86400000000.

(** The calendar day of an instant: what [strftime('%Y-%m-%d')] prints. *)
Definition day_of (t : Z) : Z := t / DAY.

(** The number of days [datetime] covers, from 0001-01-01 to 9999-12-31
    ([date.max.toordinal()]). *)
Definition MAX_DAYS : Z := 3652059.

(** [now + timedelta(days=k)] for an integer [k]. [OverflowError] is
    raised by [timedelta] when [k] is no C int or exceeds the magnitude a
    [timedelta] accepts, and by the addition when the sum leaves the range
    of [datetime]; the texts are those of CPython. *)
Definition add_days (now k : Z) : Outcome Z :=
  if negb ((-2147483648 <=? k) && (k <=? 2147483647)) then
    Raises "Python int too large to convert to C int"
  else if negb ((-999999999 <=? k) && (k <=? 999999999)) then
    Raises ("days=" +:+ pretty k +:+ "; must have magnitude <= 999999999")
  else
    let t := now + k * DAY in
    if (0 <=? day_of t) && (day_of t <? MAX_DAYS) then Returns t
    else Raises "date value out of range".

(* ===================================================================== *)
(** ** src/policies/reorder_policy.py *)
(* ===================================================================== *)

Module Policy.

(** An inventory item dict; [reorder_point] and [reorder_quantity] are read
    with [dict.get] and may be missing. *)
Record InventoryItem : Type := {
  item_sku : string;
  on_hand : Q;
  reorder_point : option Q;
  reorder_quantity : option Q
}.

Record Transaction : Type := {
  tx_date : Z;
  tx_sku : string;
  tx_quantity : Q
}.

(** A vendor dict. [name] is read with [best_vendor['name']]; every other
    key is read with [dict.get] or tested with [in]. [eoq] and
    [total_annual_cost] are the keys the optimizer (or the zero-demand
    fallback) adds to the vendor it returns; [total_cost] is the key the
    evidence sentence reads its cost from. *)
Record Vendor : Type := {
  name : string;
  price_per_unit : option Q;
  unit_cost : option Q;
  holding_cost_percentage : option Q;
  order_cost : option Q;
  lead_time : option Q;
  eoq : option Q;
  total_annual_cost : option Q;
  total_cost : option Q
}.

Inductive Urgency : Type := URGENT | HIGH | MEDIUM.

(** The evidence sentence of [_generate_evidence_summary]: the template is
    fixed by the branch taken, so the sentence is kept as that branch and
    the values interpolated into it. *)
Inductive EvidenceSummary : Type :=
| ReorderSummary (urgency : Urgency) (sku : string)
    (days_until_stockout : pyfloat) (on_hand avg_daily recommended_qty : Q)
    (vendor_name : string) (vendor_eoq : option Q) (vendor_total_cost : Q)
| NoActionSummary (sku : string) (on_hand : Q)
    (days_until_stockout : pyfloat) (avg_daily : Q)
| NoVendorsSummary (sku : string).

(** The tier word that opens the sentence, when it has one. *)
Definition summary_urgency (s : EvidenceSummary) : option Urgency :=
  match s with
  | ReorderSummary urgency _ _ _ _ _ _ _ _ => Some urgency
  | NoActionSummary _ _ _ _ | NoVendorsSummary _ => None
  end.

Record CostSavings : Type := {
  savings_amount : Q;
  savings_percentage : Q;
  vs_vendor : option string
}.

Inductive DecisionFactors : Type :=
| FactorsError (error : string)
| Factors (current_stock avg_daily_usage annual_demand : Q)
    (days_until_stockout : pyfloat)
    (lead_time_days safety_margin_days reorder_threshold_days
       reorder_point target_stock_level eoq : Q)
    (stockout_risk below_reorder_point : bool).

(** The dict returned by [evaluate_reorder_need]. [stockout_date] is the
    calendar day printed by [strftime('%Y-%m-%d')], or [None]. *)
Record Decision : Type := {
  d_sku : string;
  d_needs_reorder : bool;
  d_vendor : option string;
  d_qty : Q;
  d_eoq : Q;
  d_total_cost : Q;
  d_stockout_date : option Z;
  d_evidence_summary : EvidenceSummary;
  d_cost_savings : CostSavings;
  d_decision_factors : DecisionFactors
}.

(** A decision with its ['stockout_date'] entry blanked. *)
Definition without_stockout_date (d : Decision) : Decision :=
  {| d_sku := d_sku d;
     d_needs_reorder := d_needs_reorder d;
     d_vendor := d_vendor d;
     d_qty := d_qty d;
     d_eoq := d_eoq d;
     d_total_cost := d_total_cost d;
     d_stockout_date := None;
     d_evidence_summary := d_evidence_summary d;
     d_cost_savings := d_cost_savings d;
     d_decision_factors := d_decision_factors d |}.

(** [ReorderPolicy.__init__]. *)
Record ReorderPolicy : Type := {
  safety_margin_days : Q;
  min_order_qty : Q
}.

Definition default_policy : ReorderPolicy :=
  {| safety_margin_days := 7; min_order_qty := 1 |}.

(** Modelled from the spec: [estimate_days_until_stockout] of
    [src/models/forecast.py], which is not among the source files. Section
    4.1: "if dailyAverage <= 0, returns +infinity (no predictable stockout);
    otherwise onHand / dailyAverage". *)
Definition estimate_days_until_stockout (on_hand avg_daily : Q) : pyfloat :=
  if Qle_bool avg_daily 0 then Infinity else Finite (on_hand / avg_daily).

(** One iteration of the fallback loop: [acc] is
    [(lowest_cost, fallback_vendor)], [None] while [fallback_vendor is None]
    (then [lowest_cost] is [inf] and every priced vendor is below it). *)
Definition fallback_step (acc : option (Q * Vendor)) (vendor : Vendor)
  : option (Q * Vendor) :=
  match price_per_unit vendor with
  | None => acc
  | Some unit_cost =>
      match acc with
      | None => Some (unit_cost, vendor)
      | Some (lowest_cost, _) =>
          if Qlt_bool unit_cost lowest_cost then Some (unit_cost, vendor) else acc
      end
  end.

Definition select_fallback_vendor (vendors : list Vendor) : option Vendor :=
  snd <$> foldl fallback_step None vendors.

(** [fallback_vendor.update({'eoq': ..., 'total_annual_cost': ..., ...})]. *)
Definition vendor_update (v : Vendor) (new_eoq purchase_cost : Q) : Vendor :=
  {| name := name v;
     price_per_unit := price_per_unit v;
     unit_cost := unit_cost v;
     holding_cost_percentage := holding_cost_percentage v;
     order_cost := order_cost v;
     lead_time := lead_time v;
     eoq := Some new_eoq;
     total_annual_cost := Some purchase_cost;
     total_cost := total_cost v |}.

(** [_calculate_cost_savings]. *)
Definition _calculate_cost_savings (best_vendor : Vendor) (annual_demand : Q)
  : CostSavings :=
  {| savings_amount := 0; savings_percentage := 0; vs_vendor := None |}.

Definition urgency_of (self : ReorderPolicy) (days_until_stockout : pyfloat)
    (best_vendor : Vendor) : Urgency :=
  if float_le days_until_stockout (safety_margin_days self) then URGENT
  else if float_le days_until_stockout
            (default 7%Q (lead_time best_vendor) + safety_margin_days self)%Q
       then HIGH
       else MEDIUM.

(** [_generate_evidence_summary]. The cost it prints is read from the key
    ['total_cost'], not from ['total_annual_cost']: for a vendor without
    that key it prints the default 0. *)
Definition _generate_evidence_summary (self : ReorderPolicy) (sku : string)
    (on_hand avg_daily : Q) (days_until_stockout : pyfloat)
    (best_vendor : Vendor) (needs_reorder : bool) (recommended_qty : Q)
  : EvidenceSummary :=
  if needs_reorder then
    ReorderSummary (urgency_of self days_until_stockout best_vendor) sku
      days_until_stockout on_hand avg_daily recommended_qty
      (name best_vendor) (eoq best_vendor) (default 0%Q (total_cost best_vendor))
  else
    NoActionSummary sku on_hand days_until_stockout avg_daily.

Section Evaluate.

(** The two helpers imported from modules that are not among the source
    files: [src/models/forecast.py] and [src/policies/eoq_optimizer.py]. *)
Variable compute_daily_average : list Transaction -> string -> Q.
Variable select_best_vendor : list Vendor -> Q -> option Vendor.

(** Step 3 of [evaluate_reorder_need]: the optimizer's vendor, or the
    lowest-price fallback for a zero-demand item at or below its reorder
    point. *)
Definition resolve_vendor (self : ReorderPolicy) (inventory_item : InventoryItem)
    (vendors : list Vendor) (avg_daily annual_demand : Q) : option Vendor :=
  let on_hand := on_hand inventory_item in
  let reorder_point := default 0%Q (reorder_point inventory_item) in
  match select_best_vendor vendors annual_demand with
  | Some v => Some v
  | None =>
      if Qle_bool avg_daily 0 && Qle_bool on_hand reorder_point then
        match select_fallback_vendor vendors with
        | Some fallback_vendor =>
            let eoq :=
              py_max (min_order_qty self)
                     (default 10%Q (reorder_quantity inventory_item)) in
            let unit_cost := default 0%Q (price_per_unit fallback_vendor) in
            let purchase_cost := (eoq * unit_cost)%Q in
            Some (vendor_update fallback_vendor eoq purchase_cost)
        | None => None
        end
      else None
  end.

(** [ReorderPolicy.evaluate_reorder_need]; [now] is the reading of
    [datetime.now()] taken in step 4. The [OverflowError] of the date
    arithmetic of that step leaves the function through its
    [except Exception: ... raise]. *)
Definition evaluate_reorder_need (self : ReorderPolicy) (now : Z)
    (inventory_item : InventoryItem) (transactions : list Transaction)
    (vendors : list Vendor) (target_stock_days : Q) : Outcome Decision :=
  let sku := item_sku inventory_item in
  let on_hand := on_hand inventory_item in
  let reorder_point := default 0%Q (reorder_point inventory_item) in
  let avg_daily := compute_daily_average transactions sku in
  let annual_demand := (avg_daily * 365)%Q in
  match vendors with
  | [] => Raises "No vendors provided for evaluation"
  | _ :: _ =>
      match resolve_vendor self inventory_item vendors avg_daily annual_demand with
      | None =>
          Returns
            {| d_sku := sku;
               d_needs_reorder := false;
               d_vendor := None;
               d_qty := 0;
               d_eoq := 0;
               d_total_cost := 0;
               d_stockout_date := None;
               d_evidence_summary := NoVendorsSummary sku;
               d_cost_savings :=
                 {| savings_amount := 0; savings_percentage := 0;
                    vs_vendor := None |};
               d_decision_factors := FactorsError "No valid vendors found" |}
      | Some best_vendor =>
          let days_until_stockout :=
            estimate_days_until_stockout on_hand avg_daily in
          match
            match days_until_stockout with
            | Infinity => Returns None
            | Finite d =>
                outcome_map (fun t => Some (day_of t)) (add_days now (py_int d))
            end
          with
          | Raises exc => Raises exc
          | Returns stockout_date =>
          let lead_time := default 7%Q (lead_time best_vendor) in
          let reorder_threshold_days :=
            (lead_time + safety_margin_days self)%Q in
          let needs_reorder :=
            if Qle_bool avg_daily 0 then Qle_bool on_hand reorder_point
            else float_le days_until_stockout reorder_threshold_days
                 || Qle_bool on_hand reorder_point in
          let target_stock := (avg_daily * target_stock_days)%Q in
          let eoq := default 0%Q (eoq best_vendor) in
          let recommended_qty :=
            if needs_reorder then
              let qty_to_target := py_max 0 (target_stock - on_hand) in
              py_max3 eoq (min_order_qty self) qty_to_target
            else 0%Q in
          let cost_savings := _calculate_cost_savings best_vendor annual_demand in
          let evidence_summary :=
            _generate_evidence_summary self sku on_hand avg_daily
              days_until_stockout best_vendor needs_reorder recommended_qty in
          let decision_factors :=
            Factors on_hand (py_round avg_daily 2) (py_round annual_demand 2)
              (py_round_float days_until_stockout 1)
              lead_time (safety_margin_days self) reorder_threshold_days
              reorder_point (py_round target_stock 1) eoq
              (float_le days_until_stockout reorder_threshold_days)
              (Qle_bool on_hand reorder_point) in
          Returns
            {| d_sku := sku;
               d_needs_reorder := needs_reorder;
               d_vendor := Some (name best_vendor);
               d_qty := recommended_qty;
               d_eoq := eoq;
               d_total_cost := default 0%Q (total_annual_cost best_vendor);
               d_stockout_date := stockout_date;
               d_evidence_summary := evidence_summary;
               d_cost_savings := cost_savings;
               d_decision_factors := decision_factors |}
          end
      end
  end.

End Evaluate.

(** The cost printed at the end of the sentence, when it has one. *)
Definition summary_cost (s : EvidenceSummary) : option Q :=
  match s with
  | ReorderSummary _ _ _ _ _ _ _ _ cost => Some cost
  | NoActionSummary _ _ _ _ | NoVendorsSummary _ => None
  end.

(** An entry of the list [batch_evaluate_reorders] returns: the decision
    of [evaluate_reorder_need], or the error dict built in the [except]
    branch (['needs_reorder'] false, the message under ['error']). *)
Inductive BatchResult : Type :=
| Evaluated (d : Decision)
| EvaluationError (sku : string) (error : string).

Definition result_needs_reorder (r : BatchResult) : bool :=
  match r with
  | Evaluated d => d_needs_reorder d
  | EvaluationError _ _ => false
  end.

Definition result_sku (r : BatchResult) : string :=
  match r with
  | Evaluated d => d_sku d
  | EvaluationError s _ => s
  end.

(** The sort key of [batch_evaluate_reorders]:
    [(not x.get('needs_reorder', False),
      x.get('decision_factors', {}).get('days_until_stockout', 999))]. *)
Definition priority_key (r : BatchResult) : bool * pyfloat :=
  match r with
  | Evaluated d =>
      (negb (d_needs_reorder d),
       match d_decision_factors d with
       | Factors _ _ _ days_until_stockout _ _ _ _ _ _ _ _ => days_until_stockout
       | FactorsError _ => Finite 999
       end)
  | EvaluationError _ _ => (true, Finite 999)
  end.

Section BatchEvaluate.

Variable compute_daily_average : list Transaction -> string -> Q.
Variable select_best_vendor : list Vendor -> Q -> option Vendor.

(** The body of the loop of [batch_evaluate_reorders] for the [i]-th item;
    [clock i] is the reading of [datetime.now()] during its evaluation. *)
Definition evaluate_item (self : ReorderPolicy) (clock : nat -> Z) (i : nat)
    (item : InventoryItem) (transactions : list Transaction)
    (vendors : list Vendor) (target_stock_days : Q) : BatchResult :=
  let item_transactions :=
    List.filter (fun t => String.eqb (tx_sku t) (item_sku item)) transactions in
  match evaluate_reorder_need compute_daily_average select_best_vendor self
          (clock i) item item_transactions vendors target_stock_days with
  | Returns result => Evaluated result
  | Raises e => EvaluationError (item_sku item) e
  end.

Fixpoint evaluate_items (self : ReorderPolicy) (clock : nat -> Z) (i : nat)
    (inventory_items : list InventoryItem) (transactions : list Transaction)
    (vendors : list Vendor) (target_stock_days : Q) : list BatchResult :=
  match inventory_items with
  | [] => []
  | item :: rest =>
      evaluate_item self clock i item transactions vendors target_stock_days
      :: evaluate_items self clock (S i) rest transactions vendors target_stock_days
  end.

(** [ReorderPolicy.batch_evaluate_reorders]. *)
Definition batch_evaluate_reorders (self : ReorderPolicy) (clock : nat -> Z)
    (inventory_items : list InventoryItem) (transactions : list Transaction)
    (vendors : list Vendor) (target_stock_days : Q) : list BatchResult :=
  sort_by_key priority_key
    (evaluate_items self clock 0 inventory_items transactions vendors
       target_stock_days).

End BatchEvaluate.

End Policy.

(* ===================================================================== *)
(** ** src/webhook/app.py *)
(* ===================================================================== *)

Module Webhook.

(** One entry of a batch action's ['items'] list. *)
Record LineItem : Type := {
  li_sku : string;
  li_vendor : string;
  li_quantity : Q;
  li_total_cost : Q;
  li_notion_page_id : option string
}.

(** The [action_data] dict handed to [store_pending_action]. The SQLite
    branch reads the first five keys with [action_data[...]]; the others
    are optional. *)
Record ActionData : Type := {
  sku : string;
  action_type : string;
  vendor : string;
  quantity : Q;
  total_cost : Q;
  rationale : option string;
  notion_page_id : option string;
  items : option (list LineItem)
}.

(** A stored action, as [get_pending_action] returns it. The SQLite-only
    columns [token] and [created_at] are read by no caller and are left
    out. *)
Record PendingAction : Type := {
  data : ActionData;
  expires_at : Z;
  status : string
}.

Definition set_status (new_status : string) (a : PendingAction) : PendingAction :=
  {| data := data a; expires_at := expires_at a; status := new_status |}.

(** The conversion of an integer to binary64 (the C cast to [double]):
    the nearest number with a significand of 53 bits, ties to even. *)
Definition binary64_of_Z (n : Z) : Z :=
  let e := Z.log2 (Z.abs n) + 1 - 53 in
  if e <=? 0 then n
  else round_half_even (inject_Z n / inject_Z (2 ^ e)) * 2 ^ e.

(** What a column of type [REAL] keeps of a number: an integer is forced
    into floating point, any other number is kept as it is. *)
Definition sqlite_real (q : Q) : Q :=
  let n := py_int q in
  if Qeq_bool q (inject_Z n) && negb (binary64_of_Z n =? n)
  then inject_Z (binary64_of_Z n) else q.

(** What the [pending_actions] table keeps of an action: its nine columns.
    [rationale] and [notion_page_id] get the default [''], and there is no
    column for ['items']. The [INTEGER] column keeps the value of
    ['quantity'], the [REAL] column converts an integer ['total_cost']. *)
Definition sqlite_row (d : ActionData) : ActionData :=
  {| sku := sku d;
     action_type := action_type d;
     vendor := vendor d;
     quantity := quantity d;
     total_cost := sqlite_real (total_cost d);
     rationale := Some (default "" (rationale d));
     notion_page_id := Some (default "" (notion_page_id d));
     items := None |}.

(** The dict returned by [SupplierConnector.place_order]. *)
Record OrderResult : Type := {
  success : bool;
  order_id : option string;
  delivery_date : option string;
  error : option string
}.

(** The message appended to [demo/recompute_tasks.json]. *)
Record RecomputeMsg : Type := {
  rc_sku : string;
  rc_reason : string;
  rc_timestamp : Z;
  rc_original_vendor : string;
  rc_original_quantity : Q
}.

(** The calls a handler makes on the world outside it, in order. *)
Inductive Event : Type :=
| StoreInsert (token : string)
| StoreRead (token : string)
| StoreUpdate (token : string) (new_status : string)
| PlaceOrder (vendor sku : string) (qty : Q)
| PageUpdate (page_id : string) (new_status : string)
| SheetUpdate (sku : string) (new_status : string).

Inductive FileState (A : Type) : Type :=
| Missing
| Holds (content : A)
| Unusable.
Arguments Missing {A}.
Arguments Holds {A} content.
Arguments Unusable {A}.

(** The state the handlers run against.
      - [use_sqlite]: which backend [PendingActionsManager.__init__] chose;
      - [sqlite_binds]: whether [sqlite3] accepts the values of an action
        as parameters of the [INSERT]: it raises for a Python [int]
        outside 64 bits and for a value of a type it does not know,
        a distinction the rationals of this model do not carry;
      - [pending]: the table (or JSON document) keyed by token, [None] when
        the backing file cannot be opened or parsed, so that every access
        raises inside the manager;
      - [recompute_file]: [demo/recompute_tasks.json];
      - [trace]: the calls made so far. *)
Record World : Type := {
  use_sqlite : bool;
  sqlite_binds : ActionData -> bool;
  pending : option (gmap string PendingAction);
  recompute_file : FileState (list RecomputeMsg);
  trace : list Event
}.

Definition with_pending (m : gmap string PendingAction) (w : World) : World :=
  {| use_sqlite := use_sqlite w; sqlite_binds := sqlite_binds w;
     pending := Some m;
     recompute_file := recompute_file w; trace := trace w |}.

Definition with_recompute_file (f : FileState (list RecomputeMsg)) (w : World) : World :=
  {| use_sqlite := use_sqlite w; sqlite_binds := sqlite_binds w;
     pending := pending w;
     recompute_file := f; trace := trace w |}.

Definition log_event (e : Event) (w : World) : World :=
  {| use_sqlite := use_sqlite w; sqlite_binds := sqlite_binds w;
     pending := pending w;
     recompute_file := recompute_file w; trace := trace w ++ [e] |}.

(** *** Computations: state passing with exceptions *)

Definition M (A : Type) : Type := World -> Outcome A * World.

Definition ret {A} (a : A) : M A := fun w => (Returns a, w).

Definition raise {A} (exc : string) : M A := fun w => (Raises exc, w).

Definition bind {A B} (m : M A) (k : A -> M B) : M B :=
  fun w =>
    match m w with
    | (Returns a, w') => k a w'
    | (Raises exc, w') => (Raises exc, w')
    end.

(** [try: m  except Exception as e: handler(str(e))]. *)
Definition try_except {A} (m : M A) (handler : string -> M A) : M A :=
  fun w =>
    match m w with
    | (Returns a, w') => (Returns a, w')
    | (Raises exc, w') => handler exc w'
    end.

(** A call on an external collaborator: recorded, then it returns or
    raises as the collaborator decides. *)
Definition call {A} (e : Event) (result : Outcome A) : M A :=
  fun w => (result, log_event e w).

#[export] Instance M_ret : MRet M := @ret.
#[export] Instance M_bind : MBind M := fun A B k m => bind m k.

(** *** PendingActionsManager *)

(** [store_pending_action]; [now] is the reading of [datetime.now()].
    Whatever is raised on the way is caught and answered with [False]:
    an unreadable store, and on the SQLite backend values that cannot be
    bound; nothing is stored then. *)
Definition store_pending_action (token : string) (action_data : ActionData)
    (now : Z) : M bool :=
  fun w =>
    let w := log_event (StoreInsert token) w in
    match pending w with
    | None => (Returns false, w)
    | Some m =>
        if use_sqlite w && negb (sqlite_binds w action_data) then
          (Returns false, w)
        else
          let stored :=
            {| data := if use_sqlite w then sqlite_row action_data else action_data;
               expires_at := now + DAY;
               status := "pending" |} in
          (Returns true, with_pending (<[token := stored]> m) w)
    end.

(** The row selection of [get_pending_action], on a readable store. *)
Definition fetch_active (m : gmap string PendingAction) (token : string)
    (now : Z) : option PendingAction :=
  match m !! token with
  | Some action =>
      if String.eqb (status action) "pending" && (now <? expires_at action)
      then Some action else None
  | None => None
  end.

(** [get_pending_action]: an exception on the read path is caught and
    answered with [None]. *)
Definition get_pending_action (token : string) (now : Z)
  : M (option PendingAction) :=
  fun w =>
    let w := log_event (StoreRead token) w in
    match pending w with
    | None => (Returns None, w)
    | Some m => (Returns (fetch_active m token now), w)
    end.

(** [update_action_status]. *)
Definition update_action_status (token : string) (new_status : string) : M bool :=
  fun w =>
    let w := log_event (StoreUpdate token new_status) w in
    match pending w with
    | None => (Returns false, w)
    | Some m => (Returns true, with_pending (alter (set_status new_status) token m) w)
    end.

(** *** Responses

    An HTML page is kept as the template chosen and the values interpolated
    into it (the "Processed" time stamp of the batch pages is left out). *)

Record ApprovedItem : Type := {
  ap_sku : string;
  ap_order_id : string;
  ap_quantity : Q;
  ap_vendor : string
}.

Record FailedItem : Type := {
  fl_sku : string;
  fl_error : string
}.

Record RejectedItem : Type := {
  rj_sku : string;
  rj_quantity : Q;
  rj_vendor : string;
  rj_cost : Q
}.

Inductive Page : Type :=
| ErrorPage (error_msg : string)
| ApprovedPage (sku order_id vendor : string) (quantity total_cost : Q)
    (delivery_date : string)
| RejectedPage (sku vendor : string) (quantity total_cost : Q)
| BatchApprovalPage (approved_items : list ApprovedItem)
    (failed_items : list FailedItem) (total_cost : Q)
| BatchRejectionPage (rejected_items : list RejectedItem) (total_cost : Q).

(** What an endpoint answers: an [HTMLResponse] with its status code (200
    when the handler returns bare HTML text), or a raised
    [HTTPException]. *)
Inductive Response : Type :=
| HTMLResponse (status_code : Z) (content : Page)
| HTTPException (status_code : Z) (detail : string).

Definition status_code_of (r : Response) : Z :=
  match r with
  | HTMLResponse c _ => c
  | HTTPException c _ => c
  end.

(** The names bound at the top level of [app.py]: its imports, constants,
    classes, objects and functions. *)
Definition module_globals : list string :=
  [ "os"; "json"; "sqlite3"; "logging"; "datetime"; "timedelta"; "Dict";
    "Any"; "Optional"; "Path"; "FastAPI"; "Request"; "HTTPException";
    "Query"; "HTMLResponse"; "uvicorn"; "SupplierConnector";
    "ComposioNotionConnector"; "SheetsConnector"; "setup_logger"; "logger";
    "app"; "WEBHOOK_SECRET"; "DB_PATH"; "JSON_FALLBACK_PATH";
    "PendingActionsManager"; "Config"; "config"; "pending_manager";
    "supplier_connector"; "notion_connector"; "sheets_connector";
    "generate_success_html"; "generate_error_html"; "root"; "approve_action";
    "reject_action"; "get_action_status"; "store_pending_approval";
    "approve_batch_action"; "reject_batch_action" ].

(** Evaluating a name that is not local to the function: found among the
    module's globals, or [NameError]. *)
Definition lookup_name (globals : list string) (n : string) : M unit :=
  if bool_decide (n ∈ globals) then ret tt
  else raise ("name '" +:+ n +:+ "' is not defined").

(** [sum(...)] over numbers. *)
Definition py_sum (l : list Q) : Q := foldl Qplus 0%Q l.

(** The external collaborators, as the handlers see them: each call
    returns or raises. [SupplierConnector] and [SheetsConnector] are not
    among the source files; [ComposioNotionConnector] is, and defines
    [update_reorder_status] but no [update_page_properties], so that in the
    running program the latter always raises [AttributeError]. *)
Record Collaborators : Type := {
  place_order : string -> string -> Q -> Outcome OrderResult;
  update_page_properties : string -> string -> Outcome unit;
  update_reorder_status : string -> string -> string -> Outcome unit;
  update_inventory_status : string -> string -> string -> Outcome unit
}.

Section Handlers.

(** [WEBHOOK_SECRET = os.getenv("WEBHOOK_SECRET", ...)]. *)
Variable WEBHOOK_SECRET : string.
Variable ext : Collaborators.

(** A best-effort step: [try: m  except Exception as e: logger.error(...)]. *)
Definition best_effort (m : M unit) : M unit :=
  try_except m (fun _ => ret tt).

(** [GET /webhook/approve]. *)
Definition approve_action (token secret : string) (now : Z) : M Response :=
  if negb (String.eqb secret WEBHOOK_SECRET) then
    ret (HTTPException 403 "Invalid webhook secret")
  else
    action ← get_pending_action token now;
    match action with
    | None =>
        ret (HTMLResponse 404 (ErrorPage
          "Invalid or expired approval token. The action may have already been processed or expired."))
    | Some action =>
        try_except
          (let sku := sku (data action) in
           let vendor := vendor (data action) in
           let quantity := quantity (data action) in
           let total_cost := total_cost (data action) in
           let notion_page_id := notion_page_id (data action) in
           order_result ← call (PlaceOrder vendor sku quantity)
                               (place_order ext vendor sku quantity);
           let order_id := default "N/A" (order_id order_result) in
           let delivery_date := default "TBD" (delivery_date order_result) in
           (if truthy notion_page_id then
              let page_id := default "" notion_page_id in
              best_effort (call (PageUpdate page_id "Ordered")
                                (update_page_properties ext page_id "Ordered"))
            else ret tt);;
           best_effort (call (SheetUpdate sku "Ordered")
                             (update_inventory_status ext sku "Ordered" order_id));;
           update_action_status token "approved";;
           ret (HTMLResponse 200
                  (ApprovedPage sku order_id vendor quantity total_cost delivery_date)))
          (fun e =>
             ret (HTMLResponse 500 (ErrorPage ("Failed to process approval: " +:+ e))))
    end.

(** The recompute task of [reject_action]: read the task file (or start
    from the empty list), append, write back; any failure is logged and
    dropped. *)
Definition queue_recompute (msg : RecomputeMsg) : M unit :=
  fun w =>
    match recompute_file w with
    | Missing => (Returns tt, with_recompute_file (Holds [msg]) w)
    | Holds tasks => (Returns tt, with_recompute_file (Holds (tasks ++ [msg])) w)
    | Unusable => (Returns tt, w)
    end.

(** [GET /webhook/reject]. *)
Definition reject_action (token secret : string) (now : Z) : M Response :=
  if negb (String.eqb secret WEBHOOK_SECRET) then
    ret (HTTPException 403 "Invalid webhook secret")
  else
    action ← get_pending_action token now;
    match action with
    | None =>
        ret (HTMLResponse 404 (ErrorPage
          "Invalid or expired rejection token. The action may have already been processed or expired."))
    | Some action =>
        try_except
          (let sku := sku (data action) in
           let vendor := vendor (data action) in
           let quantity := quantity (data action) in
           let total_cost := total_cost (data action) in
           let notion_page_id := notion_page_id (data action) in
           (if truthy notion_page_id then
              let page_id := default "" notion_page_id in
              best_effort (call (PageUpdate page_id "Rejected")
                                (update_page_properties ext page_id "Rejected"))
            else ret tt);;
           best_effort (call (SheetUpdate sku "Rejected")
                             (update_inventory_status ext sku "Rejected" ""));;
           update_action_status token "rejected";;
           queue_recompute
             {| rc_sku := sku; rc_reason := "manual_rejection";
                rc_timestamp := now; rc_original_vendor := vendor;
                rc_original_quantity := quantity |};;
           ret (HTMLResponse 200 (RejectedPage sku vendor quantity total_cost)))
          (fun e =>
             ret (HTMLResponse 500 (ErrorPage ("Failed to process rejection: " +:+ e))))
    end.

(** One iteration of the loop of [approve_batch_action]: the item ends in
    [approved_items] ([inl]) or in [failed_items] ([inr]). *)
Definition approve_batch_item (token : string) (item : LineItem)
  : M (ApprovedItem + FailedItem) :=
  let sku := li_sku item in
  try_except
    (order_result ← call (PlaceOrder (li_vendor item) sku (li_quantity item))
                         (place_order ext (li_vendor item) sku (li_quantity item));
     if success order_result then
       let order_id :=
         default ("BATCH-" +:+ String.substring 0 8 token +:+ "-" +:+ sku)
                 (order_id order_result) in
       (if truthy (li_notion_page_id item) then
          let page_id := default "" (li_notion_page_id item) in
          call (PageUpdate page_id "ordered")
               (update_reorder_status ext page_id "ordered" order_id)
        else ret tt);;
       call (SheetUpdate sku "ordered")
            (update_inventory_status ext sku "ordered" order_id);;
       ret (inl {| ap_sku := sku; ap_order_id := order_id;
                   ap_quantity := li_quantity item; ap_vendor := li_vendor item |})
     else
       ret (inr {| fl_sku := sku;
                   fl_error := default "Unknown error" (error order_result) |}))
    (fun e => ret (inr {| fl_sku := sku; fl_error := e |})).

(** [for item in action.get('items', []): ...] of [approve_batch_action],
    threading [approved_items] and [failed_items]. *)
Fixpoint approve_batch_items (token : string) (items : list LineItem)
    (approved_items : list ApprovedItem) (failed_items : list FailedItem)
  : M (list ApprovedItem * list FailedItem) :=
  match items with
  | [] => ret (approved_items, failed_items)
  | item :: rest =>
      r ← approve_batch_item token item;
      match r with
      | inl a => approve_batch_items token rest (approved_items ++ [a]) failed_items
      | inr f => approve_batch_items token rest approved_items (failed_items ++ [f])
      end
  end.

(** [GET /webhook/approve-batch], in a module whose top-level names are
    [globals]. The handler reaches the manager through the name
    [pending_actions]; the connectors it constructs afresh are the
    collaborators [ext]. *)
Definition approve_batch_action_in (globals : list string)
    (token secret : string) (now : Z) : M Response :=
  try_except
    (if negb (String.eqb secret WEBHOOK_SECRET) then
       ret (HTMLResponse 200 (ErrorPage "Invalid webhook secret"))
     else
       lookup_name globals "pending_actions";;
       action ← get_pending_action token now;
       match action with
       | None =>
           ret (HTMLResponse 200
                  (ErrorPage "Batch approval token not found or expired"))
       | Some action =>
           if negb (String.eqb (action_type (data action)) "batch_reorder") then
             ret (HTMLResponse 200
                    (ErrorPage "Invalid action type for batch approval"))
           else
             let items := default [] (items (data action)) in
             '(approved_items, failed_items) ←
                approve_batch_items token items [] [];
             lookup_name globals "pending_actions";;
             update_action_status token "approved";;
             let total_cost := py_sum (li_total_cost <$> items) in
             ret (HTMLResponse 200
                    (BatchApprovalPage approved_items failed_items total_cost))
       end)
    (fun e =>
       ret (HTMLResponse 200
              (ErrorPage ("Error processing batch approval: " +:+ e)))).

(** One iteration of the loop of [reject_batch_action]: [Some] when the
    item reaches [rejected_items]. *)
Definition reject_batch_item (item : LineItem) : M (option RejectedItem) :=
  let sku := li_sku item in
  try_except
    ((if truthy (li_notion_page_id item) then
        let page_id := default "" (li_notion_page_id item) in
        call (PageUpdate page_id "rejected")
             (update_reorder_status ext page_id "rejected" "")
      else ret tt);;
     call (SheetUpdate sku "rejected")
          (update_inventory_status ext sku "rejected" "");;
     ret (Some {| rj_sku := sku; rj_quantity := li_quantity item;
                  rj_vendor := li_vendor item; rj_cost := li_total_cost item |}))
    (fun _ => ret None).

Fixpoint reject_batch_items (items : list LineItem)
    (rejected_items : list RejectedItem) : M (list RejectedItem) :=
  match items with
  | [] => ret rejected_items
  | item :: rest =>
      r ← reject_batch_item item;
      match r with
      | Some x => reject_batch_items rest (rejected_items ++ [x])
      | None => reject_batch_items rest rejected_items
      end
  end.

(** [GET /webhook/reject-batch], in a module whose top-level names are
    [globals]. *)
Definition reject_batch_action_in (globals : list string)
    (token secret : string) (now : Z) : M Response :=
  try_except
    (if negb (String.eqb secret WEBHOOK_SECRET) then
       ret (HTMLResponse 200 (ErrorPage "Invalid webhook secret"))
     else
       lookup_name globals "pending_actions";;
       action ← get_pending_action token now;
       match action with
       | None =>
           ret (HTMLResponse 200
                  (ErrorPage "Batch rejection token not found or expired"))
       | Some action =>
           if negb (String.eqb (action_type (data action)) "batch_reorder") then
             ret (HTMLResponse 200
                    (ErrorPage "Invalid action type for batch rejection"))
           else
             let items := default [] (items (data action)) in
             rejected_items ← reject_batch_items items [];
             lookup_name globals "pending_actions";;
             update_action_status token "rejected";;
             let total_cost := py_sum (li_total_cost <$> items) in
             ret (HTMLResponse 200 (BatchRejectionPage rejected_items total_cost))
       end)
    (fun e =>
       ret (HTMLResponse 200
              (ErrorPage ("Error processing batch rejection: " +:+ e)))).

(** The two batch endpoints as [app.py] defines them. *)
Definition approve_batch_action : string -> string -> Z -> M Response :=
  approve_batch_action_in module_globals.

Definition reject_batch_action : string -> string -> Z -> M Response :=
  reject_batch_action_in module_globals.

End Handlers.

(** What [GET /webhook/status/{token}] answers: the JSON object, or the
    raised [HTTPException]. *)
Inductive StatusAnswer : Type :=
| StatusObject (token sku status : string) (expires_at : Z)
| StatusError (status_code : Z) (detail : string).

(** [get_action_status]; the endpoint takes no secret. *)
Definition get_action_status (token : string) (now : Z) : M StatusAnswer :=
  action ← get_pending_action token now;
  match action with
  | None => ret (StatusError 404 "Action not found or expired")
  | Some action =>
      ret (StatusObject token (sku (data action)) (status action)
             (expires_at action))
  end.

(** [store_pending_approval], the function [agent_main.py] imports. *)
Definition store_pending_approval (token : string) (action_data : ActionData)
    (now : Z) : M bool :=
  store_pending_action token action_data now.

(** A computation that never writes [demo/recompute_tasks.json]. *)
Definition keeps_recompute_file {A} (m : M A) : Prop :=
  ∀ w, recompute_file (m w).2 = recompute_file w.

End Webhook.

(* ===================================================================== *)
(** ** src/agent_main.py *)
(* ===================================================================== *)

Module Agent.

Import Policy.

(** One row of [inventory_data]; [_process_sku] reads it with [dict.get]. *)
Record SkuData : Type := {
  sd_sku : option string;
  sd_on_hand : option Q;
  sd_reorder_point : option Q
}.

Record Rationale : Type := {
  paragraph : string;
  bullets : list string
}.

(** Why a request goes to the batch approval: the three texts [reason] can
    take in [_process_sku]. *)
Inductive Reason : Type :=
| AutoOrderFailed
| DryRun
| NotAutoApproved (total_cost vendor_trust_score : Q).

(** The dict [_process_sku] returns when an approval is needed. *)
Record ApprovalRequest : Type := {
  rq_sku : string;
  rq_reorder_decision : Decision;
  rq_rationale : Rationale;
  rq_notion_page_id : string;
  rq_reason : Reason
}.

(** The configuration read in [InventoryAgent.__init__]. *)
Record AgentConfig : Type := {
  dry_run : bool;
  auto_order_threshold : Q;
  vendor_trust_threshold : Q
}.

Definition mk_vendor (n : string) (price holding order lead : Q) : Vendor :=
  {| name := n; price_per_unit := Some price; unit_cost := Some price;
     holding_cost_percentage := Some holding; order_cost := Some order;
     lead_time := Some lead; eoq := None; total_annual_cost := None;
     total_cost := None |}.

(** The table [all_vendors] of [_get_vendor_data]. *)
Definition all_vendors : list Vendor :=
  [ mk_vendor "Acme Supplies" (25 # 2) (1 # 5) 50 7;
    mk_vendor "Global Parts" (79 # 5) (1 # 4) 75 10;
    mk_vendor "Quick Ship" (66 # 5) (3 # 20) 30 3;
    mk_vendor "Industrial Supply Co" (45 # 4) (11 # 50) 65 8;
    mk_vendor "Premium Parts Ltd" (67 # 4) (9 # 50) 40 5;
    mk_vendor "Budget Components" (199 # 20) (3 # 10) 85 14;
    mk_vendor "Express Logistics" (73 # 5) (3 # 25) 25 2;
    mk_vendor "Reliable Vendors Inc" (217 # 20) (7 # 25) 55 12 ].

Definition lower_ascii (c : Ascii.ascii) : Ascii.ascii :=
  let n := Ascii.nat_of_ascii c in
  if Nat.leb 65 n && Nat.leb n 90 then Ascii.ascii_of_nat (n + 32) else c.

(** [str.lower()], on ASCII text. *)
Fixpoint lower (s : string) : string :=
  match s with
  | EmptyString => EmptyString
  | String c rest => String (lower_ascii c) (lower rest)
  end.

(** [_get_vendor_trust_score]. *)
Definition _get_vendor_trust_score (vendor : string) : Q :=
  let v := lower vendor in
  if String.eqb v "vendor_a" then 95 # 100
  else if String.eqb v "vendor_b" then 85 # 100
  else if String.eqb v "vendor_c" then 75 # 100
  else 8 # 10.

(** [_fetch_transaction_data]: the connector does not provide transactions
    yet, the method returns the empty list. *)
Definition _fetch_transaction_data : list Transaction := [].

(** The [inventory_item] dict [_process_sku] hands to the policy. *)
Definition inventory_item_of (sku_data : SkuData) : InventoryItem :=
  {| item_sku := default "unknown" (sd_sku sku_data);
     on_hand := default 0%Q (sd_on_hand sku_data);
     reorder_point := Some (default 0%Q (sd_reorder_point sku_data));
     reorder_quantity := None |}.

(** One entry of ['items'] in [_send_batch_approval_email]. *)
Definition line_item (req : ApprovalRequest) : Webhook.LineItem :=
  {| Webhook.li_sku := rq_sku req;
     Webhook.li_vendor := default "" (d_vendor (rq_reorder_decision req));
     Webhook.li_quantity := d_qty (rq_reorder_decision req);
     Webhook.li_total_cost := d_total_cost (rq_reorder_decision req);
     Webhook.li_notion_page_id := Some (rq_notion_page_id req) |}.

(** [batch_action_data] of [_send_batch_approval_email]. *)
Definition batch_action_data (approval_requests : list ApprovalRequest)
  : Webhook.ActionData :=
  {| Webhook.sku := "BATCH";
     Webhook.action_type := "batch_reorder";
     Webhook.vendor := "MULTIPLE";
     Webhook.quantity :=
       Webhook.py_sum ((fun req => d_qty (rq_reorder_decision req)) <$> approval_requests);
     Webhook.total_cost :=
       Webhook.py_sum ((fun req => d_total_cost (rq_reorder_decision req)) <$> approval_requests);
     Webhook.rationale :=
       Some ("Batch approval for " +:+ pretty (length approval_requests) +:+ " items");
     Webhook.notion_page_id := None;
     Webhook.items := Some (line_item <$> approval_requests) |}.

Section Orchestrator.

(** The helpers of the policy that are not among the source files. *)
Variable compute_daily_average : list Transaction -> string -> Q.
Variable select_best_vendor : list Vendor -> Q -> option Vendor.

Variable self : AgentConfig.

(** What the run takes from outside the orchestrator:
      - [sample_vendors i]: the [random.sample] of [all_vendors] drawn by
        [_get_vendor_data] for the [i]-th SKU;
      - [clock i]: the reading of [datetime.now()] while the [i]-th SKU is
        evaluated;
      - [rationale_for]: [generate_rationale] or its fallback text;
      - [notion_page_for]: the page id [_update_notion_page] returns
        (the empty text when both connectors fail);
      - [auto_order_succeeds]: whether [_place_auto_order] reports
        success. *)
Variable sample_vendors : nat -> list Vendor.
Variable clock : nat -> Z.
Variable rationale_for : string -> Decision -> Rationale.
Variable notion_page_for : string -> Decision -> string.
Variable auto_order_succeeds : string -> Decision -> bool.

(** [_process_sku] for the [i]-th row of the inventory. *)
Definition _process_sku (i : nat) (sku_data : SkuData)
    (transaction_data : list Transaction) : Outcome (option ApprovalRequest) :=
  let sku := default "unknown" (sd_sku sku_data) in
  let sku_transactions :=
    List.filter (fun t => String.eqb (tx_sku t) sku) transaction_data in
  let inventory_item := inventory_item_of sku_data in
  let vendors := sample_vendors i in
  match evaluate_reorder_need compute_daily_average select_best_vendor
          default_policy (clock i) inventory_item sku_transactions vendors 30 with
  | Raises exc => Raises exc
  | Returns reorder_decision =>
      if negb (d_needs_reorder reorder_decision) then Returns None
      else
        let rationale := rationale_for sku reorder_decision in
        let notion_page_id := notion_page_for sku reorder_decision in
        let total_cost := d_total_cost reorder_decision in
        let vendor_trust_score :=
          _get_vendor_trust_score (default "" (d_vendor reorder_decision)) in
        let should_auto_order :=
          Qlt_bool total_cost (auto_order_threshold self)
          && Qle_bool (vendor_trust_threshold self) vendor_trust_score in
        let request reason :=
          {| rq_sku := sku; rq_reorder_decision := reorder_decision;
             rq_rationale := rationale; rq_notion_page_id := notion_page_id;
             rq_reason := reason |} in
        if should_auto_order && negb (dry_run self) then
          if auto_order_succeeds sku reorder_decision then Returns None
          else Returns (Some (request AutoOrderFailed))
        else
          Returns (Some (request
            (if dry_run self then DryRun
             else NotAutoApproved total_cost vendor_trust_score)))
  end.

(** Step 2 of [run_cycle]: every SKU is processed in turn, a SKU whose
    processing raises is logged and skipped, and the requests returned
    are collected in [pending_approvals]. *)
Fixpoint collect_approvals (i : nat) (inventory_data : list SkuData)
  : list ApprovalRequest :=
  match inventory_data with
  | [] => []
  | sku_data :: rest =>
      match _process_sku i sku_data _fetch_transaction_data with
      | Returns (Some approval_request) =>
          approval_request :: collect_approvals (S i) rest
      | Returns None | Raises _ => collect_approvals (S i) rest
      end
  end.

(** [_send_batch_approval_email], up to the storing of the batch: the
    sending of the e-mail that follows does not touch the store.
    [batch_token] is the fresh [uuid4]. (The single-request variant
    [_send_approval_email] has no caller in the orchestrator.) *)
Definition _send_batch_approval_email (approval_requests : list ApprovalRequest)
    (batch_token : string) (now : Z) : Webhook.M bool :=
  match approval_requests with
  | [] => Webhook.ret false
  | _ :: _ =>
      Webhook.store_pending_action batch_token
        (batch_action_data approval_requests) now
  end.

(** [run_cycle], as far as the pending-action store is concerned. *)
Definition run_cycle (inventory_data : list SkuData) (batch_token : string)
    (now : Z) : Webhook.M bool :=
  let pending_approvals := collect_approvals 0 inventory_data in
  match pending_approvals with
  | [] => Webhook.ret false
  | _ :: _ => _send_batch_approval_email pending_approvals batch_token now
  end.

End Orchestrator.

(** The [results] dict of [run_cycle] (the time stamps left out). *)
Record CycleResults : Type := {
  processed_skus : nat;
  reorders_recommended : nat;
  auto_orders_placed : nat;
  approval_emails_sent : nat;
  batch_approvals_pending : nat;
  errors : list string
}.

Definition initial_results : CycleResults :=
  {| processed_skus := 0; reorders_recommended := 0; auto_orders_placed := 0;
     approval_emails_sent := 0; batch_approvals_pending := 0; errors := [] |}.

Definition count_processed (r : CycleResults) : CycleResults :=
  {| processed_skus := processed_skus r + 1;
     reorders_recommended := reorders_recommended r;
     auto_orders_placed := auto_orders_placed r;
     approval_emails_sent := approval_emails_sent r;
     batch_approvals_pending := batch_approvals_pending r;
     errors := errors r |}.

Definition count_reorder (r : CycleResults) : CycleResults :=
  {| processed_skus := processed_skus r;
     reorders_recommended := reorders_recommended r + 1;
     auto_orders_placed := auto_orders_placed r;
     approval_emails_sent := approval_emails_sent r;
     batch_approvals_pending := batch_approvals_pending r;
     errors := errors r |}.

Definition count_auto_order (r : CycleResults) : CycleResults :=
  {| processed_skus := processed_skus r;
     reorders_recommended := reorders_recommended r;
     auto_orders_placed := auto_orders_placed r + 1;
     approval_emails_sent := approval_emails_sent r;
     batch_approvals_pending := batch_approvals_pending r;
     errors := errors r |}.

Definition add_error (msg : string) (r : CycleResults) : CycleResults :=
  {| processed_skus := processed_skus r;
     reorders_recommended := reorders_recommended r;
     auto_orders_placed := auto_orders_placed r;
     approval_emails_sent := approval_emails_sent r;
     batch_approvals_pending := batch_approvals_pending r;
     errors := errors r ++ [msg] |}.

Definition batch_email_sent (n : nat) (r : CycleResults) : CycleResults :=
  {| processed_skus := processed_skus r;
     reorders_recommended := reorders_recommended r;
     auto_orders_placed := auto_orders_placed r;
     approval_emails_sent := 1;
     batch_approvals_pending := n;
     errors := errors r |}.

Section Cycle.

Variable compute_daily_average : list Transaction -> string -> Q.
Variable select_best_vendor : list Vendor -> Q -> option Vendor.
Variable self : AgentConfig.
Variable sample_vendors : nat -> list Vendor.
Variable clock : nat -> Z.
Variable rationale_for : string -> Decision -> Rationale.
Variable notion_page_for : string -> Decision -> string.
Variable auto_order_succeeds : string -> Decision -> bool.

(** [_process_sku] again, this time with the counters of [results] it
    increments on its way. *)
Definition _process_sku_counting (i : nat) (sku_data : SkuData)
    (transaction_data : list Transaction) (results : CycleResults)
  : Outcome (option ApprovalRequest) * CycleResults :=
  let sku := default "unknown" (sd_sku sku_data) in
  let sku_transactions :=
    List.filter (fun t => String.eqb (tx_sku t) sku) transaction_data in
  let inventory_item := inventory_item_of sku_data in
  let vendors := sample_vendors i in
  match evaluate_reorder_need compute_daily_average select_best_vendor
          default_policy (clock i) inventory_item sku_transactions vendors 30 with
  | Raises exc => (Raises exc, results)
  | Returns reorder_decision =>
      if negb (d_needs_reorder reorder_decision) then (Returns None, results)
      else
        let results := count_reorder results in
        let rationale := rationale_for sku reorder_decision in
        let notion_page_id := notion_page_for sku reorder_decision in
        let total_cost := d_total_cost reorder_decision in
        let vendor_trust_score :=
          _get_vendor_trust_score (default "" (d_vendor reorder_decision)) in
        let should_auto_order :=
          Qlt_bool total_cost (auto_order_threshold self)
          && Qle_bool (vendor_trust_threshold self) vendor_trust_score in
        let request reason :=
          {| rq_sku := sku; rq_reorder_decision := reorder_decision;
             rq_rationale := rationale; rq_notion_page_id := notion_page_id;
             rq_reason := reason |} in
        if should_auto_order && negb (dry_run self) then
          if auto_order_succeeds sku reorder_decision
          then (Returns None, count_auto_order results)
          else (Returns (Some (request AutoOrderFailed)), results)
        else
          (Returns (Some (request
             (if dry_run self then DryRun
              else NotAutoApproved total_cost vendor_trust_score))), results)
  end.

(** Step 2 of [run_cycle] with its bookkeeping: [pending_approvals] and
    [results] after the rows from the [i]-th on have been processed. *)
Fixpoint process_inventory (i : nat) (inventory_data : list SkuData)
    (pending_approvals : list ApprovalRequest) (results : CycleResults)
  : list ApprovalRequest * CycleResults :=
  match inventory_data with
  | [] => (pending_approvals, results)
  | sku_data :: rest =>
      match _process_sku_counting i sku_data _fetch_transaction_data results with
      | (Returns approval_request, results) =>
          process_inventory (S i) rest
            (match approval_request with
             | Some req => pending_approvals ++ [req]
             | None => pending_approvals
             end)
            (count_processed results)
      | (Raises e, results) =>
          process_inventory (S i) rest pending_approvals
            (add_error
               ("Error processing SKU " +:+ default "unknown" (sd_sku sku_data)
                +:+ ": " +:+ e)
               results)
      end
  end.

(** [_send_batch_approval_email] with the value it returns. [send_email]
    is what [mcp_connector.send_approval_email] does: it returns a message
    id or [None], or raises. None of the ways out of the function is a
    [return] with a value. *)
Definition _send_batch_approval_email_value
    (approval_requests : list ApprovalRequest) (batch_token : string) (now : Z)
    (send_email : Outcome (option string)) : Webhook.M (option string) :=
  match approval_requests with
  | [] => Webhook.ret None
  | _ :: _ =>
      Webhook.bind
        (Webhook.store_pending_approval batch_token
           (batch_action_data approval_requests) now)
        (fun stored =>
           if negb stored then Webhook.ret None
           else
             Webhook.bind
               (Webhook.try_except
                  (fun w => (outcome_map (fun _ => tt) send_email, w))
                  (fun _ => Webhook.ret tt))
               (fun _ => Webhook.ret None))
  end.

(** [run_cycle] with the [results] it returns. *)
Definition run_cycle_results (inventory_data : list SkuData) (batch_token : string)
    (now : Z) (send_email : Outcome (option string)) : Webhook.M CycleResults :=
  match inventory_data with
  | [] => Webhook.ret initial_results
  | _ :: _ =>
      let '(pending_approvals, results) :=
        process_inventory 0 inventory_data [] initial_results in
      match pending_approvals with
      | [] => Webhook.ret results
      | _ :: _ =>
          Webhook.bind
            (_send_batch_approval_email_value pending_approvals batch_token now
               send_email)
            (fun batch_message_id =>
               match batch_message_id with
               | Some _ =>
                   Webhook.ret
                     (batch_email_sent (length pending_approvals) results)
               | None =>
                   Webhook.ret
                     (add_error "Failed to send batch approval email" results)
               end)
      end
  end.

End Cycle.

End Agent.

(* ===================================================================== *)
(** ** src/connectors/unified_mcp_connector.py,
       src/connectors/composio_notion_connector.py *)

(** The pages both connectors keep in [demo/notion_pages] when they run
    in demo mode: one JSON file per page, named after the page id. *)
Module Demo.

(** The keys of a page file that some function reads back; the other
    keys ([database_id], [eoq], [forecast], [evidence], [rationale],
    [urgency], [auto_approve] and the time stamps) are written and never
    read. *)
Record DemoPage : Type := {
  pg_page_id : option string;
  pg_id : option string;
  pg_sku : option string;
  pg_quantity : option Q;
  pg_vendor : option string;
  pg_total_cost : option Q;
  pg_cost : option Q;
  pg_status : option string;
  pg_order_confirmation : option string
}.

(** What a file holds: a JSON object, or something [json.load] or the
    update of a key fails on. *)
Inductive FileContent : Type :=
| Json (page : DemoPage)
| NotJson.

(** The directory, keyed by the file names without [.json]; [None] while
    the directory does not exist. The directory is taken to be writable. *)
Definition DemoDir : Type := option (gmap string FileContent).

Definition write_file (name : string) (content : FileContent) (dir : DemoDir)
  : DemoDir :=
  Some (<[name := content]> (default ∅ dir)).

(** [f"demo_page_{int(datetime.now().timestamp())}"], the time being
    counted in microseconds. *)
Definition demo_page_id (now : Z) : string :=
  "demo_page_" +:+ pretty (Z.quot now 1000000).

End Demo.

Module UnifiedMCPConnector.

Import Demo.

Record InventoryItem : Type := {
  sku : string;
  current_stock : Z;
  reorder_point : Z;
  reorder_quantity : Z;
  vendor : string;
  cost : pyfloat;
  description : string;
  category : string
}.

Record ReorderRequest : Type := {
  rr_sku : string;
  rr_quantity : Q;
  rr_vendor : string;
  rr_cost : Q;
  rr_rationale : string;
  rr_urgency : string;
  rr_auto_approve : bool
}.

(** The value of [float(text)]. *)
Inductive FloatValue : Type :=
| Number (q : Q)
| PlusInf
| MinusInf
| NaN.

(** The two exceptions the conversion of a cell can raise. *)
Inductive Failure : Type :=
| ValueError
| OverflowError.

(** [int(x)] for a float [x]. *)
Definition int_of_float (x : FloatValue) : Failure + Z :=
  match x with
  | Number q => inr (py_int q)
  | NaN => inl ValueError
  | PlusInf | MinusInf => inl OverflowError
  end.

(** [max(1.0, 100.0 - trust_score)]: [max] returns its first argument
    unless the second is greater, which [nan] never is. *)
Definition cost_of_trust (trust_score : FloatValue) : pyfloat :=
  match trust_score with
  | Number q => Finite (py_max 1 (100 - q))
  | PlusInf => Finite 1
  | MinusInf => Infinity
  | NaN => Finite 1
  end.

(** [row[k]] when [len(row) > k and row[k]]; a row holds the texts of its
    cells, and the empty text is falsy. *)
Definition cell (row : list string) (k : nat) : option string :=
  match row !! k with
  | Some c => if String.eqb c "" then None else Some c
  | None => None
  end.

Section Parsing.

(** Python's [float(text)]: [None] when it raises [ValueError]. *)
Variable float : string -> option FloatValue.

(** [float(str(row[k])) if len(row) > k and row[k] else default]. *)
Definition float_cell (row : list string) (k : nat) (otherwise : FloatValue)
  : Failure + FloatValue :=
  match cell row k with
  | Some c =>
      match float c with
      | Some x => inr x
      | None => inl ValueError
      end
  | None => inr otherwise
  end.

(** [int(float(str(row[k]))) if len(row) > k and row[k] else default]. *)
Definition int_cell (row : list string) (k : nat) (otherwise : Z) : Failure + Z :=
  match cell row k with
  | Some c =>
      match float c with
      | Some x => int_of_float x
      | None => inl ValueError
      end
  | None => inr otherwise
  end.

(** The body of the [try] in [_parse_inventory_rows], for the [i]-th data
    row: the cells are converted in the order of the source, and the first
    conversion that fails decides the exception. *)
Definition parse_row (i : nat) (row : list string) : Failure + InventoryItem :=
  let sku := default ("UNKNOWN-" +:+ pretty i) (cell row 0) in
  let description := default "Unknown Product" (cell row 1) in
  match int_cell row 2 0 with
  | inl e => inl e
  | inr current_stock =>
  match int_cell row 4 7 with
  | inl e => inl e
  | inr lead_time_days =>
  match int_cell row 5 10 with
  | inl e => inl e
  | inr min_order_qty =>
  let vendor_ids := default "Unknown Vendor" (cell row 6) in
  match int_cell row 7 50 with
  | inl e => inl e
  | inr auto_order_threshold =>
  match float_cell row 8 (Number 80) with
  | inl e => inl e
  | inr trust_score =>
      inr {| sku := sku;
             current_stock := current_stock;
             reorder_point := auto_order_threshold;
             reorder_quantity := min_order_qty;
             vendor := vendor_ids;
             cost := cost_of_trust trust_score;
             description := description;
             category := "General" |}
  end end end end end.

(** The loop of [_parse_inventory_rows]: [except (ValueError, IndexError)]
    skips the row, any other exception leaves the function. *)
Fixpoint parse_rows (i : nat) (rows : list (list string))
    (items : list InventoryItem) : Failure + list InventoryItem :=
  match rows with
  | [] => inr items
  | row :: rest =>
      if (4 <=? length row)%nat then
        match parse_row i row with
        | inr item => parse_rows (S i) rest (items ++ [item])
        | inl ValueError => parse_rows (S i) rest items
        | inl OverflowError => inl OverflowError
        end
      else parse_rows (S i) rest items
  end.

(** [_parse_inventory_rows]; the first row is the header. *)
Definition _parse_inventory_rows (rows : list (list string))
  : Failure + list InventoryItem :=
  if (length rows <? 2)%nat then inr []
  else parse_rows 1 (tail rows) [].


End Parsing.

(** [_save_demo_notion_page]. *)
Definition _save_demo_notion_page (page_id : string)
    (reorder_request : ReorderRequest) (dir : DemoDir) : DemoDir :=
  write_file page_id
    (Json {| pg_page_id := None;
             pg_id := Some page_id;
             pg_sku := Some (rr_sku reorder_request);
             pg_quantity := Some (rr_quantity reorder_request);
             pg_vendor := Some (rr_vendor reorder_request);
             pg_total_cost := None;
             pg_cost := Some (rr_cost reorder_request);
             pg_status := None;
             pg_order_confirmation := None |})
    dir.

(** [create_reorder_page]; [mcp_page] is the page id the Notion tool
    returns outside demo mode, [None] when the call fails. *)
Definition create_reorder_page (demo_mode : bool) (mcp_page : option string)
    (now : Z) (reorder_request : ReorderRequest) (dir : DemoDir)
  : option string * DemoDir :=
  if demo_mode then
    let page_id := demo_page_id now in
    (Some page_id, _save_demo_notion_page page_id reorder_request dir)
  else (mcp_page, dir).

End UnifiedMCPConnector.

Module ComposioNotionConnector.

Import Demo.

(** A page in the format of the Notion API, as [_query_demo_database]
    builds it. *)
Record NotionPage : Type := {
  np_id : string;
  np_sku : string;
  np_status : string;
  np_vendor : string;
  np_quantity : Q;
  np_total_cost : Q
}.

(** [_create_demo_page]; it returns the URL of the page. *)
Definition _create_demo_page (now : Z) (sku : string) (qty : Q)
    (vendor_name : string) (total_cost : Q) (dir : DemoDir) : string * DemoDir :=
  let page_id := demo_page_id now in
  ("demo://notion/page/" +:+ page_id,
   write_file page_id
     (Json {| pg_page_id := Some page_id;
              pg_id := None;
              pg_sku := Some sku;
              pg_quantity := Some qty;
              pg_vendor := Some vendor_name;
              pg_total_cost := Some total_cost;
              pg_cost := None;
              pg_status := Some "Pending Approval";
              pg_order_confirmation := None |})
     dir).

(** [_update_demo_page]. *)
Definition _update_demo_page (page_id status : string)
    (order_confirm : option string) (dir : DemoDir) : bool * DemoDir :=
  match dir with
  | None => (false, dir)
  | Some files =>
      match files !! page_id with
      | None => (false, dir)
      | Some NotJson => (false, dir)
      | Some (Json page_data) =>
          (true,
           write_file page_id
             (Json {| pg_page_id := pg_page_id page_data;
                      pg_id := pg_id page_data;
                      pg_sku := pg_sku page_data;
                      pg_quantity := pg_quantity page_data;
                      pg_vendor := pg_vendor page_data;
                      pg_total_cost := pg_total_cost page_data;
                      pg_cost := pg_cost page_data;
                      pg_status := Some status;
                      pg_order_confirmation :=
                        if truthy order_confirm then order_confirm
                        else pg_order_confirmation page_data |})
             dir)
      end
  end.

(** The conversion of a page file to the Notion format. *)
Definition notion_page_of (page_data : DemoPage) : NotionPage :=
  {| np_id := default "" (pg_page_id page_data);
     np_sku := default "" (pg_sku page_data);
     np_status := default "Pending Review" (pg_status page_data);
     np_vendor := default "" (pg_vendor page_data);
     np_quantity := default 0%Q (pg_quantity page_data);
     np_total_cost := default 0%Q (pg_total_cost page_data) |}.

(** The names bound at module level in [composio_notion_connector.py]:
    its imports and its class. [json] is not among them: it is imported
    inside some of the methods only, and [_query_demo_database] is not one
    of these. *)
Definition module_globals : list string :=
  [ "os"; "uuid"; "logging"; "time"; "datetime"; "Path"; "Dict"; "List";
    "Optional"; "Any"; "SyncComposioMCPClient"; "ComposioNotionConnector" ].

(** The loop of [_query_demo_database] over the files found, in a module
    whose globals are [globals]. The body of the [try] opens the file and
    evaluates [json.load]: with [json] unbound this raises [NameError],
    which the [except Exception] answers with [continue], as it does for a
    file that cannot be parsed. The limit is checked after a page has been
    appended. *)
Fixpoint query_loop (globals : list string) (limit : Z)
    (files : list (string * FileContent)) (demo_pages : list NotionPage)
  : list NotionPage :=
  match files with
  | [] => demo_pages
  | (_, content) :: rest =>
      if bool_decide ("json" ∈ globals) then
        match content with
        | Json page_data =>
            let demo_pages := demo_pages ++ [notion_page_of page_data] in
            if limit <=? Z.of_nat (length demo_pages) then demo_pages
            else query_loop globals limit rest demo_pages
        | NotJson => query_loop globals limit rest demo_pages
        end
      else query_loop globals limit rest demo_pages
  end.

(** [demo_dir.glob("demo_page_*.json")], in the order of the listing. *)
Definition glob_demo_pages (files : gmap string FileContent)
  : list (string * FileContent) :=
  List.filter (fun f => String.prefix "demo_page_" f.1) (map_to_list files).

Definition _query_demo_database_in (globals : list string) (limit : Z)
    (dir : DemoDir) : list NotionPage :=
  match dir with
  | None => []
  | Some files => query_loop globals limit (glob_demo_pages files) []
  end.

(** [_query_demo_database]; the filter it is given is not used. *)
Definition _query_demo_database (limit : Z) (dir : DemoDir) : list NotionPage :=
  _query_demo_database_in module_globals limit dir.

(** [update_reorder_status]; [mcp_result] is the answer of the Notion
    tool outside demo mode. *)
Definition update_reorder_status (demo_mode : bool) (mcp_result : bool)
    (page_id status : string) (order_confirm : option string) (dir : DemoDir)
  : bool * DemoDir :=
  if demo_mode then _update_demo_page page_id status order_confirm dir
  else (mcp_result, dir).

End ComposioNotionConnector.

(* ===================================================================== *)
(** * Example data *)
(* ===================================================================== *)

Module Examples.

Import Webhook.

(** A single-SKU request stored at time 0, hence expiring at [DAY]. *)
Definition widget_action : ActionData :=
  {| sku := "WIDGET-001"; action_type := "reorder"; vendor := "Acme Supplies";
     quantity := 10; total_cost := 125; rationale := Some "low stock";
     notion_page_id := Some "page-1"; items := None |}.

Definition widget_pending : PendingAction :=
  {| data := widget_action; expires_at := DAY; status := "pending" |}.

Definition widget_store : gmap string PendingAction :=
  {[ "tok-1" := widget_pending ]}.

Definition widget_world : World :=
  {| use_sqlite := true; sqlite_binds := fun _ => true;
     pending := Some widget_store;
     recompute_file := Missing; trace := [] |}.

(** The same world with its backing file unreadable. *)
Definition broken_world : World :=
  {| use_sqlite := true; sqlite_binds := fun _ => true;
     pending := None;
     recompute_file := Missing; trace := [] |}.

(** A batch of three line items, kept by the JSON backend. *)
Definition batch_item (s : string) (q c : Q) : LineItem :=
  {| li_sku := s; li_vendor := "Acme Supplies"; li_quantity := q;
     li_total_cost := c; li_notion_page_id := Some ("page-" +:+ s) |}.

Definition batch_items : list LineItem :=
  [ batch_item "SKU-A" 10 125; batch_item "SKU-B" 20 250; batch_item "SKU-C" 30 375 ].

Definition batch_action : ActionData :=
  {| sku := "BATCH"; action_type := "batch_reorder"; vendor := "MULTIPLE";
     quantity := 60; total_cost := 750;
     rationale := Some "Batch approval for 3 items";
     notion_page_id := None; items := Some batch_items |}.

Definition batch_pending : PendingAction :=
  {| data := batch_action; expires_at := DAY; status := "pending" |}.

Definition batch_world : World :=
  {| use_sqlite := false; sqlite_binds := fun _ => true;
     pending := Some {[ "batch-tok" := batch_pending ]};
     recompute_file := Missing; trace := [] |}.

Definition order_placed (s : string) : OrderResult :=
  {| success := true; order_id := Some ("PO-" +:+ s);
     delivery_date := Some "2025-01-15"; error := None |}.

(** Collaborators that all work. *)
Definition reliable : Collaborators :=
  {| place_order := fun _ s _ => Returns (order_placed s);
     update_page_properties := fun _ _ => Returns tt;
     update_reorder_status := fun _ _ _ => Returns tt;
     update_inventory_status := fun _ _ _ => Returns tt |}.

(** A supplier that refuses SKU-B, and a page and a sheet that cannot be
    updated. *)
Definition flaky : Collaborators :=
  {| place_order := fun _ s _ =>
       if String.eqb s "SKU-B" then Raises "supplier unavailable"
       else Returns (order_placed s);
     update_page_properties := fun _ _ => Raises "no attribute 'update_page_properties'";
     update_reorder_status := fun _ _ _ => Returns tt;
     update_inventory_status := fun _ s _ =>
       if String.eqb s "Ordered" then Raises "sheet unavailable" else Returns tt |}.

(** A supplier that refuses every order. *)
Definition refusing : Collaborators :=
  {| place_order := fun _ _ _ => Raises "supplier unavailable";
     update_page_properties := fun _ _ => Returns tt;
     update_reorder_status := fun _ _ _ => Returns tt;
     update_inventory_status := fun _ _ _ => Returns tt |}.

(** Stand-ins for the two helpers that are not among the source files,
    fixed for the examples below: a SKU consumed at 3 units a day with an
    optimizer that returns the first vendor with an order quantity of 50
    and an annual cost of 14000; and a SKU without any consumption, for
    which the optimizer finds no vendor. *)
Definition steady_demand : list Policy.Transaction -> string -> Q := fun _ _ => 3%Q.

Definition first_vendor : list Policy.Vendor -> Q -> option Policy.Vendor :=
  fun vendors _ =>
    (fun v => Policy.vendor_update v 50 14000) <$> head vendors.

Definition no_demand : list Policy.Transaction -> string -> Q := fun _ _ => 0%Q.

Definition no_vendor : list Policy.Vendor -> Q -> option Policy.Vendor :=
  fun _ _ => None.

(** The item of the policy's own demonstration. *)
Definition widget_item : Policy.InventoryItem :=
  {| Policy.item_sku := "WIDGET-001"; Policy.on_hand := 25;
     Policy.reorder_point := Some 50%Q; Policy.reorder_quantity := None |}.

(** An item at 3 units with a reorder point of 10. *)
Definition low_item : Policy.InventoryItem :=
  {| Policy.item_sku := "TOOL-003"; Policy.on_hand := 3;
     Policy.reorder_point := Some 10%Q; Policy.reorder_quantity := None |}.

Definition priced_vendor (n : string) (price lead : Q) : Policy.Vendor :=
  {| Policy.name := n; Policy.price_per_unit := Some price;
     Policy.unit_cost := Some price; Policy.holding_cost_percentage := Some (1 # 5);
     Policy.order_cost := Some 50%Q; Policy.lead_time := Some lead;
     Policy.eoq := None; Policy.total_annual_cost := None;
     Policy.total_cost := None |}.

Definition three_vendors : list Policy.Vendor :=
  [ priced_vendor "Acme Supplies" (25 # 2) 7;
    priced_vendor "Global Parts" (59 # 5) 10;
    priced_vendor "Quick Ship" (66 # 5) 3 ].

(** A vendor dict that carries no pricing data at all. *)
Definition unpriced_vendor : Policy.Vendor :=
  {| Policy.name := "Acme Supplies"; Policy.price_per_unit := None;
     Policy.unit_cost := None; Policy.holding_cost_percentage := None;
     Policy.order_cost := None; Policy.lead_time := Some 7%Q;
     Policy.eoq := None; Policy.total_annual_cost := None;
     Policy.total_cost := None |}.

(** Two inventory rows, the first below its reorder point. *)
Definition two_rows : list Agent.SkuData :=
  [ {| Agent.sd_sku := Some "TOOL-003"; Agent.sd_on_hand := Some 3%Q;
       Agent.sd_reorder_point := Some 10%Q |};
    {| Agent.sd_sku := Some "GADGET-002"; Agent.sd_on_hand := Some 100%Q;
       Agent.sd_reorder_point := Some 30%Q |} ].

Definition cautious_agent : Agent.AgentConfig :=
  {| Agent.dry_run := true; Agent.auto_order_threshold := 500;
     Agent.vendor_trust_threshold := 8 # 10 |}.

Definition empty_world : World :=
  {| use_sqlite := false; sqlite_binds := fun _ => true; pending := Some ∅;
     recompute_file := Missing; trace := [] |}.

(** What an example run takes from outside: four vendors of the table, a
    clock stopped at 0, a fixed rationale, and a page per SKU. *)
Definition sampled_vendors : nat -> list Policy.Vendor :=
  fun _ => take 4 Agent.all_vendors.

Definition stopped_clock : nat -> Z := fun _ => 0.

Definition plain_rationale : string -> Policy.Decision -> Agent.Rationale :=
  fun s _ =>
    {| Agent.paragraph := "Reorder recommended for " +:+ s; Agent.bullets := [] |}.

Definition page_per_sku : string -> Policy.Decision -> string :=
  fun s _ => "page-" +:+ s.

Definition no_auto_order : string -> Policy.Decision -> bool := fun _ _ => false.

Definition example_run : World -> Outcome bool * World :=
  Agent.run_cycle no_demand no_vendor cautious_agent sampled_vendors stopped_clock
    plain_rationale page_per_sku no_auto_order two_rows "batch-1" 0.

(** A well-stocked item. *)
Definition gadget_item : Policy.InventoryItem :=
  {| Policy.item_sku := "GADGET-002"; Policy.on_hand := 1000;
     Policy.reorder_point := Some 30%Q; Policy.reorder_quantity := None |}.

(** A SQLite store that takes the integers of 64 bits as quantities, and
    a request for more units than that. *)
Definition int64_world : World :=
  {| use_sqlite := true;
     sqlite_binds := fun d =>
       Qle_bool (inject_Z (- 2 ^ 63)) (quantity d)
       && Qle_bool (quantity d) (inject_Z (2 ^ 63 - 1));
     pending := Some widget_store; recompute_file := Missing; trace := [] |}.

Definition huge_action : ActionData :=
  {| sku := "WIDGET-001"; action_type := "reorder"; vendor := "Acme Supplies";
     quantity := inject_Z (2 ^ 63); total_cost := 125;
     rationale := Some "low stock"; notion_page_id := Some "page-1";
     items := None |}.

(** An agent that places orders by itself below 500 from vendors trusted
    at 0.8 or more. *)
Definition eager_agent : Agent.AgentConfig :=
  {| Agent.dry_run := false; Agent.auto_order_threshold := 500;
     Agent.vendor_trust_threshold := 8 # 10 |}.

(** A run of the eager agent whose supplier takes no order, with a mail
    connector that sends the batch and returns its message id. *)
Definition counted_run : World -> Outcome Agent.CycleResults * World :=
  Agent.run_cycle_results no_demand no_vendor eager_agent sampled_vendors
    stopped_clock plain_rationale page_per_sku no_auto_order two_rows "batch-1" 0
    (Returns (Some "msg-1")).

(** A reading of [float(text)] on the few texts of the example sheet. *)
Definition float_of_text (s : string) : option UnifiedMCPConnector.FloatValue :=
  if String.eqb s "3" then Some (UnifiedMCPConnector.Number 3)
  else if String.eqb s "12.5" then Some (UnifiedMCPConnector.Number (25 # 2))
  else if String.eqb s "inf" then Some UnifiedMCPConnector.PlusInf
  else if String.eqb s "nan" then Some UnifiedMCPConnector.NaN
  else None.

Definition sheet_header : list string :=
  ["SKU"; "Description"; "OnHand"; "Unit"].

Definition good_row : list string := ["TOOL-003"; "Wrench"; "3"; "pcs"].

Definition text_row : list string := ["TOOL-004"; "Hammer"; "three"; "pcs"].


Definition helmet_request : UnifiedMCPConnector.ReorderRequest :=
  {| UnifiedMCPConnector.rr_sku := "SAFETY-001";
     UnifiedMCPConnector.rr_quantity := 44;
     UnifiedMCPConnector.rr_vendor := "Safety First Equipment";
     UnifiedMCPConnector.rr_cost := 2860;
     UnifiedMCPConnector.rr_rationale := "Stock below the reorder point";
     UnifiedMCPConnector.rr_urgency := "medium";
     UnifiedMCPConnector.rr_auto_approve := false |}.

Definition gloves_request : UnifiedMCPConnector.ReorderRequest :=
  {| UnifiedMCPConnector.rr_sku := "SAFETY-002";
     UnifiedMCPConnector.rr_quantity := 20;
     UnifiedMCPConnector.rr_vendor := "Safety First Equipment";
     UnifiedMCPConnector.rr_cost := 300;
     UnifiedMCPConnector.rr_rationale := "Stock below the reorder point";
     UnifiedMCPConnector.rr_urgency := "medium";
     UnifiedMCPConnector.rr_auto_approve := false |}.

End Examples.

(* ===================================================================== *)
(** * Properties *)
(* ===================================================================== *)

(** ** The pending-action store *)

Section StoreFacts.

Import Webhook.

Lemma fetch_active_Some (m : gmap string PendingAction) token now a :
  fetch_active m token now = Some a ↔
  m !! token = Some a ∧ status a = "pending" ∧ now < expires_at a.
Proof.
  unfold fetch_active. split.
  - destruct (m !! token) as [b|] eqn:Hb; [|discriminate].
    destruct (String.eqb (status b) "pending") eqn:Hs; simpl; [|discriminate].
    destruct (now <? expires_at b) eqn:Ht; [|discriminate].
    intros [= <-]. apply String.eqb_eq in Hs. apply Z.ltb_lt in Ht. done.
  - intros (-> & Hs & Ht). apply String.eqb_eq in Hs. apply Z.ltb_lt in Ht.
    by rewrite Hs, Ht.
Qed.

Lemma fetch_active_None (m : gmap string PendingAction) token now :
  fetch_active m token now = None ↔
  m !! token = None ∨
  ∃ a, m !! token = Some a ∧ (status a ≠ "pending" ∨ expires_at a ≤ now).
Proof.
  unfold fetch_active. split.
  - destruct (m !! token) as [b|] eqn:Hb; [|by left].
    intros H. right. exists b. split; [done|].
    destruct (String.eqb (status b) "pending") eqn:Hs; simpl in H.
    + destruct (now <? expires_at b) eqn:Ht; [discriminate|].
      right. apply Z.ltb_ge in Ht. lia.
    + left. by apply String.eqb_neq in Hs.
  - intros [-> | (a & -> & [Hs | Ht])]; [done| |].
    + apply String.eqb_neq in Hs. by rewrite Hs.
    + assert ((now <? expires_at a) = false) as -> by (apply Z.ltb_ge; lia).
      by rewrite andb_false_r.
Qed.

Lemma get_pending_action_readable w m token now :
  pending w = Some m →
  get_pending_action token now w
  = (Returns (fetch_active m token now), log_event (StoreRead token) w).
Proof. intros H. unfold get_pending_action. simpl. by rewrite H. Qed.

Lemma get_pending_action_unreadable w token now :
  pending w = None →
  get_pending_action token now w
  = (Returns None, log_event (StoreRead token) w).
Proof. intros H. unfold get_pending_action. simpl. by rewrite H. Qed.

Lemma update_action_status_readable w m token s :
  pending w = Some m →
  update_action_status token s w
  = (Returns true,
     with_pending (alter (set_status s) token m)
       (log_event (StoreUpdate token s) w)).
Proof. intros H. unfold update_action_status. simpl. by rewrite H. Qed.

(** [store_pending_action] on a readable store: it fails, and stores
    nothing, exactly when the SQLite backend cannot bind the values. *)
Lemma store_pending_action_readable w m token d now :
  pending w = Some m →
  store_pending_action token d now w
  = if use_sqlite w && negb (sqlite_binds w d)
    then (Returns false, log_event (StoreInsert token) w)
    else (Returns true,
          with_pending
            (<[token := {| data := if use_sqlite w then sqlite_row d else d;
                           expires_at := now + DAY;
                           status := "pending" |}]> m)
            (log_event (StoreInsert token) w)).
Proof.
  intros Hm. unfold store_pending_action.
  cbn [log_event pending use_sqlite sqlite_binds]. by rewrite Hm.
Qed.

Lemma store_pending_action_unreadable w token d now :
  pending w = None →
  store_pending_action token d now w
  = (Returns false, log_event (StoreInsert token) w).
Proof.
  intros Hm. unfold store_pending_action.
  cbn [log_event pending]. by rewrite Hm.
Qed.

End StoreFacts.

(** C3. On a readable store, [get_pending_action] returns the stored action
    when its status is ['pending'] and its [expires_at] is strictly later
    than the current time, and only then; for a token never stored, an
    action with any other status, or an action with [expires_at <= now]
    (the boundary [expires_at = now] included) it returns [None], the same
    answer in all three cases. Whatever the case, the only trace of the
    call is the read itself, and the stored actions are as they were. *)
Theorem get_pending_action_active_only
    (w : Webhook.World) (m : gmap string Webhook.PendingAction)
    (token : string) (now : Z) :
  Webhook.pending w = Some m →
  (∀ a, (Webhook.get_pending_action token now w).1 = Returns (Some a) ↔
        m !! token = Some a ∧ Webhook.status a = "pending"
        ∧ now < Webhook.expires_at a)
  ∧ (m !! token = None → (Webhook.get_pending_action token now w).1 = Returns None)
  ∧ (∀ a, m !! token = Some a → Webhook.status a ≠ "pending" →
          (Webhook.get_pending_action token now w).1 = Returns None)
  ∧ (∀ a, m !! token = Some a → Webhook.expires_at a ≤ now →
          (Webhook.get_pending_action token now w).1 = Returns None)
  ∧ (Webhook.get_pending_action token now w).2
    = Webhook.log_event (Webhook.StoreRead token) w
  ∧ Webhook.pending (Webhook.get_pending_action token now w).2 = Some m.
Proof.
  intros Hm. rewrite (get_pending_action_readable w m token now Hm). simpl.
  split_and!.
  - intros a. split.
    + intros [= H]. by apply fetch_active_Some in H.
    + intros H. do 2 f_equal. by apply fetch_active_Some.
  - intros H. f_equal. apply fetch_active_None. by left.
  - intros a Ha Hs. f_equal. apply fetch_active_None. right. eauto.
  - intros a Ha Ht. f_equal. apply fetch_active_None. right. eauto.
  - done.
  - done.
Qed.


(** A stored, pending action is fetched one microsecond after it was
    stored and no longer at the instant it expires. *)
Lemma get_pending_action_active_only_witness :
  Webhook.pending Examples.widget_world = Some Examples.widget_store
  ∧ (Webhook.get_pending_action "tok-1" 1 Examples.widget_world).1
    = Returns (Some Examples.widget_pending)
  ∧ (Webhook.get_pending_action "tok-1" DAY Examples.widget_world).1
    = Returns None.
Proof.
  split; [reflexivity|]. split.
  - apply (get_pending_action_active_only Examples.widget_world
             Examples.widget_store "tok-1" 1 eq_refl).
    split; [reflexivity|]. split; [reflexivity|]. vm_compute. reflexivity.
  - apply (get_pending_action_active_only Examples.widget_world
             Examples.widget_store "tok-1" DAY eq_refl)
      with (a := Examples.widget_pending).
    + reflexivity.
    + vm_compute. discriminate.
Defined.

(** C4. [update_action_status] reports success and rewrites the status
    field of the addressed action, whatever its current status: [data] and
    [expires_at] keep their values, and every other token keeps its action.
    For a token that is not stored it still reports success and the store
    is unchanged. No other operation of the manager alters a stored action
    either: a read leaves the store as it is, and storing under a different
    token leaves this token's action as it is. *)
Theorem update_action_status_writes_status_only
    (w : Webhook.World) (m : gmap string Webhook.PendingAction)
    (token new_status : string) :
  Webhook.pending w = Some m →
  (Webhook.update_action_status token new_status w).1 = Returns true
  ∧ (∃ m',
       Webhook.pending (Webhook.update_action_status token new_status w).2 = Some m'
       ∧ (∀ a, m !! token = Some a →
               m' !! token =
               Some {| Webhook.data := Webhook.data a;
                       Webhook.expires_at := Webhook.expires_at a;
                       Webhook.status := new_status |})
       ∧ (m !! token = None → m' = m)
       ∧ (∀ t, t ≠ token → m' !! t = m !! t))
  ∧ (∀ t now, Webhook.pending (Webhook.get_pending_action t now w).2 = Some m)
  ∧ (∀ t d now, t ≠ token →
       ∃ m'', Webhook.pending (Webhook.store_pending_action t d now w).2 = Some m''
              ∧ m'' !! token = m !! token).
Proof.
  intros Hm. rewrite (update_action_status_readable w m token new_status Hm).
  simpl. split_and!.
  - reflexivity.
  - eexists. split_and!; [reflexivity| | |].
    + intros a Ha. rewrite lookup_alter_eq, Ha. reflexivity.
    + intros Hnone. apply map_eq. intros t.
      destruct (decide (t = token)) as [->|Hne].
      * rewrite lookup_alter_eq, Hnone. reflexivity.
      * by rewrite lookup_alter_ne.
    + intros t Hne. by rewrite lookup_alter_ne.
  - intros t now. by rewrite (get_pending_action_readable w m t now Hm).
  - intros t d now Hne. rewrite (store_pending_action_readable w m t d now Hm).
    destruct (_ && _); simpl.
    + exists m. by rewrite Hm.
    + eexists. split; [reflexivity|]. by rewrite lookup_insert_ne.
Qed.

(** Approving the widget request twice: the second, unguarded write still
    reports success, and the expiry is the one set at creation. *)
Lemma update_action_status_writes_status_only_witness :
  Webhook.pending Examples.widget_world = Some Examples.widget_store
  ∧ (Webhook.update_action_status "tok-1" "approved" Examples.widget_world).1
    = Returns true
  ∧ (Webhook.update_action_status "no-such-token" "approved" Examples.widget_world).1
    = Returns true.
Proof.
  split; [reflexivity|]. split.
  - apply (update_action_status_writes_status_only Examples.widget_world
             Examples.widget_store "tok-1" "approved" eq_refl).
  - apply (update_action_status_writes_status_only Examples.widget_world
             Examples.widget_store "no-such-token" "approved" eq_refl).
Defined.

(** ** The four approval endpoints *)

Ltac run_m :=
  unfold Webhook.best_effort;
  unfold mbind, Webhook.M_bind, mret, Webhook.M_ret, Webhook.bind, Webhook.ret,
    Webhook.raise, Webhook.try_except, Webhook.call.

Section EndpointFacts.

Import Webhook.

Variable WEBHOOK_SECRET : string.
Variable ext : Collaborators.

Lemma eqb_secret_ne secret :
  secret ≠ WEBHOOK_SECRET → negb (String.eqb secret WEBHOOK_SECRET) = true.
Proof. intros H. apply String.eqb_neq in H. by rewrite H. Qed.

Lemma approve_action_bad_secret token secret now w :
  secret ≠ WEBHOOK_SECRET →
  approve_action WEBHOOK_SECRET ext token secret now w
  = (Returns (HTTPException 403 "Invalid webhook secret"), w).
Proof. intros H. unfold approve_action. by rewrite (eqb_secret_ne _ H). Qed.

Lemma reject_action_bad_secret token secret now w :
  secret ≠ WEBHOOK_SECRET →
  reject_action WEBHOOK_SECRET ext token secret now w
  = (Returns (HTTPException 403 "Invalid webhook secret"), w).
Proof. intros H. unfold reject_action. by rewrite (eqb_secret_ne _ H). Qed.

Lemma approve_batch_action_bad_secret globals token secret now w :
  secret ≠ WEBHOOK_SECRET →
  approve_batch_action_in WEBHOOK_SECRET ext globals token secret now w
  = (Returns (HTMLResponse 200 (ErrorPage "Invalid webhook secret")), w).
Proof.
  intros H. unfold approve_batch_action_in, try_except.
  by rewrite (eqb_secret_ne _ H).
Qed.

Lemma reject_batch_action_bad_secret globals token secret now w :
  secret ≠ WEBHOOK_SECRET →
  reject_batch_action_in WEBHOOK_SECRET ext globals token secret now w
  = (Returns (HTMLResponse 200 (ErrorPage "Invalid webhook secret")), w).
Proof.
  intros H. unfold reject_batch_action_in, try_except.
  by rewrite (eqb_secret_ne _ H).
Qed.

(** The name [pending_actions] is bound nowhere in [app.py]. *)
Lemma pending_actions_unbound :
  bool_decide ("pending_actions" ∈ module_globals) = false.
Proof. vm_compute. reflexivity. Qed.

Lemma lookup_pending_actions_raises w :
  lookup_name module_globals "pending_actions" w
  = (Raises "name 'pending_actions' is not defined", w).
Proof. unfold lookup_name. rewrite pending_actions_unbound. reflexivity. Qed.

Lemma approve_batch_action_good_secret token now w :
  approve_batch_action WEBHOOK_SECRET ext token WEBHOOK_SECRET now w
  = (Returns (HTMLResponse 200 (ErrorPage
       "Error processing batch approval: name 'pending_actions' is not defined")),
     w).
Proof.
  unfold approve_batch_action, approve_batch_action_in.
  rewrite String.eqb_refl. cbn [negb]. run_m.
  rewrite lookup_pending_actions_raises. reflexivity.
Qed.

Lemma reject_batch_action_good_secret token now w :
  reject_batch_action WEBHOOK_SECRET ext token WEBHOOK_SECRET now w
  = (Returns (HTMLResponse 200 (ErrorPage
       "Error processing batch rejection: name 'pending_actions' is not defined")),
     w).
Proof.
  unfold reject_batch_action, reject_batch_action_in.
  rewrite String.eqb_refl. cbn [negb]. run_m.
  rewrite lookup_pending_actions_raises. reflexivity.
Qed.

End EndpointFacts.

(** C1. A single-item approve call with the matching secret on an active
    pending action places the supplier order first. If the order call
    returns, the handler then attempts the page update (when the action
    carries a page reference), the sheet update and the transition to
    ['approved'], in this order, and answers 200, whatever the page and the
    sheet updates do: their failure neither blocks the transition nor is
    followed by any compensating call to the supplier. After the call the
    action is stored under its token with the status ['approved'], its
    data and its expiry as before, and [get_pending_action] returns it at
    no time any more. If the order call
    raises, nothing else is attempted, the answer is 500, the store is as it
    was and [get_pending_action] still returns the action at any time
    before its expiry. *)
Theorem approve_action_order_of_effects
    (WEBHOOK_SECRET : string) (ext : Webhook.Collaborators)
    (w : Webhook.World) (m : gmap string Webhook.PendingAction)
    (token : string) (now : Z) (a : Webhook.PendingAction) :
  Webhook.pending w = Some m →
  Webhook.fetch_active m token now = Some a →
  let d := Webhook.data a in
  let order := Webhook.PlaceOrder (Webhook.vendor d) (Webhook.sku d) (Webhook.quantity d) in
  let page_step :=
    if truthy (Webhook.notion_page_id d)
    then [Webhook.PageUpdate (default "" (Webhook.notion_page_id d)) "Ordered"]
    else [] in
  match Webhook.place_order ext (Webhook.vendor d) (Webhook.sku d) (Webhook.quantity d) with
  | Returns order_result =>
      Webhook.approve_action WEBHOOK_SECRET ext token WEBHOOK_SECRET now w
      = (Returns (Webhook.HTMLResponse 200
           (Webhook.ApprovedPage (Webhook.sku d)
              (default "N/A" (Webhook.order_id order_result)) (Webhook.vendor d)
              (Webhook.quantity d) (Webhook.total_cost d)
              (default "TBD" (Webhook.delivery_date order_result)))),
         {| Webhook.use_sqlite := Webhook.use_sqlite w;
            Webhook.sqlite_binds := Webhook.sqlite_binds w;
            Webhook.pending :=
              Some (<[token := Webhook.set_status "approved" a]> m);
            Webhook.recompute_file := Webhook.recompute_file w;
            Webhook.trace :=
              Webhook.trace w ++ [Webhook.StoreRead token; order] ++ page_step
              ++ [Webhook.SheetUpdate (Webhook.sku d) "Ordered";
                  Webhook.StoreUpdate token "approved"] |})
      ∧ ∃ m' a',
          Webhook.pending
            (Webhook.approve_action WEBHOOK_SECRET ext token WEBHOOK_SECRET
               now w).2 = Some m'
          ∧ m' !! token = Some a'
          ∧ Webhook.status a' = "approved"
          ∧ Webhook.data a' = Webhook.data a
          ∧ Webhook.expires_at a' = Webhook.expires_at a
          ∧ ∀ later,
              (Webhook.get_pending_action token later
                 (Webhook.approve_action WEBHOOK_SECRET ext token
                    WEBHOOK_SECRET now w).2).1 = Returns None
  | Raises exc =>
      let w' :=
        {| Webhook.use_sqlite := Webhook.use_sqlite w;
           Webhook.sqlite_binds := Webhook.sqlite_binds w;
           Webhook.pending := Some m;
           Webhook.recompute_file := Webhook.recompute_file w;
           Webhook.trace := Webhook.trace w ++ [Webhook.StoreRead token; order] |} in
      Webhook.approve_action WEBHOOK_SECRET ext token WEBHOOK_SECRET now w
      = (Returns (Webhook.HTMLResponse 500
           (Webhook.ErrorPage ("Failed to process approval: " +:+ exc))), w')
      ∧ ∀ later, later < Webhook.expires_at a →
          (Webhook.get_pending_action token later w').1 = Returns (Some a)
  end.
Proof.
  intros Hm Ha d order page_step.
  pose proof (proj1 (fetch_active_Some m token now a) Ha) as (Hlook & Hstatus & _).
  assert (alter (Webhook.set_status "approved") token m
          = <[token := Webhook.set_status "approved" a]> m) as Halter.
  { apply map_eq. intros t. destruct (decide (t = token)) as [->|Hne].
    - by rewrite lookup_alter_eq, lookup_insert_eq, Hlook.
    - by rewrite lookup_alter_ne, lookup_insert_ne. }
  unfold Webhook.approve_action. rewrite String.eqb_refl. cbn [negb]. run_m.
  rewrite (get_pending_action_readable w m token now Hm), Ha.
  fold d. unfold Webhook.log_event at 1. cbn [Webhook.trace Webhook.use_sqlite
    Webhook.pending Webhook.recompute_file].
  destruct (Webhook.place_order ext (Webhook.vendor d) (Webhook.sku d)
              (Webhook.quantity d)) as [order_result|exc] eqn:Horder.
  - subst page_step.
    destruct (truthy (Webhook.notion_page_id d));
      [destruct (Webhook.update_page_properties ext _ _)|];
      destruct (Webhook.update_inventory_status ext _ _ _);
      unfold Webhook.update_action_status, Webhook.log_event, Webhook.with_pending;
      simpl; rewrite Hm; simpl; rewrite Halter, <- !(assoc_L (++));
      (split; [reflexivity|]);
      exists (<[token := Webhook.set_status "approved" a]> m),
        (Webhook.set_status "approved" a);
      (split_and!;
         [reflexivity | by rewrite lookup_insert_eq
         | reflexivity | reflexivity | reflexivity |]);
      intros later; f_equal; apply fetch_active_None; right;
      exists (Webhook.set_status "approved" a);
      (split; [by rewrite lookup_insert_eq|]); left; by cbn.
  - split.
    + unfold Webhook.log_event. simpl. rewrite Hm, <- !(assoc_L (++)). reflexivity.
    + intros later Hlater. unfold Webhook.get_pending_action. simpl. f_equal.
      by apply fetch_active_Some.
Qed.

(** With a page and a sheet that cannot be updated the widget request is
    still ordered and approved; with a supplier that refuses the order it
    stays pending. *)
Lemma approve_action_order_of_effects_witness :
  Webhook.pending Examples.widget_world = Some Examples.widget_store
  ∧ Webhook.fetch_active Examples.widget_store "tok-1" 1 = Some Examples.widget_pending
  ∧ Webhook.approve_action "s3cret" Examples.flaky "tok-1" "s3cret" 1 Examples.widget_world
    = (Returns (Webhook.HTMLResponse 200
         (Webhook.ApprovedPage "WIDGET-001" "PO-WIDGET-001" "Acme Supplies" 10 125
            "2025-01-15")),
       {| Webhook.use_sqlite := true;
          Webhook.sqlite_binds := fun _ => true;
          Webhook.pending :=
            Some {[ "tok-1" := Webhook.set_status "approved" Examples.widget_pending ]};
          Webhook.recompute_file := Webhook.Missing;
          Webhook.trace :=
            [ Webhook.StoreRead "tok-1";
              Webhook.PlaceOrder "Acme Supplies" "WIDGET-001" 10;
              Webhook.PageUpdate "page-1" "Ordered";
              Webhook.SheetUpdate "WIDGET-001" "Ordered";
              Webhook.StoreUpdate "tok-1" "approved" ] |})
  ∧ (∃ m' a',
       Webhook.pending
         (Webhook.approve_action "s3cret" Examples.flaky "tok-1" "s3cret" 1
            Examples.widget_world).2 = Some m'
       ∧ m' !! "tok-1" = Some a'
       ∧ Webhook.status a' = "approved")
  ∧ Webhook.approve_action "s3cret" Examples.refusing "tok-1" "s3cret" 1 Examples.widget_world
    = (Returns (Webhook.HTMLResponse 500
         (Webhook.ErrorPage "Failed to process approval: supplier unavailable")),
       {| Webhook.use_sqlite := true;
          Webhook.sqlite_binds := fun _ => true;
          Webhook.pending := Some Examples.widget_store;
          Webhook.recompute_file := Webhook.Missing;
          Webhook.trace :=
            [ Webhook.StoreRead "tok-1";
              Webhook.PlaceOrder "Acme Supplies" "WIDGET-001" 10 ] |}).
Proof.
  split; [reflexivity|]. split; [reflexivity|].
  pose proof (approve_action_order_of_effects "s3cret" Examples.flaky
                Examples.widget_world Examples.widget_store "tok-1" 1
                Examples.widget_pending eq_refl eq_refl) as Hflaky.
  cbv zeta in Hflaky.
  change (Webhook.place_order Examples.flaky _ _ _)
    with (Returns (A:=Webhook.OrderResult) (Examples.order_placed "WIDGET-001"))
    in Hflaky.
  cbv iota beta in Hflaky. destruct Hflaky as [Hrun Hstored].
  split; [|split].
  - rewrite Hrun. reflexivity.
  - destruct Hstored as (m' & a' & Hm' & Ha' & Hstatus & _).
    exists m', a'. split; [exact Hm'|]. split; [exact Ha'|exact Hstatus].
  - pose proof (approve_action_order_of_effects "s3cret" Examples.refusing
                  Examples.widget_world Examples.widget_store "tok-1" 1
                  Examples.widget_pending eq_refl eq_refl) as H.
    cbv zeta in H.
    change (Webhook.place_order Examples.refusing _ _ _)
      with (Raises (A:=Webhook.OrderResult) "supplier unavailable") in H.
    cbv iota beta in H. destruct H as [H _]. rewrite H. reflexivity.
Defined.

(** C10. When the backing store cannot be read, [get_pending_action]
    returns [None] instead of raising, and the single approve and reject
    endpoints answer the 404 "invalid or expired token" page, the very
    response they give for a token that is not active in a readable store.
    None of the four endpoints answers such a call with a 500. *)
Theorem unreadable_store_reads_as_not_found
    (WEBHOOK_SECRET : string) (ext : Webhook.Collaborators)
    (w : Webhook.World) (token : string) (now : Z) :
  Webhook.pending w = None →
  (Webhook.get_pending_action token now w).1 = Returns None
  ∧ (Webhook.approve_action WEBHOOK_SECRET ext token WEBHOOK_SECRET now w).1
    = Returns (Webhook.HTMLResponse 404 (Webhook.ErrorPage
        "Invalid or expired approval token. The action may have already been processed or expired."))
  ∧ (Webhook.reject_action WEBHOOK_SECRET ext token WEBHOOK_SECRET now w).1
    = Returns (Webhook.HTMLResponse 404 (Webhook.ErrorPage
        "Invalid or expired rejection token. The action may have already been processed or expired."))
  ∧ (∀ w0 m, Webhook.pending w0 = Some m →
       Webhook.fetch_active m token now = None →
       (Webhook.approve_action WEBHOOK_SECRET ext token WEBHOOK_SECRET now w0).1
       = (Webhook.approve_action WEBHOOK_SECRET ext token WEBHOOK_SECRET now w).1
       ∧ (Webhook.reject_action WEBHOOK_SECRET ext token WEBHOOK_SECRET now w0).1
         = (Webhook.reject_action WEBHOOK_SECRET ext token WEBHOOK_SECRET now w).1)
  ∧ (∀ secret endpoint,
       endpoint ∈ [ Webhook.approve_action WEBHOOK_SECRET ext;
                    Webhook.reject_action WEBHOOK_SECRET ext;
                    Webhook.approve_batch_action WEBHOOK_SECRET ext;
                    Webhook.reject_batch_action WEBHOOK_SECRET ext ] →
       ∃ response, (endpoint token secret now w).1 = Returns response
                   ∧ Webhook.status_code_of response ≠ 500).
Proof.
  intros Hw.
  assert ((Webhook.approve_action WEBHOOK_SECRET ext token WEBHOOK_SECRET now w).1
          = Returns (Webhook.HTMLResponse 404 (Webhook.ErrorPage
        "Invalid or expired approval token. The action may have already been processed or expired.")))
    as Happrove.
  { unfold Webhook.approve_action. rewrite String.eqb_refl. cbn [negb]. run_m.
    by rewrite (get_pending_action_unreadable w token now Hw). }
  assert ((Webhook.reject_action WEBHOOK_SECRET ext token WEBHOOK_SECRET now w).1
          = Returns (Webhook.HTMLResponse 404 (Webhook.ErrorPage
        "Invalid or expired rejection token. The action may have already been processed or expired.")))
    as Hreject.
  { unfold Webhook.reject_action. rewrite String.eqb_refl. cbn [negb]. run_m.
    by rewrite (get_pending_action_unreadable w token now Hw). }
  split_and!.
  - by rewrite (get_pending_action_unreadable w token now Hw).
  - exact Happrove.
  - exact Hreject.
  - intros w0 m Hm Hnone. rewrite Happrove, Hreject. split.
    + unfold Webhook.approve_action. rewrite String.eqb_refl. cbn [negb]. run_m.
      by rewrite (get_pending_action_readable w0 m token now Hm), Hnone.
    + unfold Webhook.reject_action. rewrite String.eqb_refl. cbn [negb]. run_m.
      by rewrite (get_pending_action_readable w0 m token now Hm), Hnone.
  - intros secret endpoint Hin.
    destruct (decide (secret = WEBHOOK_SECRET)) as [->|Hne];
      repeat (apply elem_of_cons in Hin as [->|Hin]);
      try (by apply elem_of_nil in Hin).
    + eexists. split; [exact Happrove|]. simpl. lia.
    + eexists. split; [exact Hreject|]. simpl. lia.
    + eexists. rewrite approve_batch_action_good_secret. split; [reflexivity|].
      simpl. lia.
    + eexists. rewrite reject_batch_action_good_secret. split; [reflexivity|].
      simpl. lia.
    + eexists. rewrite (approve_action_bad_secret _ _ _ _ _ _ Hne).
      split; [reflexivity|]. simpl. lia.
    + eexists. rewrite (reject_action_bad_secret _ _ _ _ _ _ Hne).
      split; [reflexivity|]. simpl. lia.
    + eexists. unfold Webhook.approve_batch_action.
      rewrite (approve_batch_action_bad_secret _ _ _ _ _ _ _ Hne).
      split; [reflexivity|]. simpl. lia.
    + eexists. unfold Webhook.reject_batch_action.
      rewrite (reject_batch_action_bad_secret _ _ _ _ _ _ _ Hne).
      split; [reflexivity|]. simpl. lia.
Qed.

(** An approve call on the world whose backing file is unreadable. *)
Lemma unreadable_store_reads_as_not_found_witness :
  Webhook.pending Examples.broken_world = None
  ∧ (Webhook.get_pending_action "tok-1" 1 Examples.broken_world).1 = Returns None
  ∧ (Webhook.approve_action "s3cret" Examples.reliable "tok-1" "s3cret" 1
       Examples.broken_world).1
    = Returns (Webhook.HTMLResponse 404 (Webhook.ErrorPage
        "Invalid or expired approval token. The action may have already been processed or expired.")).
Proof.
  split; [reflexivity|].
  pose proof (unreadable_store_reads_as_not_found "s3cret" Examples.reliable
                Examples.broken_world "tok-1" 1 eq_refl) as (H1 & H2 & _).
  split; [exact H1 | exact H2].
Defined.

(** ** The batch endpoints *)

Section RecomputeFile.

Import Webhook.

Lemma keeps_ret {A} (a : A) : keeps_recompute_file (ret a).
Proof. by intros w. Qed.

Lemma keeps_raise {A} exc : keeps_recompute_file (@raise A exc).
Proof. by intros w. Qed.

Lemma keeps_call {A} e (r : Outcome A) : keeps_recompute_file (call e r).
Proof. by intros w. Qed.

Lemma keeps_bind {A B} (m : M A) (k : A → M B) :
  keeps_recompute_file m → (∀ a, keeps_recompute_file (k a)) →
  keeps_recompute_file (bind m k).
Proof.
  intros Hm Hk w. unfold bind. specialize (Hm w).
  destruct (m w) as [[a|exc] w']; simpl in *; [|done].
  by rewrite Hk.
Qed.

Lemma keeps_mbind {A B} (m : M A) (k : A → M B) :
  keeps_recompute_file m → (∀ a, keeps_recompute_file (k a)) →
  keeps_recompute_file (m ≫= k).
Proof. apply keeps_bind. Qed.

Lemma keeps_try_except {A} (m : M A) (h : string → M A) :
  keeps_recompute_file m → (∀ e, keeps_recompute_file (h e)) →
  keeps_recompute_file (try_except m h).
Proof.
  intros Hm Hh w. unfold try_except. specialize (Hm w).
  destruct (m w) as [[a|exc] w']; simpl in *; [done|].
  by rewrite Hh.
Qed.

Lemma keeps_get_pending_action token now :
  keeps_recompute_file (get_pending_action token now).
Proof. intros w. unfold get_pending_action. simpl. by destruct (pending w). Qed.

Lemma keeps_update_action_status token s :
  keeps_recompute_file (update_action_status token s).
Proof. intros w. unfold update_action_status. simpl. by destruct (pending w). Qed.

Lemma keeps_lookup_name globals n : keeps_recompute_file (lookup_name globals n).
Proof. intros w. unfold lookup_name. by case_bool_decide. Qed.

Lemma keeps_reject_batch_item ext item :
  keeps_recompute_file (reject_batch_item ext item).
Proof.
  unfold reject_batch_item. apply keeps_try_except; [|intros; apply keeps_ret].
  apply keeps_mbind.
  - destruct (truthy _); [apply keeps_call | apply keeps_ret].
  - intros _. apply keeps_mbind; [apply keeps_call|]. intros _. apply keeps_ret.
Qed.

Lemma keeps_reject_batch_items ext items acc :
  keeps_recompute_file (reject_batch_items ext items acc).
Proof.
  revert acc. induction items as [|item rest IH]; intros acc; simpl.
  - apply keeps_ret.
  - apply keeps_mbind; [apply keeps_reject_batch_item|].
    intros [x|]; apply IH.
Qed.

(** The batch rejection never queues a recompute task, in whatever module
    it runs and whatever it is called with. *)
Lemma reject_batch_action_keeps_recompute_file secret0 ext globals token secret now :
  keeps_recompute_file (reject_batch_action_in secret0 ext globals token secret now).
Proof.
  unfold reject_batch_action_in.
  apply keeps_try_except; [|intros; apply keeps_ret].
  destruct (negb _); [apply keeps_ret|].
  apply keeps_mbind; [apply keeps_lookup_name|]. intros _.
  apply keeps_mbind; [apply keeps_get_pending_action|]. intros [action|];
    [|apply keeps_ret].
  destruct (negb _); [apply keeps_ret|].
  apply keeps_mbind; [apply keeps_reject_batch_items|]. intros rejected.
  apply keeps_mbind; [apply keeps_lookup_name|]. intros _.
  apply keeps_mbind; [apply keeps_update_action_status|]. intros _.
  apply keeps_ret.
Qed.

End RecomputeFile.

Section BatchLoop.

Import Webhook.

Variable WEBHOOK_SECRET : string.
Variable ext : Collaborators.

(** An item of the batch ends in exactly one of the two lists, whatever
    the collaborators do, and the store is not written meanwhile. *)
Lemma approve_batch_item_returns token item w :
  ∃ r, (approve_batch_item ext token item w).1 = Returns r
       ∧ pending (approve_batch_item ext token item w).2 = pending w.
Proof.
  unfold approve_batch_item. run_m.
  destruct (place_order ext _ _ _) as [order_result|exc]; cbn; [|eauto].
  destruct (success order_result); cbn; [|eauto].
  destruct (truthy _); cbn.
  - destruct (update_reorder_status ext _ _ _); cbn; [|eauto].
    destruct (update_inventory_status ext _ _ _); cbn; eauto.
  - destruct (update_inventory_status ext _ _ _); cbn; eauto.
Qed.

Lemma approve_batch_items_returns token items approved failed w :
  ∃ approved' failed',
    (approve_batch_items ext token items approved failed w).1
    = Returns (approved ++ approved', failed ++ failed')
    ∧ (length approved' + length failed' = length items)%nat
    ∧ pending (approve_batch_items ext token items approved failed w).2 = pending w.
Proof.
  revert approved failed w.
  induction items as [|item rest IH]; intros approved failed w.
  - exists [], []. cbn. by rewrite !app_nil_r.
  - cbn [approve_batch_items]. unfold mbind, M_bind, bind.
    destruct (approve_batch_item_returns token item w) as (r & Hr & Hp).
    destruct (approve_batch_item ext token item w) as [o w1]. cbn in Hr, Hp.
    subst o. destruct r as [x|x].
    + destruct (IH (approved ++ [x]) failed w1) as (a' & f' & Hres & Hlen & Hpend).
      exists (x :: a'), f'. rewrite Hres, Hpend, Hp, <- (assoc_L (++)).
      cbn. split_and!; [done | lia | done].
    + destruct (IH approved (failed ++ [x]) w1) as (a' & f' & Hres & Hlen & Hpend).
      exists a', (x :: f'). rewrite Hres, Hpend, Hp, <- (assoc_L (++)).
      cbn. split_and!; [done | lia | done].
Qed.

(** With the manager reachable under the name the handler uses, a batch
    approval on an active batch action answers with every item in one of
    the two lists and transitions the token to approved, however many
    items failed. *)
Lemma approve_batch_action_in_resolves globals token now w m a :
  "pending_actions" ∈ globals →
  pending w = Some m →
  fetch_active m token now = Some a →
  action_type (data a) = "batch_reorder" →
  ∃ approved failed w',
    approve_batch_action_in WEBHOOK_SECRET ext globals token WEBHOOK_SECRET now w
    = (Returns (HTMLResponse 200
         (BatchApprovalPage approved failed
            (py_sum (li_total_cost <$> default [] (items (data a)))))), w')
    ∧ (length approved + length failed
       = length (default [] (items (data a))))%nat
    ∧ pending w' = Some (alter (set_status "approved") token m).
Proof.
  intros Hbound Hm Ha Htype.
  unfold approve_batch_action_in. rewrite String.eqb_refl. cbn [negb].
  unfold lookup_name. rewrite (bool_decide_eq_true_2 _ Hbound).
  run_m. rewrite (get_pending_action_readable w m token now Hm), Ha, Htype.
  rewrite String.eqb_refl. cbn [negb].
  destruct (approve_batch_items_returns token (default [] (items (data a))) [] []
              (log_event (StoreRead token) w)) as (ap & fl & Hres & Hlen & Hpend).
  destruct (approve_batch_items ext token _ [] [] _) as [o w1].
  cbn in Hres, Hpend. subst o. cbn.
  unfold update_action_status. cbn. rewrite Hpend, Hm. cbn.
  eexists ap, fl, _. split; [reflexivity|]. split; [exact Hlen|]. reflexivity.
Qed.

End BatchLoop.

(** What the batch approval does once the manager is reachable under the
    name it uses: with a supplier that refuses the second of three items,
    two items are approved, one is failed, and the token ends approved. *)
Lemma approve_batch_action_when_bound :
  let r := Webhook.approve_batch_action_in "s3cret" Examples.flaky
             ("pending_actions" :: Webhook.module_globals)
             "batch-tok" "s3cret" 1 Examples.batch_world in
  r.1 = Returns (Webhook.HTMLResponse 200
          (Webhook.BatchApprovalPage
             [ {| Webhook.ap_sku := "SKU-A"; Webhook.ap_order_id := "PO-SKU-A";
                  Webhook.ap_quantity := 10; Webhook.ap_vendor := "Acme Supplies" |};
               {| Webhook.ap_sku := "SKU-C"; Webhook.ap_order_id := "PO-SKU-C";
                  Webhook.ap_quantity := 30; Webhook.ap_vendor := "Acme Supplies" |} ]
             [ {| Webhook.fl_sku := "SKU-B";
                  Webhook.fl_error := "supplier unavailable" |} ]
             (Webhook.py_sum [125; 250; 375]%Q)))
  ∧ Webhook.pending r.2
    = Some {[ "batch-tok" := Webhook.set_status "approved" Examples.batch_pending ]}.
Proof. vm_compute. split; reflexivity. Qed.

(** What the single rejection does and the batch rejection, even with the
    manager reachable, does not: queue a recompute task. *)
Lemma reject_action_queues_recompute :
  Webhook.recompute_file
    (Webhook.reject_action "s3cret" Examples.reliable "tok-1" "s3cret" 1
       Examples.widget_world).2
  = Webhook.Holds
      [ {| Webhook.rc_sku := "WIDGET-001"; Webhook.rc_reason := "manual_rejection";
           Webhook.rc_timestamp := 1; Webhook.rc_original_vendor := "Acme Supplies";
           Webhook.rc_original_quantity := 10 |} ].
Proof. vm_compute. reflexivity. Qed.

Lemma reject_batch_action_when_bound :
  let r := Webhook.reject_batch_action_in "s3cret" Examples.reliable
             ("pending_actions" :: Webhook.module_globals)
             "batch-tok" "s3cret" 1 Examples.batch_world in
  Webhook.pending r.2
  = Some {[ "batch-tok" := Webhook.set_status "rejected" Examples.batch_pending ]}
  ∧ Webhook.trace r.2
    = [ Webhook.StoreRead "batch-tok";
        Webhook.PageUpdate "page-SKU-A" "rejected"; Webhook.SheetUpdate "SKU-A" "rejected";
        Webhook.PageUpdate "page-SKU-B" "rejected"; Webhook.SheetUpdate "SKU-B" "rejected";
        Webhook.PageUpdate "page-SKU-C" "rejected"; Webhook.SheetUpdate "SKU-C" "rejected";
        Webhook.StoreUpdate "batch-tok" "rejected" ]
  ∧ Webhook.recompute_file r.2 = Webhook.Missing.
Proof. vm_compute. split_and!; reflexivity. Qed.

(** C2, at a failing input. The batch approve endpoint is called with the
    matching secret on an active batch of three items. The handler reaches
    for the manager under the name [pending_actions], which the module does
    not define: the [NameError] is caught by the handler's outer [except]
    and answered with an error page. No item is processed, no order is
    placed, and the token is left pending, where Scenario 3 of the
    specification has two approved items, one failed item and an approved
    token ([approve_batch_action_when_bound] is that scenario with the name
    bound). *)
Theorem approve_batch_action_raises_name_error :
  (Webhook.get_pending_action "batch-tok" 1 Examples.batch_world).1
  = Returns (Some Examples.batch_pending)
  ∧ Webhook.action_type (Webhook.data Examples.batch_pending) = "batch_reorder"
  ∧ Webhook.approve_batch_action "s3cret" Examples.flaky "batch-tok" "s3cret" 1
      Examples.batch_world
    = (Returns (Webhook.HTMLResponse 200 (Webhook.ErrorPage
         "Error processing batch approval: name 'pending_actions' is not defined")),
       Examples.batch_world).
Proof.
  split; [reflexivity|]. split; [reflexivity|].
  apply approve_batch_action_good_secret.
Qed.

(** C6, at a failing input. A call with a secret that does not match
    leaves the world untouched on all four endpoints, but only the two
    single-item endpoints raise the 403: the two batch endpoints return the
    error page as an ordinary 200 response. *)
Theorem batch_endpoints_answer_bad_secret_with_200
    (ext : Webhook.Collaborators) (w : Webhook.World) :
  Webhook.approve_batch_action "s3cret" ext "batch-tok" "wrong" 1 w
  = (Returns (Webhook.HTMLResponse 200 (Webhook.ErrorPage "Invalid webhook secret")), w)
  ∧ Webhook.reject_batch_action "s3cret" ext "batch-tok" "wrong" 1 w
    = (Returns (Webhook.HTMLResponse 200 (Webhook.ErrorPage "Invalid webhook secret")), w)
  ∧ Webhook.approve_action "s3cret" ext "batch-tok" "wrong" 1 w
    = (Returns (Webhook.HTTPException 403 "Invalid webhook secret"), w)
  ∧ Webhook.reject_action "s3cret" ext "batch-tok" "wrong" 1 w
    = (Returns (Webhook.HTTPException 403 "Invalid webhook secret"), w).
Proof.
  assert ("wrong" ≠ "s3cret") as Hne by discriminate.
  split_and!.
  - by apply approve_batch_action_bad_secret.
  - by apply reject_batch_action_bad_secret.
  - by apply approve_action_bad_secret.
  - by apply reject_action_bad_secret.
Qed.

(** C7, at a failing input. The batch reject endpoint is called with the
    matching secret on an active batch. As in the batch approval the name
    [pending_actions] is undefined: the call ends in the error page with
    the world as it was, so no item is marked rejected, the token is not
    transitioned and no recompute task is queued. (No recompute task is
    queued by this handler in any case:
    [reject_batch_action_keeps_recompute_file].) *)
Theorem reject_batch_action_raises_name_error :
  (Webhook.get_pending_action "batch-tok" 1 Examples.batch_world).1
  = Returns (Some Examples.batch_pending)
  ∧ Webhook.action_type (Webhook.data Examples.batch_pending) = "batch_reorder"
  ∧ Webhook.reject_batch_action "s3cret" Examples.reliable "batch-tok" "s3cret" 1
      Examples.batch_world
    = (Returns (Webhook.HTMLResponse 200 (Webhook.ErrorPage
         "Error processing batch rejection: name 'pending_actions' is not defined")),
       Examples.batch_world).
Proof.
  split; [reflexivity|]. split; [reflexivity|].
  apply reject_batch_action_good_secret.
Qed.

(** ** The reorder policy *)

Section NumberFacts.

Lemma Qlt_bool_true x y : Qlt_bool x y = true ↔ (x < y)%Q.
Proof.
  unfold Qlt_bool. rewrite negb_true_iff. split.
  - intros H. apply Qnot_le_lt. intros Hle.
    apply Qle_bool_iff in Hle. congruence.
  - intros H. destruct (Qle_bool y x) eqn:E; [|done].
    apply Qle_bool_iff in E. exfalso. by apply (Qlt_not_le x y).
Qed.

Lemma Qlt_bool_false x y : Qlt_bool x y = false ↔ (y <= x)%Q.
Proof.
  unfold Qlt_bool. rewrite negb_false_iff. apply Qle_bool_iff.
Qed.

Lemma py_max_l a b : (a <= py_max a b)%Q.
Proof.
  unfold py_max. destruct (Qlt_bool a b) eqn:E.
  - apply Qlt_bool_true in E. by apply Qlt_le_weak.
  - apply Qle_refl.
Qed.

Lemma py_max_r a b : (b <= py_max a b)%Q.
Proof.
  unfold py_max. destruct (Qlt_bool a b) eqn:E.
  - apply Qle_refl.
  - by apply Qlt_bool_false in E.
Qed.

Lemma py_max_cases a b : py_max a b = a ∨ py_max a b = b.
Proof. unfold py_max. destruct (Qlt_bool a b); auto. Qed.

Lemma py_max3_mid a b c : (b <= py_max3 a b c)%Q.
Proof.
  unfold py_max3. eapply Qle_trans; [apply (py_max_r a b) | apply py_max_l].
Qed.

Lemma day_of_add t k : day_of (t + k * DAY) = day_of t + k.
Proof. unfold day_of. apply Z.div_add. unfold DAY. lia. Qed.

Lemma float_le_infinity y : float_le Infinity y = false.
Proof. reflexivity. Qed.

Lemma py_int_nonneg q : (0 <= q)%Q → 0 ≤ py_int q.
Proof.
  intros Hq. unfold py_int. apply Z.quot_pos; [|lia].
  unfold Qle in Hq. cbn in Hq. lia.
Qed.

Lemma round_half_even_nonneg q : (0 <= q)%Q → 0 ≤ round_half_even q.
Proof.
  intros Hq. unfold round_half_even.
  assert (0 ≤ Qfloor q) as Hf.
  { change 0 with (Qfloor 0). by apply Qfloor_resp_le. }
  destruct (Qcompare _ _); [destruct (Z.even _)| |]; lia.
Qed.

Lemma binary64_of_Z_nonneg n : 0 ≤ n → 0 ≤ Webhook.binary64_of_Z n.
Proof.
  intros Hn. unfold Webhook.binary64_of_Z.
  destruct (_ <=? 0) eqn:He; [done|]. apply Z.leb_gt in He.
  apply Z.mul_nonneg_nonneg; [|by apply Z.pow_nonneg].
  apply round_half_even_nonneg. apply Qmult_le_0_compat.
  - by apply (Qle_trans _ (inject_Z 0)); [apply Qle_refl | rewrite <- Zle_Qle].
  - apply Qinv_le_0_compat. rewrite <- (Zle_Qle 0). by apply Z.pow_nonneg.
Qed.

(** An integer of at most 53 bits is its own binary64. *)
Lemma binary64_of_Z_small n : Z.abs n < 2 ^ 53 → Webhook.binary64_of_Z n = n.
Proof.
  intros Hn. unfold Webhook.binary64_of_Z.
  assert (Z.log2 (Z.abs n) < 53) as Hlog.
  { destruct (decide (Z.abs n = 0)) as [->|Hnz]; [done|].
    apply Z.log2_lt_pow2; lia. }
  destruct (_ <=? 0) eqn:He; [done|]. apply Z.leb_gt in He. lia.
Qed.

Lemma sqlite_real_nonneg q : (0 <= q)%Q → (0 <= Webhook.sqlite_real q)%Q.
Proof.
  intros Hq. unfold Webhook.sqlite_real. destruct (_ && _); [|done].
  rewrite <- (Zle_Qle 0). by apply binary64_of_Z_nonneg, py_int_nonneg.
Qed.

(** A [REAL] column gives back every number that is no integer, and every
    integer of at most 53 bits. *)
Lemma sqlite_real_small q :
  Z.abs (py_int q) < 2 ^ 53 → Webhook.sqlite_real q = q.
Proof.
  intros Hq. unfold Webhook.sqlite_real.
  rewrite (binary64_of_Z_small _ Hq), Z.eqb_refl. by rewrite andb_false_r.
Qed.

End NumberFacts.

Section PolicyFacts.

Import Policy.

(** The fallback loop returns the first of the cheapest priced vendors. *)
Lemma fallback_loop_spec (vendors : list Vendor) :
  match foldl fallback_step None vendors with
  | None => ∀ v, v ∈ vendors → price_per_unit v = None
  | Some (p, v) =>
      v ∈ vendors ∧ price_per_unit v = Some p
      ∧ ∀ v' p', v' ∈ vendors → price_per_unit v' = Some p' → (p <= p')%Q
  end.
Proof.
  induction vendors as [|x l IH] using rev_ind; simpl.
  - intros v Hv. by apply elem_of_nil in Hv.
  - rewrite foldl_app. simpl.
    destruct (foldl fallback_step None l) as [[p v]|]; unfold fallback_step.
    + destruct IH as (Hin & Hp & Hmin).
      destruct (price_per_unit x) as [px|] eqn:Hx.
      * destruct (Qlt_bool px p) eqn:Hlt.
        -- apply Qlt_bool_true in Hlt. split_and!.
           ++ apply elem_of_app. right. by apply list_elem_of_singleton.
           ++ done.
           ++ intros v' p' [Hv'|Hv']%elem_of_app Hp'.
              ** eapply Qle_trans; [by apply Qlt_le_weak|]. by eapply Hmin.
              ** apply list_elem_of_singleton in Hv' as ->.
                 rewrite Hx in Hp'. injection Hp' as <-. apply Qle_refl.
        -- apply Qlt_bool_false in Hlt. split_and!.
           ++ apply elem_of_app. by left.
           ++ done.
           ++ intros v' p' [Hv'|Hv']%elem_of_app Hp'.
              ** by eapply Hmin.
              ** apply list_elem_of_singleton in Hv' as ->.
                 rewrite Hx in Hp'. by injection Hp' as <-.
      * split_and!.
        -- apply elem_of_app. by left.
        -- done.
        -- intros v' p' [Hv'|Hv']%elem_of_app Hp'.
           ++ by eapply Hmin.
           ++ apply list_elem_of_singleton in Hv' as ->. congruence.
    + destruct (price_per_unit x) as [px|] eqn:Hx.
      * split_and!.
        -- apply elem_of_app. right. by apply list_elem_of_singleton.
        -- done.
        -- intros v' p' [Hv'|Hv']%elem_of_app Hp'.
           ++ rewrite (IH v' Hv') in Hp'. discriminate.
           ++ apply list_elem_of_singleton in Hv' as ->.
              rewrite Hx in Hp'. injection Hp' as <-. apply Qle_refl.
      * intros v' [Hv'|Hv']%elem_of_app.
        -- by apply IH.
        -- by apply list_elem_of_singleton in Hv' as ->.
Qed.

Lemma select_fallback_vendor_Some vendors v :
  select_fallback_vendor vendors = Some v →
  v ∈ vendors
  ∧ ∃ p, price_per_unit v = Some p
         ∧ ∀ v' p', v' ∈ vendors → price_per_unit v' = Some p' → (p <= p')%Q.
Proof.
  unfold select_fallback_vendor. pose proof (fallback_loop_spec vendors) as H.
  destruct (foldl fallback_step None vendors) as [[p u]|]; [|discriminate].
  intros [= <-]. destruct H as (Hin & Hp & Hmin). eauto.
Qed.

Lemma select_fallback_vendor_None vendors :
  select_fallback_vendor vendors = None →
  ∀ v, v ∈ vendors → price_per_unit v = None.
Proof.
  unfold select_fallback_vendor. pose proof (fallback_loop_spec vendors) as H.
  by destruct (foldl fallback_step None vendors) as [[p u]|].
Qed.

End PolicyFacts.




(** The clock enters a decision through its ['stockout_date'] only. *)
Lemma evaluate_reorder_need_clock_only_in_date
    (compute_daily_average : list Policy.Transaction → string → Q)
    (select_best_vendor : list Policy.Vendor → Q → option Policy.Vendor)
    (self : Policy.ReorderPolicy) (item : Policy.InventoryItem)
    (transactions : list Policy.Transaction) (vendors : list Policy.Vendor)
    (target_stock_days : Q) (now1 now2 : Z) (d1 d2 : Policy.Decision) :
  Policy.evaluate_reorder_need compute_daily_average select_best_vendor
    self now1 item transactions vendors target_stock_days = Returns d1 →
  Policy.evaluate_reorder_need compute_daily_average select_best_vendor
    self now2 item transactions vendors target_stock_days = Returns d2 →
  Policy.without_stockout_date d1 = Policy.without_stockout_date d2.
Proof.
  unfold Policy.evaluate_reorder_need.
  destruct vendors as [|v rest]; [discriminate|].
  destruct (Policy.resolve_vendor _ _ _ _ _ _); [|by intros [= <-] [= <-]].
  destruct (Policy.estimate_days_until_stockout _ _) as [days|];
    [|by intros [= <-] [= <-]].
  cbn [outcome_map].
  destruct (add_days now1 _); [|discriminate].
  destruct (add_days now2 _); [|discriminate].
  by intros [= <-] [= <-].
Qed.

(** Whether the date arithmetic overflows depends on the calendar date of
    the clock only. *)
Lemma add_days_same_day now1 now2 k :
  day_of now1 = day_of now2 →
  outcome_map (λ t, Some (day_of t)) (add_days now1 k)
  = outcome_map (λ t, Some (day_of t)) (add_days now2 k).
Proof.
  intros Hday. unfold add_days.
  destruct (negb _); [done|]. destruct (negb _); [done|].
  cbv zeta. rewrite !day_of_add, Hday.
  destruct (_ && _); cbn [outcome_map]; [|done].
  by rewrite !day_of_add, Hday.
Qed.

(** C8, as amended. Two evaluations of [evaluate_reorder_need] on the same
    item, transactions and vendors give the same decision record whenever
    the clock reads the same calendar date in both. *)
Theorem evaluate_reorder_need_same_day
    (compute_daily_average : list Policy.Transaction → string → Q)
    (select_best_vendor : list Policy.Vendor → Q → option Policy.Vendor)
    (self : Policy.ReorderPolicy) (item : Policy.InventoryItem)
    (transactions : list Policy.Transaction) (vendors : list Policy.Vendor)
    (target_stock_days : Q) (now1 now2 : Z) :
  day_of now1 = day_of now2 →
  Policy.evaluate_reorder_need compute_daily_average select_best_vendor
    self now1 item transactions vendors target_stock_days
  = Policy.evaluate_reorder_need compute_daily_average select_best_vendor
      self now2 item transactions vendors target_stock_days.
Proof.
  intros Hday. unfold Policy.evaluate_reorder_need.
  destruct vendors as [|v rest]; [reflexivity|].
  destruct (Policy.resolve_vendor _ _ _ _ _ _) as [best_vendor|]; [|reflexivity].
  destruct (Policy.estimate_days_until_stockout _ _) as [days|]; [|reflexivity].
  by rewrite (add_days_same_day now1 now2 (py_int days) Hday).
Qed.

(** Scenario 2 evaluated at midnight and one hour later. *)
Lemma evaluate_reorder_need_same_day_witness :
  day_of 0 = day_of 3600000000
  ∧ Policy.evaluate_reorder_need Examples.steady_demand Examples.first_vendor
      Policy.default_policy 0 Examples.widget_item [] Examples.three_vendors 30
    = Policy.evaluate_reorder_need Examples.steady_demand Examples.first_vendor
        Policy.default_policy 3600000000 Examples.widget_item []
        Examples.three_vendors 30.
Proof.
  split; [reflexivity|].
  apply (evaluate_reorder_need_same_day Examples.steady_demand Examples.first_vendor
           Policy.default_policy Examples.widget_item [] Examples.three_vendors 30
           0 3600000000).
  reflexivity.
Defined.

(** C8, a counterexample to the statement as written: Scenario 2 evaluated
    on two consecutive days gives two decisions that differ in their
    ['stockout_date']. *)
Lemma evaluate_reorder_need_differs_across_days :
  ∃ d1 d2,
    Policy.evaluate_reorder_need Examples.steady_demand Examples.first_vendor
      Policy.default_policy 0 Examples.widget_item [] Examples.three_vendors 30
    = Returns d1
    ∧ Policy.evaluate_reorder_need Examples.steady_demand Examples.first_vendor
        Policy.default_policy DAY Examples.widget_item [] Examples.three_vendors 30
      = Returns d2
    ∧ Policy.d_stockout_date d1 = Some 8
    ∧ Policy.d_stockout_date d2 = Some 9.
Proof.
  do 2 eexists. split_and!; [vm_compute; reflexivity | vm_compute; reflexivity | |];
    reflexivity.
Qed.

(** ** The orchestrator and the store *)

(** The two ways through step 4 of [evaluate_reorder_need] that return:
    no date for an item that never runs out, or a date within range. *)
Ltac stockout_cases :=
  destruct (Policy.estimate_days_until_stockout _ _) as [?days|];
  [destruct (add_days _ _) as [?t|?exc]; cbn [outcome_map];
   [|try (intros ?H; discriminate)]|].

Section DecisionBounds.

Import Policy.

Variable compute_daily_average : list Transaction → string → Q.
Variable select_best_vendor : list Vendor → Q → option Vendor.

(** The optimizer's annual cost figure is not negative. *)
Hypothesis optimizer_cost_nonneg :
  ∀ vendors demand v,
    select_best_vendor vendors demand = Some v →
    (0 <= default 0 (total_annual_cost v))%Q.

Lemma resolve_vendor_cost_nonneg self item vendors avg_daily annual_demand best :
  (0 <= min_order_qty self)%Q →
  (∀ v p, v ∈ vendors → price_per_unit v = Some p → (0 <= p)%Q) →
  resolve_vendor select_best_vendor self item vendors avg_daily annual_demand
  = Some best →
  (0 <= default 0 (total_annual_cost best))%Q.
Proof.
  intros Hmin Hprices. unfold resolve_vendor.
  destruct (select_best_vendor vendors annual_demand) as [v|] eqn:Hopt.
  - intros [= <-]. by eapply optimizer_cost_nonneg.
  - destruct (_ && _); [|discriminate].
    destruct (select_fallback_vendor vendors) as [fv|] eqn:Hfv; [|discriminate].
    intros [= <-]. apply select_fallback_vendor_Some in Hfv as (Hin & p & Hp & _).
    cbn [vendor_update total_annual_cost default from_option].
    rewrite Hp. cbn [default from_option].
    apply Qmult_le_0_compat; [|by eapply Hprices].
    eapply Qle_trans; [exact Hmin | apply py_max_l].
Qed.

Lemma evaluate_reorder_need_nonneg self now item transactions vendors days d :
  (0 <= min_order_qty self)%Q →
  (∀ v p, v ∈ vendors → price_per_unit v = Some p → (0 <= p)%Q) →
  evaluate_reorder_need compute_daily_average select_best_vendor
    self now item transactions vendors days = Returns d →
  (0 <= d_qty d)%Q ∧ (0 <= d_total_cost d)%Q.
Proof.
  intros Hmin Hprices. unfold evaluate_reorder_need.
  destruct vendors as [|v0 rest] eqn:Hvendors; [discriminate|].
  rewrite <- Hvendors in *. clear Hvendors v0 rest.
  destruct (resolve_vendor _ _ _ _ _ _) as [best|] eqn:Hbest.
  - stockout_cases; intros [= <-]; cbn [d_qty d_total_cost];
      (split; [|by eapply resolve_vendor_cost_nonneg]);
      match goal with |- context [if ?c then _ else _] => destruct c end;
      first [ apply Qle_refl
            | eapply Qle_trans; [exact Hmin | apply py_max3_mid] ].
  - intros [= <-]. cbn [d_qty d_total_cost]. split; apply Qle_refl.
Qed.

Lemma evaluate_reorder_need_sku self now item transactions vendors days d :
  evaluate_reorder_need compute_daily_average select_best_vendor
    self now item transactions vendors days = Returns d →
  d_sku d = item_sku item.
Proof.
  unfold evaluate_reorder_need. destruct vendors as [|v0 rest]; [discriminate|].
  destruct (resolve_vendor _ _ _ _ _ _); [stockout_cases|]; by intros [= <-].
Qed.

End DecisionBounds.

Section OrchestratorFacts.

Import Policy Agent.

Lemma all_vendors_prices_nonneg v p :
  v ∈ all_vendors → price_per_unit v = Some p → (0 <= p)%Q.
Proof.
  unfold all_vendors. intros Hin.
  repeat (apply elem_of_cons in Hin as [->|Hin]);
    try (by apply elem_of_nil in Hin);
    intros [= <-]; discriminate.
Qed.

Lemma foldl_Qplus_nonneg (l : list Q) (acc : Q) :
  (0 <= acc)%Q → Forall (λ q, (0 <= q)%Q) l → (0 <= foldl Qplus acc l)%Q.
Proof.
  revert acc. induction l as [|q l IH]; intros acc Hacc Hall; simpl; [done|].
  inversion Hall; subst. apply IH; [|done].
  change 0%Q with (0 + 0)%Q. by apply Qplus_le_compat.
Qed.

Lemma py_sum_nonneg (l : list Q) :
  Forall (λ q, (0 <= q)%Q) l → (0 <= Webhook.py_sum l)%Q.
Proof. apply foldl_Qplus_nonneg, Qle_refl. Qed.

Variable compute_daily_average : list Transaction → string → Q.
Variable select_best_vendor : list Vendor → Q → option Vendor.
Variable self : AgentConfig.
Variable sample_vendors : nat → list Vendor.
Variable clock : nat → Z.
Variable rationale_for : string → Decision → Rationale.
Variable notion_page_for : string → Decision → string.
Variable auto_order_succeeds : string → Decision → bool.

(** A request comes out of [_process_sku] only with the decision the
    policy took for that row, and only when that decision asks for a
    reorder. *)
Lemma _process_sku_request i sku_data req :
  _process_sku compute_daily_average select_best_vendor self sample_vendors
    clock rationale_for notion_page_for auto_order_succeeds
    i sku_data _fetch_transaction_data = Returns (Some req) →
  evaluate_reorder_need compute_daily_average select_best_vendor default_policy
    (clock i) (inventory_item_of sku_data) [] (sample_vendors i) 30
  = Returns (rq_reorder_decision req)
  ∧ d_needs_reorder (rq_reorder_decision req) = true
  ∧ rq_sku req = d_sku (rq_reorder_decision req).
Proof.
  unfold _process_sku, _fetch_transaction_data. cbn [List.filter].
  destruct (evaluate_reorder_need _ _ _ _ _ _ _ _) as [d|exc] eqn:Heval;
    [|discriminate].
  assert (d_sku d = default "unknown" (sd_sku sku_data)) as Hsku.
  { by apply evaluate_reorder_need_sku in Heval. }
  destruct (d_needs_reorder d) eqn:Hneeds; cbn [negb]; [|discriminate].
  destruct (_ && negb _).
  - destruct (auto_order_succeeds _ _); [discriminate|].
    intros [= <-]. by cbn.
  - intros [= <-]. by cbn.
Qed.

Lemma collect_approvals_request i inventory_data req :
  req ∈ collect_approvals compute_daily_average select_best_vendor self
          sample_vendors clock rationale_for notion_page_for auto_order_succeeds
          i inventory_data →
  ∃ k sku_data,
    inventory_data !! k = Some sku_data
    ∧ _process_sku compute_daily_average select_best_vendor self sample_vendors
        clock rationale_for notion_page_for auto_order_succeeds
        (i + k) sku_data _fetch_transaction_data = Returns (Some req).
Proof.
  revert i. induction inventory_data as [|sku_data rest IH]; intros i; simpl.
  - intros H. by apply elem_of_nil in H.
  - destruct (_process_sku _ _ _ _ _ _ _ _ _ sku_data _) as [[r|]|exc] eqn:Hp.
    + intros [->|Hin]%elem_of_cons.
      * exists 0%nat, sku_data. by rewrite Nat.add_0_r.
      * destruct (IH _ Hin) as (k & sd & Hk & Hsd).
        exists (S k), sd. split; [done|]. by rewrite Nat.add_succ_r.
    + intros Hin. destruct (IH _ Hin) as (k & sd & Hk & Hsd).
      exists (S k), sd. split; [done|]. by rewrite Nat.add_succ_r.
    + intros Hin. destruct (IH _ Hin) as (k & sd & Hk & Hsd).
      exists (S k), sd. split; [done|]. by rewrite Nat.add_succ_r.
Qed.

End OrchestratorFacts.

(** C9. Whatever a run of the orchestrator adds to the pending-action
    store comes from reorder decisions only: every action found in the
    store after [run_cycle] either was there before, or is the batch action
    of this run, whose quantity and total cost are non-negative and each of
    whose line items carries the quantity and cost, both non-negative, of
    the decision taken for some inventory row, a decision with
    [needs_reorder] true. (The vendors handed to the policy are drawn from
    the orchestrator's vendor table, and the optimizer's annual cost is
    taken to be non-negative.) *)
Theorem only_reorder_decisions_reach_the_store
    (compute_daily_average : list Policy.Transaction → string → Q)
    (select_best_vendor : list Policy.Vendor → Q → option Policy.Vendor)
    (self : Agent.AgentConfig) (sample_vendors : nat → list Policy.Vendor)
    (clock : nat → Z)
    (rationale_for : string → Policy.Decision → Agent.Rationale)
    (notion_page_for : string → Policy.Decision → string)
    (auto_order_succeeds : string → Policy.Decision → bool)
    (inventory_data : list Agent.SkuData) (batch_token : string) (now : Z)
    (w : Webhook.World) :
  (∀ i v, v ∈ sample_vendors i → v ∈ Agent.all_vendors) →
  (∀ vendors demand v,
     select_best_vendor vendors demand = Some v →
     (0 <= default 0 (Policy.total_annual_cost v))%Q) →
  ∀ token a m',
    Webhook.pending
      (Agent.run_cycle compute_daily_average select_best_vendor self sample_vendors
         clock rationale_for notion_page_for auto_order_succeeds
         inventory_data batch_token now w).2 = Some m' →
    m' !! token = Some a →
    (∃ m, Webhook.pending w = Some m ∧ m !! token = Some a)
    ∨ ((0 <= Webhook.quantity (Webhook.data a))%Q
       ∧ (0 <= Webhook.total_cost (Webhook.data a))%Q
       ∧ ∀ it, it ∈ default [] (Webhook.items (Webhook.data a)) →
           (0 <= Webhook.li_quantity it)%Q
           ∧ (0 <= Webhook.li_total_cost it)%Q
           ∧ ∃ i sku_data d,
               inventory_data !! i = Some sku_data
               ∧ Policy.evaluate_reorder_need compute_daily_average
                   select_best_vendor Policy.default_policy (clock i)
                   (Agent.inventory_item_of sku_data) [] (sample_vendors i) 30
                 = Returns d
               ∧ Policy.d_needs_reorder d = true
               ∧ Webhook.li_sku it = Policy.d_sku d
               ∧ Webhook.li_quantity it = Policy.d_qty d
               ∧ Webhook.li_total_cost it = Policy.d_total_cost d).
Proof.
  intros Hsample Hopt token a m'.
  unfold Agent.run_cycle.
  set (reqs := Agent.collect_approvals _ _ _ _ _ _ _ _ 0 inventory_data).
  assert (∀ req, req ∈ reqs →
            ∃ i sku_data,
              inventory_data !! i = Some sku_data
              ∧ Policy.evaluate_reorder_need compute_daily_average
                  select_best_vendor Policy.default_policy (clock i)
                  (Agent.inventory_item_of sku_data) [] (sample_vendors i) 30
                = Returns (Agent.rq_reorder_decision req)
              ∧ Policy.d_needs_reorder (Agent.rq_reorder_decision req) = true
              ∧ Agent.rq_sku req = Policy.d_sku (Agent.rq_reorder_decision req)
              ∧ (0 <= Policy.d_qty (Agent.rq_reorder_decision req))%Q
              ∧ (0 <= Policy.d_total_cost (Agent.rq_reorder_decision req))%Q)
    as Hreqs.
  { intros req Hin. apply collect_approvals_request in Hin as (k & sd & Hk & Hp).
    cbn [Nat.add] in Hp. apply _process_sku_request in Hp as (Heval & Hneeds & Hsku).
    exists k, sd. split_and!; try done;
      eapply (evaluate_reorder_need_nonneg compute_daily_average select_best_vendor
                Hopt Policy.default_policy); try exact Heval;
      try (cbn; discriminate);
      intros v p Hv; apply all_vendors_prices_nonneg; by eapply Hsample. }
  destruct reqs as [|req0 reqs'] eqn:Hcollect.
  { cbn. intros Hp Ha. left. eauto. }
  rewrite <- Hcollect in *. clear Hcollect req0 reqs'.
  unfold Agent._send_batch_approval_email.
  destruct reqs as [|req0 reqs'] eqn:Hcollect.
  { cbn. intros Hp Ha. left. eauto. }
  rewrite <- Hcollect in *. clear Hcollect req0 reqs'.
  destruct (Webhook.pending w) as [m|] eqn:Hm.
  2:{ rewrite (store_pending_action_unreadable w _ _ _ Hm). cbn.
      intros Hp; congruence. }
  rewrite (store_pending_action_readable w m _ _ _ Hm).
  destruct (Webhook.use_sqlite w && negb _) eqn:Hbinds.
  { cbn. intros Hp Ha. left. exists m. split; [done|]. congruence. }
  cbn. intros [= <-]. destruct (decide (token = batch_token)) as [->|Hne].
  - rewrite lookup_insert_eq. intros [= <-]. right.
    assert (Forall (λ q, (0 <= q)%Q)
              ((λ req, Policy.d_qty (Agent.rq_reorder_decision req)) <$> reqs)) as Hq.
    { apply Forall_fmap, Forall_forall. intros req Hin.
      by destruct (Hreqs req Hin) as (_ & _ & _ & _ & _ & _ & ? & _). }
    assert (Forall (λ q, (0 <= q)%Q)
              ((λ req, Policy.d_total_cost (Agent.rq_reorder_decision req)) <$> reqs))
      as Hc.
    { apply Forall_fmap, Forall_forall. intros req Hin.
      by destruct (Hreqs req Hin) as (_ & _ & _ & _ & _ & _ & _ & ?). }
    destruct (Webhook.use_sqlite w); cbn.
    + split_and!;
        [by apply py_sum_nonneg | by apply sqlite_real_nonneg, py_sum_nonneg |].
      intros it Hit. by apply elem_of_nil in Hit.
    + split_and!; [by apply py_sum_nonneg | by apply py_sum_nonneg |].
      intros it (req & -> & Hin)%list_elem_of_fmap.
      destruct (Hreqs req Hin) as (i & sd & Hi & Heval & Hneeds & Hsku & Hqty & Hcost).
      cbn. split_and!; try done.
      exists i, sd, (Agent.rq_reorder_decision req). by split_and!.
  - rewrite lookup_insert_ne by done. intros Ha. left. eauto.
Qed.

(** A dry run over two rows, one of them below its reorder point: the
    batch stored under the fresh token has one line item, for that row. *)
Lemma only_reorder_decisions_reach_the_store_witness :
  (∀ i v, v ∈ Examples.sampled_vendors i → v ∈ Agent.all_vendors)
  ∧ (∀ vendors demand v,
       Examples.no_vendor vendors demand = Some v →
       (0 <= default 0 (Policy.total_annual_cost v))%Q)
  ∧ ∃ m' a,
      Webhook.pending (Examples.example_run Examples.empty_world).2 = Some m'
      ∧ m' !! "batch-1" = Some a
      ∧ Webhook.li_sku <$> default [] (Webhook.items (Webhook.data a)) = ["TOOL-003"]
      ∧ (0 <= Webhook.quantity (Webhook.data a))%Q
      ∧ (0 <= Webhook.total_cost (Webhook.data a))%Q.
Proof.
  assert (∀ i v, v ∈ Examples.sampled_vendors i → v ∈ Agent.all_vendors) as Hsample.
  { intros i v Hv. unfold Examples.sampled_vendors in Hv.
    rewrite <- (take_drop 4 Agent.all_vendors). apply elem_of_app. by left. }
  assert (∀ vendors demand v,
            Examples.no_vendor vendors demand = Some v →
            (0 <= default 0 (Policy.total_annual_cost v))%Q) as Hopt.
  { intros vendors demand v Hv. discriminate Hv. }
  split; [exact Hsample|]. split; [exact Hopt|].
  destruct (Webhook.pending (Examples.example_run Examples.empty_world).2)
    as [m'|] eqn:Hm'; [|vm_compute in Hm'; discriminate Hm'].
  destruct (m' !! "batch-1") as [a|] eqn:Ha;
    [|vm_compute in Hm'; injection Hm' as <-; vm_compute in Ha; discriminate Ha].
  exists m', a. split; [reflexivity|]. split; [exact Ha|].
  destruct (only_reorder_decisions_reach_the_store Examples.no_demand
              Examples.no_vendor Examples.cautious_agent Examples.sampled_vendors
              Examples.stopped_clock Examples.plain_rationale Examples.page_per_sku
              Examples.no_auto_order Examples.two_rows "batch-1" 0
              Examples.empty_world Hsample Hopt "batch-1" a m' Hm' Ha)
    as [(m & Hm & Hlook) | (Hq & Hc & _)].
  - injection Hm as <-. rewrite lookup_empty in Hlook. discriminate Hlook.
  - split; [|by split].
    vm_compute in Hm'. injection Hm' as <-. vm_compute in Ha.
    injection Ha as <-. reflexivity.
Defined.

(* ===================================================================== *)
(** * Further properties of the store and the endpoints *)
(* ===================================================================== *)

(** X1. Storing an action and fetching it. On a readable store
    [store_pending_action] returns [True] or [False]; it returns [True] on
    the JSON backend, and on the SQLite backend whenever [sqlite3] can bind
    the values; when it returns [False] the store is as it was. When it
    has returned [True], the action is fetched under its token, with
    status ['pending'] and an expiry 24 hours after the storing, at every
    time before that expiry and at no time from it on. The JSON backend
    returns the whole of the stored data. The SQLite backend returns the
    SKU, action type, vendor and quantity that were stored, the total cost
    as its [REAL] column keeps it (the stored cost, unless that is an
    integer of more than 53 bits), and no line items. *)
Theorem store_then_fetch_round_trip
    (w : Webhook.World) (m : gmap string Webhook.PendingAction)
    (token : string) (d : Webhook.ActionData) (now : Z) :
  Webhook.pending w = Some m →
  ((Webhook.store_pending_action token d now w).1 = Returns true
   ∨ (Webhook.store_pending_action token d now w).1 = Returns false)
  ∧ (Webhook.use_sqlite w = false ∨ Webhook.sqlite_binds w d = true →
     (Webhook.store_pending_action token d now w).1 = Returns true)
  ∧ ((Webhook.store_pending_action token d now w).1 = Returns false →
     Webhook.pending (Webhook.store_pending_action token d now w).2 = Some m)
  ∧ ((Webhook.store_pending_action token d now w).1 = Returns true →
     ∃ kept,
       (∀ later, later < now + DAY →
          (Webhook.get_pending_action token later
             (Webhook.store_pending_action token d now w).2).1
          = Returns (Some {| Webhook.data := kept;
                             Webhook.expires_at := now + DAY;
                             Webhook.status := "pending" |}))
       ∧ (∀ later, now + DAY ≤ later →
            (Webhook.get_pending_action token later
               (Webhook.store_pending_action token d now w).2).1
            = Returns None)
       ∧ Webhook.sku kept = Webhook.sku d
       ∧ Webhook.action_type kept = Webhook.action_type d
       ∧ Webhook.vendor kept = Webhook.vendor d
       ∧ Webhook.quantity kept = Webhook.quantity d
       ∧ (Webhook.use_sqlite w = false → kept = d)
       ∧ (Webhook.use_sqlite w = true →
          Webhook.items kept = None
          ∧ Webhook.total_cost kept = Webhook.sqlite_real (Webhook.total_cost d)
          ∧ (Z.abs (py_int (Webhook.total_cost d)) < 2 ^ 53 →
             Webhook.total_cost kept = Webhook.total_cost d))).
Proof.
  intros Hm. rewrite (store_pending_action_readable w m token d now Hm).
  destruct (Webhook.use_sqlite w && negb (Webhook.sqlite_binds w d)) eqn:Hfail.
  - cbn [fst snd Webhook.log_event Webhook.pending]. split_and!.
    + by right.
    + intros [Hjson|Hbinds]; [by rewrite Hjson in Hfail|].
      by rewrite Hbinds, andb_false_r in Hfail.
    + done.
    + discriminate.
  - cbn [fst snd]. split_and!; [by left|done|discriminate|]. intros _.
    exists (if Webhook.use_sqlite w then Webhook.sqlite_row d else d).
    split_and!.
    + intros later Hlater. unfold Webhook.get_pending_action. cbn.
      f_equal. apply fetch_active_Some. rewrite lookup_insert_eq. by cbn.
    + intros later Hlater. unfold Webhook.get_pending_action. cbn.
      f_equal. apply fetch_active_None. right. eexists.
      rewrite lookup_insert_eq. split; [reflexivity|]. right. by cbn.
    + by destruct (Webhook.use_sqlite w).
    + by destruct (Webhook.use_sqlite w).
    + by destruct (Webhook.use_sqlite w).
    + by destruct (Webhook.use_sqlite w).
    + by intros ->.
    + intros ->. cbn [Webhook.sqlite_row Webhook.items Webhook.total_cost].
      split_and!; [done|done|]. apply sqlite_real_small.
Qed.

(** The three-item batch stored in a SQLite-backed store that binds its
    values comes back without its items, with its quantity and its cost. *)
Lemma store_then_fetch_round_trip_witness :
  Webhook.pending Examples.widget_world = Some Examples.widget_store
  ∧ (Webhook.store_pending_action "batch-tok" Examples.batch_action 0
       Examples.widget_world).1 = Returns true
  ∧ ∃ kept,
      (Webhook.get_pending_action "batch-tok" 1
         (Webhook.store_pending_action "batch-tok" Examples.batch_action 0
            Examples.widget_world).2).1
      = Returns (Some {| Webhook.data := kept; Webhook.expires_at := 0 + DAY;
                         Webhook.status := "pending" |})
      ∧ Webhook.quantity kept = 60%Q
      ∧ Webhook.total_cost kept = Webhook.total_cost Examples.batch_action
      ∧ Webhook.items kept = None.
Proof.
  split; [reflexivity|].
  destruct (store_then_fetch_round_trip Examples.widget_world Examples.widget_store
              "batch-tok" Examples.batch_action 0 eq_refl)
    as (_ & Hok & _ & Hfetched).
  specialize (Hok (or_intror eq_refl)).
  split; [exact Hok|].
  destruct (Hfetched Hok)
    as (kept & Hfetch & _ & _ & _ & _ & Hq & _ & Hsqlite).
  destruct (Hsqlite eq_refl) as (Hitems & _ & Hcost).
  exists kept. split_and!.
  - apply Hfetch. reflexivity.
  - exact Hq.
  - apply Hcost. vm_compute. reflexivity.
  - exact Hitems.
Defined.

(** X2. [store_pending_action] is an insert-or-replace. When it has
    returned [True], what is stored under the token does not depend on
    what was stored under it before (a resolved action stored again is
    pending again), every other token keeps its action, and the tokens of
    the store are the old ones and this one. When it has returned [False]
    on a readable store, which only the SQLite backend does, and only for
    values [sqlite3] cannot bind, the store is as it was. On an unreadable
    store it reports failure and leaves the store unreadable. *)
Theorem store_pending_action_replaces
    (w : Webhook.World) (token : string) (d : Webhook.ActionData) (now : Z) :
  match Webhook.pending w with
  | Some m =>
      ((Webhook.store_pending_action token d now w).1 = Returns true →
       ∃ m', Webhook.pending (Webhook.store_pending_action token d now w).2 = Some m'
             ∧ m' = <[token :=
                       {| Webhook.data :=
                            if Webhook.use_sqlite w then Webhook.sqlite_row d else d;
                          Webhook.expires_at := now + DAY;
                          Webhook.status := "pending" |}]> (delete token m)
             ∧ (∀ t, t ≠ token → m' !! t = m !! t)
             ∧ dom m' = {[token]} ∪ dom m)
      ∧ ((Webhook.store_pending_action token d now w).1 = Returns false →
         Webhook.use_sqlite w = true ∧ Webhook.sqlite_binds w d = false
         ∧ Webhook.pending (Webhook.store_pending_action token d now w).2
           = Some m)
  | None =>
      (Webhook.store_pending_action token d now w).1 = Returns false
      ∧ Webhook.pending (Webhook.store_pending_action token d now w).2 = None
  end.
Proof.
  destruct (Webhook.pending w) as [m|] eqn:Hm.
  2:{ by rewrite (store_pending_action_unreadable w token d now Hm). }
  rewrite (store_pending_action_readable w m token d now Hm).
  destruct (Webhook.use_sqlite w) eqn:Hsql;
    [destruct (Webhook.sqlite_binds w d) eqn:Hbinds|];
    cbn [andb negb fst snd Webhook.log_event Webhook.pending]; (split;
      [|try discriminate]); try discriminate.
  - intros _. eexists. split; [reflexivity|]. split_and!.
    + by rewrite insert_delete_eq.
    + intros t Hne. by rewrite lookup_insert_ne.
    + by rewrite dom_insert_L.
  - done.
  - intros _. eexists. split; [reflexivity|]. split_and!.
    + by rewrite insert_delete_eq.
    + intros t Hne. by rewrite lookup_insert_ne.
    + by rewrite dom_insert_L.
Qed.

(** The widget request stored again under its token in a store that has
    it: one token before, the same token after. A request for 2^63 units
    is refused by the SQLite store, which stays as it was. *)
Lemma store_pending_action_replaces_witness :
  (Webhook.store_pending_action "tok-1" Examples.widget_action 5
     Examples.widget_world).1 = Returns true
  ∧ (∃ m',
       Webhook.pending
         (Webhook.store_pending_action "tok-1" Examples.widget_action 5
            Examples.widget_world).2 = Some m'
       ∧ dom m' = {[ "tok-1" ]} ∪ dom Examples.widget_store)
  ∧ (Webhook.store_pending_action "tok-2" Examples.huge_action 5
       Examples.int64_world).1 = Returns false
  ∧ Webhook.pending
      (Webhook.store_pending_action "tok-2" Examples.huge_action 5
         Examples.int64_world).2 = Some Examples.widget_store.
Proof.
  assert ((Webhook.store_pending_action "tok-1" Examples.widget_action 5
             Examples.widget_world).1 = Returns true) as Hok by reflexivity.
  assert ((Webhook.store_pending_action "tok-2" Examples.huge_action 5
             Examples.int64_world).1 = Returns false) as Hfail
    by (vm_compute; reflexivity).
  split; [exact Hok|]. split; [|split; [exact Hfail|]].
  - pose proof (store_pending_action_replaces Examples.widget_world "tok-1"
                  Examples.widget_action 5) as H.
    change (Webhook.pending Examples.widget_world)
      with (Some Examples.widget_store) in H.
    cbv iota beta in H. destruct H as [Hstored _].
    destruct (Hstored Hok) as (m' & Hm' & _ & _ & Hdom).
    exists m'. split; [exact Hm'|exact Hdom].
  - pose proof (store_pending_action_replaces Examples.int64_world "tok-2"
                  Examples.huge_action 5) as H.
    change (Webhook.pending Examples.int64_world)
      with (Some Examples.widget_store) in H.
    cbv iota beta in H. destruct H as [_ Hrefused].
    exact (proj2 (proj2 (Hrefused Hfail))).
Defined.

(** X3. A single-item reject call with the matching secret on an active
    pending action never places a supplier order and has no blocking step:
    whatever the page and sheet updates do, the handler attempts the page
    update (when the action carries a page reference), then the sheet
    update, then writes the status ['rejected'], then queues one recompute
    task carrying the SKU, vendor and quantity of the action, and answers
    200. The task is appended to the tasks already in the file, starts a new
    file when there is none, and is dropped when the file cannot be used.
    After the call the action is stored under its token with the status
    ['rejected'], its data and its expiry as before, and
    [get_pending_action] returns it at no time any more. *)
Theorem reject_action_effects
    (WEBHOOK_SECRET : string) (ext : Webhook.Collaborators)
    (w : Webhook.World) (m : gmap string Webhook.PendingAction)
    (token : string) (now : Z) (a : Webhook.PendingAction) :
  Webhook.pending w = Some m →
  Webhook.fetch_active m token now = Some a →
  let d := Webhook.data a in
  let page_step :=
    if truthy (Webhook.notion_page_id d)
    then [Webhook.PageUpdate (default "" (Webhook.notion_page_id d)) "Rejected"]
    else [] in
  let task :=
    {| Webhook.rc_sku := Webhook.sku d; Webhook.rc_reason := "manual_rejection";
       Webhook.rc_timestamp := now; Webhook.rc_original_vendor := Webhook.vendor d;
       Webhook.rc_original_quantity := Webhook.quantity d |} in
  Webhook.reject_action WEBHOOK_SECRET ext token WEBHOOK_SECRET now w
  = (Returns (Webhook.HTMLResponse 200
       (Webhook.RejectedPage (Webhook.sku d) (Webhook.vendor d)
          (Webhook.quantity d) (Webhook.total_cost d))),
     {| Webhook.use_sqlite := Webhook.use_sqlite w;
        Webhook.sqlite_binds := Webhook.sqlite_binds w;
        Webhook.pending := Some (<[token := Webhook.set_status "rejected" a]> m);
        Webhook.recompute_file :=
          match Webhook.recompute_file w with
          | Webhook.Missing => Webhook.Holds [task]
          | Webhook.Holds tasks => Webhook.Holds (tasks ++ [task])
          | Webhook.Unusable => Webhook.Unusable
          end;
        Webhook.trace :=
          Webhook.trace w ++ [Webhook.StoreRead token] ++ page_step
          ++ [Webhook.SheetUpdate (Webhook.sku d) "Rejected";
              Webhook.StoreUpdate token "rejected"] |})
  ∧ ∃ m' a',
      Webhook.pending
        (Webhook.reject_action WEBHOOK_SECRET ext token WEBHOOK_SECRET now w).2
      = Some m'
      ∧ m' !! token = Some a'
      ∧ Webhook.status a' = "rejected"
      ∧ Webhook.data a' = Webhook.data a
      ∧ Webhook.expires_at a' = Webhook.expires_at a
      ∧ ∀ later,
          (Webhook.get_pending_action token later
             (Webhook.reject_action WEBHOOK_SECRET ext token WEBHOOK_SECRET
                now w).2).1 = Returns None.
Proof.
  intros Hm Ha d page_step task.
  pose proof (proj1 (fetch_active_Some m token now a) Ha) as (Hlook & _ & _).
  assert (alter (Webhook.set_status "rejected") token m
          = <[token := Webhook.set_status "rejected" a]> m) as Halter.
  { apply map_eq. intros t. destruct (decide (t = token)) as [->|Hne].
    - by rewrite lookup_alter_eq, lookup_insert_eq, Hlook.
    - by rewrite lookup_alter_ne, lookup_insert_ne. }
  unfold Webhook.reject_action. rewrite String.eqb_refl. cbn [negb]. run_m.
  rewrite (get_pending_action_readable w m token now Hm), Ha.
  fold d. subst page_step.
  destruct (truthy (Webhook.notion_page_id d));
    [destruct (Webhook.update_page_properties ext _ _)|];
    destruct (Webhook.update_inventory_status ext _ _ _);
    unfold Webhook.update_action_status, Webhook.queue_recompute,
      Webhook.log_event, Webhook.with_pending, Webhook.with_recompute_file;
    simpl; rewrite Hm; simpl; rewrite Halter;
    destruct (Webhook.recompute_file w); simpl;
    rewrite <- ?(assoc_L (++)); (split; [reflexivity|]);
    exists (<[token := Webhook.set_status "rejected" a]> m),
      (Webhook.set_status "rejected" a);
    (split_and!;
       [reflexivity | by rewrite lookup_insert_eq
       | reflexivity | reflexivity | reflexivity |]);
    intros later; f_equal; apply fetch_active_None; right;
    exists (Webhook.set_status "rejected" a);
    (split; [by rewrite lookup_insert_eq|]); left; by cbn.
Qed.

(** Rejecting the widget request with a page and a sheet that cannot be
    updated. *)
Lemma reject_action_effects_witness :
  Webhook.pending Examples.widget_world = Some Examples.widget_store
  ∧ Webhook.fetch_active Examples.widget_store "tok-1" 1 = Some Examples.widget_pending
  ∧ Webhook.trace
      (Webhook.reject_action "s3cret" Examples.flaky "tok-1" "s3cret" 1
         Examples.widget_world).2
    = [ Webhook.StoreRead "tok-1"; Webhook.PageUpdate "page-1" "Rejected";
        Webhook.SheetUpdate "WIDGET-001" "Rejected";
        Webhook.StoreUpdate "tok-1" "rejected" ]
  ∧ ∃ m' a',
      Webhook.pending
        (Webhook.reject_action "s3cret" Examples.flaky "tok-1" "s3cret" 1
           Examples.widget_world).2 = Some m'
      ∧ m' !! "tok-1" = Some a'
      ∧ Webhook.status a' = "rejected".
Proof.
  split; [reflexivity|]. split; [reflexivity|].
  destruct (reject_action_effects "s3cret" Examples.flaky Examples.widget_world
              Examples.widget_store "tok-1" 1 Examples.widget_pending
              eq_refl eq_refl) as [Hrun (m' & a' & Hm' & Ha' & Hstatus & _)].
  split.
  - rewrite Hrun. reflexivity.
  - exists m', a'. split; [exact Hm'|]. split; [exact Ha'|exact Hstatus].
Defined.

Section ResolvedTokens.

Import Webhook.

Variable WEBHOOK_SECRET : string.

(** What a single-item endpoint leaves in the store: the actions it found,
    with at most the status of the addressed one rewritten. *)
Lemma approve_action_store ext token secret now w m :
  pending w = Some m →
  pending (approve_action WEBHOOK_SECRET ext token secret now w).2 = Some m
  ∨ (is_Some (fetch_active m token now)
     ∧ pending (approve_action WEBHOOK_SECRET ext token secret now w).2
       = Some (alter (set_status "approved") token m)).
Proof.
  intros Hm. unfold approve_action.
  destruct (negb _); [by left|]. run_m.
  rewrite (get_pending_action_readable w m token now Hm).
  destruct (fetch_active m token now) as [a|] eqn:Ha; [|by left].
  destruct (place_order ext _ _ _); [|by left].
  right. split; [done|].
  destruct (truthy _); [destruct (update_page_properties ext _ _)|];
    destruct (update_inventory_status ext _ _ _);
    unfold update_action_status, log_event, with_pending; simpl;
    rewrite Hm; reflexivity.
Qed.

Lemma reject_action_store ext token secret now w m :
  pending w = Some m →
  pending (reject_action WEBHOOK_SECRET ext token secret now w).2 = Some m
  ∨ (is_Some (fetch_active m token now)
     ∧ pending (reject_action WEBHOOK_SECRET ext token secret now w).2
       = Some (alter (set_status "rejected") token m)).
Proof.
  intros Hm. unfold reject_action.
  destruct (negb _); [by left|]. run_m.
  rewrite (get_pending_action_readable w m token now Hm).
  destruct (fetch_active m token now) as [a|] eqn:Ha; [|by left].
  right. split; [done|].
  destruct (truthy _); [destruct (update_page_properties ext _ _)|];
    destruct (update_inventory_status ext _ _ _);
    unfold update_action_status, queue_recompute, log_event, with_pending,
      with_recompute_file; simpl;
    rewrite Hm; simpl; destruct (recompute_file w); reflexivity.
Qed.

(** A token whose action is not pending any more is answered like an
    unknown one, and nothing but the read happens. *)
Lemma resolved_token_not_found ext token now w m a :
  pending w = Some m → m !! token = Some a → status a ≠ "pending" →
  approve_action WEBHOOK_SECRET ext token WEBHOOK_SECRET now w
  = (Returns (HTMLResponse 404 (ErrorPage
       "Invalid or expired approval token. The action may have already been processed or expired.")),
     log_event (StoreRead token) w)
  ∧ reject_action WEBHOOK_SECRET ext token WEBHOOK_SECRET now w
    = (Returns (HTMLResponse 404 (ErrorPage
         "Invalid or expired rejection token. The action may have already been processed or expired.")),
       log_event (StoreRead token) w).
Proof.
  intros Hm Ha Hs.
  assert (fetch_active m token now = None) as Hnone.
  { apply fetch_active_None. right. eauto. }
  unfold approve_action, reject_action. rewrite String.eqb_refl. cbn [negb]. run_m.
  by rewrite (get_pending_action_readable w m token now Hm), Hnone.
Qed.

Lemma approve_action_resolves ext token now w m a r :
  pending w = Some m → fetch_active m token now = Some a →
  place_order ext (vendor (data a)) (sku (data a)) (quantity (data a)) = Returns r →
  pending (approve_action WEBHOOK_SECRET ext token WEBHOOK_SECRET now w).2
  = Some (alter (set_status "approved") token m).
Proof.
  intros Hm Ha Hr. unfold approve_action. rewrite String.eqb_refl. cbn [negb].
  run_m. rewrite (get_pending_action_readable w m token now Hm), Ha, Hr.
  destruct (truthy _); [destruct (update_page_properties ext _ _)|];
    destruct (update_inventory_status ext _ _ _);
    unfold update_action_status, log_event, with_pending; simpl;
    rewrite Hm; reflexivity.
Qed.

Lemma reject_action_resolves ext token now w m a :
  pending w = Some m → fetch_active m token now = Some a →
  pending (reject_action WEBHOOK_SECRET ext token WEBHOOK_SECRET now w).2
  = Some (alter (set_status "rejected") token m).
Proof.
  intros Hm Ha. unfold reject_action. rewrite String.eqb_refl. cbn [negb].
  run_m. rewrite (get_pending_action_readable w m token now Hm), Ha.
  destruct (truthy _); [destruct (update_page_properties ext _ _)|];
    destruct (update_inventory_status ext _ _ _);
    unfold update_action_status, queue_recompute, log_event, with_pending,
      with_recompute_file; simpl;
    rewrite Hm; simpl; destruct (recompute_file w); reflexivity.
Qed.

Lemma resolved_store_not_found ext token later w1 m a s :
  pending w1 = Some (alter (set_status s) token m) →
  m !! token = Some a → s ≠ "pending" →
  approve_action WEBHOOK_SECRET ext token WEBHOOK_SECRET later w1
  = (Returns (HTMLResponse 404 (ErrorPage
       "Invalid or expired approval token. The action may have already been processed or expired.")),
     log_event (StoreRead token) w1)
  ∧ reject_action WEBHOOK_SECRET ext token WEBHOOK_SECRET later w1
    = (Returns (HTMLResponse 404 (ErrorPage
         "Invalid or expired rejection token. The action may have already been processed or expired.")),
       log_event (StoreRead token) w1).
Proof.
  intros Hw1 Hlook Hs.
  apply (resolved_token_not_found ext token later w1 _ (set_status s a) Hw1);
    [by rewrite lookup_alter_eq, Hlook | done].
Qed.

End ResolvedTokens.

(** X4. A resolved token is dead. Once an approve call has gone through
    (the supplier call returned), or a reject call has, any later approve
    or reject call with the same token answers the 404 page and does nothing
    but read the store: in particular no second order is placed, whatever
    the collaborators would do and however much of the 24 hours is left. *)
Theorem second_call_on_resolved_token
    (WEBHOOK_SECRET : string) (ext ext' : Webhook.Collaborators)
    (w : Webhook.World) (m : gmap string Webhook.PendingAction)
    (token : string) (now later : Z) (a : Webhook.PendingAction) :
  Webhook.pending w = Some m →
  Webhook.fetch_active m token now = Some a →
  let not_found kind :=
    Returns (Webhook.HTMLResponse 404 (Webhook.ErrorPage
      ("Invalid or expired " +:+ kind
       +:+ " token. The action may have already been processed or expired."))) in
  (∀ r,
     Webhook.place_order ext (Webhook.vendor (Webhook.data a))
       (Webhook.sku (Webhook.data a)) (Webhook.quantity (Webhook.data a))
     = Returns r →
     let w1 := (Webhook.approve_action WEBHOOK_SECRET ext token WEBHOOK_SECRET now w).2 in
     Webhook.approve_action WEBHOOK_SECRET ext' token WEBHOOK_SECRET later w1
     = (not_found "approval", Webhook.log_event (Webhook.StoreRead token) w1)
     ∧ Webhook.reject_action WEBHOOK_SECRET ext' token WEBHOOK_SECRET later w1
       = (not_found "rejection", Webhook.log_event (Webhook.StoreRead token) w1))
  ∧ (let w1 := (Webhook.reject_action WEBHOOK_SECRET ext token WEBHOOK_SECRET now w).2 in
     Webhook.approve_action WEBHOOK_SECRET ext' token WEBHOOK_SECRET later w1
     = (not_found "approval", Webhook.log_event (Webhook.StoreRead token) w1)
     ∧ Webhook.reject_action WEBHOOK_SECRET ext' token WEBHOOK_SECRET later w1
       = (not_found "rejection", Webhook.log_event (Webhook.StoreRead token) w1)).
Proof.
  intros Hm Ha not_found.
  pose proof (proj1 (fetch_active_Some m token now a) Ha) as (Hlook & _ & _).
  split.
  - intros r Hr w1.
    apply (resolved_store_not_found WEBHOOK_SECRET ext' token later w1 m a "approved");
      [by eapply approve_action_resolves | done | done].
  - intros w1.
    apply (resolved_store_not_found WEBHOOK_SECRET ext' token later w1 m a "rejected");
      [by eapply reject_action_resolves | done | done].
Qed.

(** The widget request approved, then approved again and rejected. *)
Lemma second_call_on_resolved_token_witness :
  Webhook.pending Examples.widget_world = Some Examples.widget_store
  ∧ Webhook.fetch_active Examples.widget_store "tok-1" 1 = Some Examples.widget_pending
  ∧ (Webhook.approve_action "s3cret" Examples.reliable "tok-1" "s3cret" 2
       (Webhook.approve_action "s3cret" Examples.reliable "tok-1" "s3cret" 1
          Examples.widget_world).2).1
    = Returns (Webhook.HTMLResponse 404 (Webhook.ErrorPage
        "Invalid or expired approval token. The action may have already been processed or expired.")).
Proof.
  split; [reflexivity|]. split; [reflexivity|].
  destruct (second_call_on_resolved_token "s3cret" Examples.reliable Examples.reliable
              Examples.widget_world Examples.widget_store "tok-1" 1 2
              Examples.widget_pending eq_refl eq_refl) as [Hafter _].
  destruct (Hafter (Examples.order_placed "WIDGET-001") eq_refl) as [H _].
  cbv zeta in H. rewrite H. reflexivity.
Defined.

Section StoreFrame.

Import Webhook.

(** Two stores with the same tokens, whose actions agree except for the
    status of the action at [token]. *)
Lemma alter_status_frame (m : gmap string PendingAction) token s :
  dom (alter (set_status s) token m) = dom m
  ∧ ∀ t a, m !! t = Some a →
      ∃ a', alter (set_status s) token m !! t = Some a'
            ∧ data a' = data a ∧ expires_at a' = expires_at a
            ∧ (t ≠ token → a' = a).
Proof.
  split; [apply dom_alter_L|].
  intros t a Ha. destruct (decide (t = token)) as [->|Hne].
  - exists (set_status s a). by rewrite lookup_alter_eq, Ha.
  - exists a. by rewrite lookup_alter_ne.
Qed.

End StoreFrame.

(** X5. The approve and reject endpoints never add, drop or move an
    action: whatever the token, the secret and the collaborators, the store
    has the same tokens after the call as before, every action keeps its
    data and its expiry, and the actions of all tokens other than the one
    presented are untouched (the status of that one is all a call can
    change). Nothing is ever purged. *)
Theorem single_endpoints_keep_the_actions
    (WEBHOOK_SECRET : string) (ext : Webhook.Collaborators)
    (w : Webhook.World) (m : gmap string Webhook.PendingAction)
    (token secret : string) (now : Z)
    (endpoint : string → string → Z → Webhook.M Webhook.Response) :
  Webhook.pending w = Some m →
  endpoint ∈ [ Webhook.approve_action WEBHOOK_SECRET ext;
               Webhook.reject_action WEBHOOK_SECRET ext ] →
  ∃ m',
    Webhook.pending (endpoint token secret now w).2 = Some m'
    ∧ dom m' = dom m
    ∧ ∀ t a, m !! t = Some a →
        ∃ a', m' !! t = Some a'
              ∧ Webhook.data a' = Webhook.data a
              ∧ Webhook.expires_at a' = Webhook.expires_at a
              ∧ (t ≠ token → a' = a).
Proof.
  intros Hm Hin.
  assert (∀ m', m' = m ∨ (∃ s, m' = alter (Webhook.set_status s) token m) →
            dom m' = dom m
            ∧ ∀ t a, m !! t = Some a →
                ∃ a', m' !! t = Some a'
                      ∧ Webhook.data a' = Webhook.data a
                      ∧ Webhook.expires_at a' = Webhook.expires_at a
                      ∧ (t ≠ token → a' = a)) as Hframe.
  { intros m' [-> | [s ->]]; [|apply alter_status_frame].
    split; [done|]. intros t a Ha. by exists a. }
  repeat (apply elem_of_cons in Hin as [->|Hin]); try (by apply elem_of_nil in Hin).
  - destruct (approve_action_store WEBHOOK_SECRET ext token secret now w m Hm)
      as [H | [_ H]]; rewrite H; eexists; (split; [reflexivity|]);
      apply Hframe; eauto.
  - destruct (reject_action_store WEBHOOK_SECRET ext token secret now w m Hm)
      as [H | [_ H]]; rewrite H; eexists; (split; [reflexivity|]);
      apply Hframe; eauto.
Qed.

(** Approving the batch token in a store that also holds the widget
    request leaves the widget request as it was. *)
Lemma single_endpoints_keep_the_actions_witness :
  let w := {| Webhook.use_sqlite := false;
              Webhook.sqlite_binds := fun _ => true;
              Webhook.pending :=
                Some (<["batch-tok" := Examples.batch_pending]> Examples.widget_store);
              Webhook.recompute_file := Webhook.Missing; Webhook.trace := [] |} in
  ∃ m',
    Webhook.pending
      (Webhook.approve_action "s3cret" Examples.reliable "batch-tok" "s3cret" 1 w).2
    = Some m'
    ∧ m' !! "tok-1" = Some Examples.widget_pending.
Proof.
  intros w.
  destruct (single_endpoints_keep_the_actions "s3cret" Examples.reliable w _
              "batch-tok" "s3cret" 1
              (Webhook.approve_action "s3cret" Examples.reliable)
              eq_refl (list_elem_of_here _ _))
    as (m' & Hm' & _ & Hkeep).
  exists m'. split; [exact Hm'|].
  destruct (Hkeep "tok-1" Examples.widget_pending eq_refl) as (a' & Ha' & _ & _ & Hsame).
  rewrite Ha'. f_equal. by apply Hsame.
Defined.

(** X6. The status endpoint reports a token only while it is active, and
    then always with the status ['pending'] and an expiry in the future: a
    token that was approved, rejected or has expired, a token that was
    never stored and an unreadable store all give the same 404. The call
    leaves the stored actions as they are. *)
Theorem get_action_status_reports_pending_only
    (w : Webhook.World) (token : string) (now : Z) :
  (∀ m a, Webhook.pending w = Some m →
     Webhook.fetch_active m token now = Some a →
     (Webhook.get_action_status token now w).1
     = Returns (Webhook.StatusObject token (Webhook.sku (Webhook.data a))
                  "pending" (Webhook.expires_at a)))
  ∧ ((Webhook.pending w = None
      ∨ ∃ m, Webhook.pending w = Some m ∧ Webhook.fetch_active m token now = None) →
     (Webhook.get_action_status token now w).1
     = Returns (Webhook.StatusError 404 "Action not found or expired"))
  ∧ (∀ t s st e,
       (Webhook.get_action_status token now w).1
       = Returns (Webhook.StatusObject t s st e) →
       t = token ∧ st = "pending" ∧ now < e)
  ∧ Webhook.pending (Webhook.get_action_status token now w).2 = Webhook.pending w.
Proof.
  unfold Webhook.get_action_status. run_m. unfold Webhook.get_pending_action. cbn.
  destruct (Webhook.pending w) as [m|] eqn:Hm; cbn.
  - split_and!.
    + intros m0 a [= <-] Ha. rewrite Ha. cbn.
      apply fetch_active_Some in Ha as (_ & -> & _). reflexivity.
    + intros [? | (m0 & [= <-] & Hnone)]; [done|]. by rewrite Hnone.
    + intros t s st e. destruct (Webhook.fetch_active m token now) as [a|] eqn:Ha;
        cbn; [|discriminate].
      intros [= <- <- <- <-]. by apply fetch_active_Some in Ha as (_ & ? & ?).
    + by destruct (Webhook.fetch_active m token now).
  - by split_and!.
Qed.

(** The widget request queried while pending. *)
Lemma get_action_status_reports_pending_only_witness :
  Webhook.pending Examples.widget_world = Some Examples.widget_store
  ∧ Webhook.fetch_active Examples.widget_store "tok-1" 1 = Some Examples.widget_pending
  ∧ (Webhook.get_action_status "tok-1" 1 Examples.widget_world).1
    = Returns (Webhook.StatusObject "tok-1" "WIDGET-001" "pending" DAY).
Proof.
  split; [reflexivity|]. split; [reflexivity|].
  apply (proj1 (get_action_status_reports_pending_only Examples.widget_world
                  "tok-1" 1) Examples.widget_store Examples.widget_pending
           eq_refl eq_refl).
Defined.

(* ===================================================================== *)
(** * Further properties of the reorder policy *)
(* ===================================================================== *)

Section KeyOrder.

Lemma float_lt_irrefl x : float_lt x x = false.
Proof.
  destruct x as [q|]; [|done]. cbn. apply Qlt_bool_false, Qle_refl.
Qed.

Lemma float_lt_asym x y : float_lt x y = true → float_lt y x = false.
Proof.
  destruct x as [a|], y as [b|]; cbn; try done.
  intros H%Qlt_bool_true. apply Qlt_bool_false. by apply Qlt_le_weak.
Qed.

(** [x <= y] and [y <= z] give [x <= z], written with [<] as the sort
    tests it. *)
Lemma float_le_trans x y z :
  float_lt y x = false → float_lt z y = false → float_lt z x = false.
Proof.
  destruct x as [a|], y as [b|], z as [c|]; cbn; try done.
  intros H1%Qlt_bool_false H2%Qlt_bool_false. apply Qlt_bool_false.
  by eapply Qle_trans.
Qed.

Lemma float_lt_total x y : float_lt x y = false → float_lt y x = false →
  float_lt x y = float_lt y x.
Proof. by intros -> ->. Qed.

Lemma key_lt_asym k1 k2 : key_lt k1 k2 = true → key_lt k2 k1 = false.
Proof.
  destruct k1 as [[] x], k2 as [[] y]; cbn; try done; apply float_lt_asym.
Qed.

Lemma key_le_trans k1 k2 k3 :
  key_lt k2 k1 = false → key_lt k3 k2 = false → key_lt k3 k1 = false.
Proof.
  destruct k1 as [[] x], k2 as [[] y], k3 as [[] z]; cbn; try done;
    apply float_le_trans.
Qed.

Context {A : Type} (key : A → bool * pyfloat).

(** [x] comes no later than [y] in the priority order. *)
Definition key_le (x y : A) : Prop := key_lt (key y) (key x) = false.

Lemma insert_by_key_Permutation x l : insert_by_key key x l ≡ₚ x :: l.
Proof.
  induction l as [|y l IH]; cbn; [done|].
  destruct (key_lt (key y) (key x)); [|done].
  rewrite IH. apply Permutation_swap.
Qed.

Lemma sort_by_key_Permutation l : sort_by_key key l ≡ₚ l.
Proof.
  induction l as [|x l IH]; cbn; [done|].
  rewrite insert_by_key_Permutation. by constructor.
Qed.

Lemma insert_by_key_sorted x l :
  StronglySorted key_le l → StronglySorted key_le (insert_by_key key x l).
Proof.
  induction l as [|y l IH]; cbn; intros Hs.
  - by repeat constructor.
  - inversion Hs as [|? ? Hl Hall]; subst.
    destruct (key_lt (key y) (key x)) eqn:Hlt.
    + constructor; [by apply IH|].
      rewrite insert_by_key_Permutation. constructor; [|done].
      unfold key_le. by apply key_lt_asym.
    + constructor; [done|]. constructor; [done|].
      eapply Forall_impl; [exact Hall|]. intros z Hz. unfold key_le in *.
      by eapply key_le_trans.
Qed.

Lemma sort_by_key_sorted l : StronglySorted key_le (sort_by_key key l).
Proof.
  induction l as [|x l IH]; cbn; [constructor|]. by apply insert_by_key_sorted.
Qed.

(** A list that is in order already is left as it is: the sort is stable. *)
Lemma sort_by_key_sorted_id l : StronglySorted key_le l → sort_by_key key l = l.
Proof.
  induction 1 as [|x l Hs IH Hall]; [done|].
  unfold sort_by_key in *. cbn. rewrite IH. destruct l as [|y l']; [done|]. cbn.
  inversion Hall as [|? ? Hxy _]; subst. unfold key_le in Hxy. by rewrite Hxy.
Qed.

End KeyOrder.

Section DecisionShape.

Import Policy.

Variable compute_daily_average : list Transaction → string → Q.
Variable select_best_vendor : list Vendor → Q → option Vendor.

(** The two shapes a returned decision can have. *)
Lemma evaluate_reorder_need_Returns self now item transactions vendors days d :
  evaluate_reorder_need compute_daily_average select_best_vendor
    self now item transactions vendors days = Returns d →
  vendors ≠ []
  ∧ let avg := compute_daily_average transactions (item_sku item) in
    match resolve_vendor select_best_vendor self item vendors avg (avg * 365)%Q with
    | None =>
        d_needs_reorder d = false ∧ d_vendor d = None ∧ d_qty d = 0%Q
        ∧ d_eoq d = 0%Q ∧ d_total_cost d = 0%Q ∧ d_stockout_date d = None
        ∧ d_evidence_summary d = NoVendorsSummary (item_sku item)
        ∧ d_sku d = item_sku item
    | Some best =>
        d_vendor d = Some (name best)
        ∧ d_sku d = item_sku item
        ∧ d_eoq d = default 0%Q (eoq best)
        ∧ d_total_cost d = default 0%Q (total_annual_cost best)
        ∧ d_needs_reorder d
          = (if Qle_bool avg 0
             then Qle_bool (on_hand item) (default 0%Q (reorder_point item))
             else float_le (estimate_days_until_stockout (on_hand item) avg)
                    (default 7%Q (lead_time best) + safety_margin_days self)%Q
                  || Qle_bool (on_hand item) (default 0%Q (reorder_point item)))
        ∧ d_qty d
          = (if d_needs_reorder d
             then py_max3 (default 0%Q (eoq best)) (min_order_qty self)
                    (py_max 0 (avg * days - on_hand item))
             else 0%Q)
        ∧ d_evidence_summary d
          = _generate_evidence_summary self (item_sku item) (on_hand item) avg
              (estimate_days_until_stockout (on_hand item) avg) best
              (d_needs_reorder d) (d_qty d)
    end.
Proof.
  unfold evaluate_reorder_need. destruct vendors as [|v0 rest]; [done|].
  intros H. split; [done|]. revert H. cbv zeta.
  destruct (resolve_vendor _ _ _ _ _ _) as [best|]; [stockout_cases|];
    intros [= <-]; by cbn.
Qed.

End DecisionShape.

(** X7. The recommended quantity. A decision without reorder recommends
    0. A decision with reorder recommends the largest of the vendor's EOQ,
    the minimum order quantity and the shortfall to the target stock
    ([avg_daily * target_stock_days - on_hand], counted as 0 when
    negative): never less than any of them, and never more than the largest
    of them. *)
Theorem recommended_quantity_bounds
    (compute_daily_average : list Policy.Transaction → string → Q)
    (select_best_vendor : list Policy.Vendor → Q → option Policy.Vendor)
    (self : Policy.ReorderPolicy) (now : Z) (item : Policy.InventoryItem)
    (transactions : list Policy.Transaction) (vendors : list Policy.Vendor)
    (target_stock_days : Q) (d : Policy.Decision) :
  Policy.evaluate_reorder_need compute_daily_average select_best_vendor
    self now item transactions vendors target_stock_days = Returns d →
  let shortfall :=
    (compute_daily_average transactions (Policy.item_sku item) * target_stock_days
     - Policy.on_hand item)%Q in
  (Policy.d_needs_reorder d = false → Policy.d_qty d = 0%Q)
  ∧ (Policy.d_needs_reorder d = true →
     (Policy.d_eoq d <= Policy.d_qty d)%Q
     ∧ (Policy.min_order_qty self <= Policy.d_qty d)%Q
     ∧ (shortfall <= Policy.d_qty d)%Q
     ∧ (0 <= Policy.d_qty d)%Q
     ∧ (Policy.d_qty d = Policy.d_eoq d
        ∨ Policy.d_qty d = Policy.min_order_qty self
        ∨ Policy.d_qty d = shortfall
        ∨ Policy.d_qty d = 0%Q)).
Proof.
  intros Heval shortfall.
  apply evaluate_reorder_need_Returns in Heval as [_ Hshape]. cbv zeta in Hshape.
  destruct (Policy.resolve_vendor _ _ _ _ _ _) as [best|].
  - destruct Hshape as (_ & _ & Heoq & _ & _ & Hqty & _).
    rewrite Hqty, Heoq. fold shortfall.
    destruct (Policy.d_needs_reorder d); split; try done. intros _.
    set (e := default 0%Q (Policy.eoq best)).
    set (mn := Policy.min_order_qty self).
    unfold py_max3. split_and!.
    + eapply Qle_trans; [apply (py_max_l e mn) | apply py_max_l].
    + eapply Qle_trans; [apply (py_max_r e mn) | apply py_max_l].
    + eapply Qle_trans; [apply (py_max_r 0 shortfall) | apply py_max_r].
    + eapply Qle_trans; [apply (py_max_l 0 shortfall) | apply py_max_r].
    + destruct (py_max_cases (py_max e mn) (py_max 0 shortfall)) as [-> | ->].
      * destruct (py_max_cases e mn) as [-> | ->]; auto.
      * destruct (py_max_cases 0 shortfall) as [-> | ->]; auto.
  - destruct Hshape as (Hneeds & _ & Hqty & _). rewrite Hneeds, Hqty.
    by split.
Qed.

(** Scenario 2: EOQ 50, minimum 1, shortfall 3 * 30 - 25 = 65. *)
Lemma recommended_quantity_bounds_witness :
  ∃ d,
    Policy.evaluate_reorder_need Examples.steady_demand Examples.first_vendor
      Policy.default_policy 0 Examples.widget_item [] Examples.three_vendors 30
    = Returns d
    ∧ Policy.d_needs_reorder d = true
    ∧ (Examples.steady_demand [] "WIDGET-001" * 30 - 25 <= Policy.d_qty d)%Q.
Proof.
  destruct (Policy.evaluate_reorder_need Examples.steady_demand Examples.first_vendor
              Policy.default_policy 0 Examples.widget_item [] Examples.three_vendors 30)
    as [d|exc] eqn:Heval; [|vm_compute in Heval; discriminate Heval].
  exists d. split; [reflexivity|].
  assert (Policy.d_needs_reorder d = true) as Hneeds.
  { vm_compute in Heval. by injection Heval as <-. }
  split; [exact Hneeds|].
  exact (proj1 (proj2 (proj2 (proj2 (recommended_quantity_bounds
           Examples.steady_demand Examples.first_vendor Policy.default_policy 0
           Examples.widget_item [] Examples.three_vendors 30 d Heval) Hneeds)))).
Defined.

(** X8. Errors and empty results of an evaluation. An empty vendor list
    raises [ValueError], whatever the item. A returned decision carries the
    item's SKU; if it asks for a reorder it names a vendor; and a decision
    that names no vendor asks for nothing: [needs_reorder] is false, the
    quantity, the EOQ and the total cost are 0 and there is no stockout
    date. *)
Theorem decision_names_a_vendor_or_asks_nothing
    (compute_daily_average : list Policy.Transaction → string → Q)
    (select_best_vendor : list Policy.Vendor → Q → option Policy.Vendor)
    (self : Policy.ReorderPolicy) (now : Z) (item : Policy.InventoryItem)
    (transactions : list Policy.Transaction) (vendors : list Policy.Vendor)
    (target_stock_days : Q) :
  (vendors = [] ↔
   Policy.evaluate_reorder_need compute_daily_average select_best_vendor
     self now item transactions vendors target_stock_days
   = Raises "No vendors provided for evaluation")
  ∧ ∀ d,
      Policy.evaluate_reorder_need compute_daily_average select_best_vendor
        self now item transactions vendors target_stock_days = Returns d →
      Policy.d_sku d = Policy.item_sku item
      ∧ (Policy.d_needs_reorder d = true → is_Some (Policy.d_vendor d))
      ∧ (Policy.d_vendor d = None →
         Policy.d_needs_reorder d = false ∧ Policy.d_qty d = 0%Q
         ∧ Policy.d_eoq d = 0%Q ∧ Policy.d_total_cost d = 0%Q
         ∧ Policy.d_stockout_date d = None).
Proof.
  split.
  - unfold Policy.evaluate_reorder_need. destruct vendors as [|v rest]; [done|].
    split; [done|]. destruct (Policy.resolve_vendor _ _ _ _ _ _); [|done].
    destruct (Policy.estimate_days_until_stockout _ _) as [days|]; [|done].
    unfold add_days. destruct (negb _); [done|].
    destruct (negb _); [cbn; intros [=]|].
    cbv zeta. by destruct (_ && _).
  - intros d Heval.
    apply evaluate_reorder_need_Returns in Heval as [_ Hshape]. cbv zeta in Hshape.
    destruct (Policy.resolve_vendor _ _ _ _ _ _) as [best|].
    + destruct Hshape as (Hv & Hsku & _). rewrite Hv. split_and!; [done|eauto|done].
    + destruct Hshape as (Hn & Hv & Hq & He & Hc & Hd & _ & Hsku).
      rewrite Hn. by split_and!.
Qed.

(** X9. The lowest-price fallback is for zero-demand items at or below
    their reorder point only. When the optimizer returns no vendor for an
    item with positive average demand, or for an item above its reorder
    point, the evaluation returns the decision without vendor and without
    reorder, even for an item that is out of stock and whatever the prices
    in the vendor list. *)
Theorem no_fallback_outside_zero_demand
    (compute_daily_average : list Policy.Transaction → string → Q)
    (select_best_vendor : list Policy.Vendor → Q → option Policy.Vendor)
    (self : Policy.ReorderPolicy) (now : Z) (item : Policy.InventoryItem)
    (transactions : list Policy.Transaction) (vendors : list Policy.Vendor)
    (target_stock_days : Q) :
  vendors ≠ [] →
  select_best_vendor vendors
    (compute_daily_average transactions (Policy.item_sku item) * 365)%Q = None →
  (0 < compute_daily_average transactions (Policy.item_sku item))%Q
  ∨ (default 0 (Policy.reorder_point item) < Policy.on_hand item)%Q →
  ∃ d,
    Policy.evaluate_reorder_need compute_daily_average select_best_vendor
      self now item transactions vendors target_stock_days = Returns d
    ∧ Policy.d_needs_reorder d = false
    ∧ Policy.d_vendor d = None
    ∧ Policy.d_qty d = 0%Q.
Proof.
  intros Hne Hopt Hcase. unfold Policy.evaluate_reorder_need.
  destruct vendors as [|v rest]; [done|].
  unfold Policy.resolve_vendor. rewrite Hopt.
  assert (Qle_bool (compute_daily_average transactions (Policy.item_sku item)) 0
          && Qle_bool (Policy.on_hand item) (default 0%Q (Policy.reorder_point item))
          = false) as ->.
  { apply andb_false_iff. destruct Hcase as [H|H]; [left|right];
      apply Qlt_bool_true in H; unfold Qlt_bool in H; by apply negb_true_iff in H. }
  by eexists.
Qed.

(** An item out of stock, consumed at 3 units a day, for which the
    optimizer finds no vendor among three priced ones. *)
Lemma no_fallback_outside_zero_demand_witness :
  let item := {| Policy.item_sku := "WIDGET-001"; Policy.on_hand := 0;
                 Policy.reorder_point := Some 50%Q;
                 Policy.reorder_quantity := None |} in
  Examples.three_vendors ≠ []
  ∧ (0 < Examples.steady_demand [] "WIDGET-001")%Q
  ∧ ∃ d,
      Policy.evaluate_reorder_need Examples.steady_demand Examples.no_vendor
        Policy.default_policy 0 item [] Examples.three_vendors 30 = Returns d
      ∧ Policy.d_needs_reorder d = false.
Proof.
  intros item.
  assert (Examples.three_vendors ≠ []) as Hne by discriminate.
  assert (0 < Examples.steady_demand [] "WIDGET-001")%Q as Hpos by reflexivity.
  split; [exact Hne|]. split; [exact Hpos|].
  destruct (no_fallback_outside_zero_demand Examples.steady_demand Examples.no_vendor
              Policy.default_policy 0 item [] Examples.three_vendors 30
              Hne eq_refl (or_introl Hpos)) as (d & Heval & Hneeds & _).
  exists d. by split.
Defined.

(** An empty vendor list, and a list without priced vendor for an item
    without demand. *)
Lemma decision_names_a_vendor_or_asks_nothing_witness :
  Policy.evaluate_reorder_need Examples.no_demand Examples.no_vendor
    Policy.default_policy 0 Examples.low_item [] [] 30
  = Raises "No vendors provided for evaluation"
  ∧ ∃ d,
      Policy.evaluate_reorder_need Examples.no_demand Examples.no_vendor
        Policy.default_policy 0 Examples.low_item [] [Examples.unpriced_vendor] 30
      = Returns d
      ∧ Policy.d_vendor d = None
      ∧ Policy.d_qty d = 0%Q.
Proof.
  split.
  - by apply (decision_names_a_vendor_or_asks_nothing Examples.no_demand
                Examples.no_vendor Policy.default_policy 0 Examples.low_item [] [] 30).
  - destruct (Policy.evaluate_reorder_need Examples.no_demand Examples.no_vendor
                Policy.default_policy 0 Examples.low_item []
                [Examples.unpriced_vendor] 30)
      as [d|exc] eqn:Heval; [|vm_compute in Heval; discriminate Heval].
    exists d. split; [reflexivity|].
    assert (Policy.d_vendor d = None) as Hv.
    { vm_compute in Heval. by injection Heval as <-. }
    split; [exact Hv|].
    destruct (proj2 (decision_names_a_vendor_or_asks_nothing Examples.no_demand
                Examples.no_vendor Policy.default_policy 0 Examples.low_item []
                [Examples.unpriced_vendor] 30) d Heval) as (_ & _ & Hnone).
    by destruct (Hnone Hv) as (_ & ? & _).
Defined.

(** X10. The urgency tier of a reorder. A decision without reorder has no
    tier. For a decision with reorder: URGENT and HIGH are given to items
    with positive demand only, URGENT when the days until stockout
    ([on_hand / avg_daily]) are at most the safety margin, HIGH when they
    exceed it and are at most the vendor's lead time (7 days when the
    vendor gives none) plus the safety margin; MEDIUM is given exactly to
    the reorders that come from the reorder point alone: the item is at or
    below its reorder point, and it has no demand or its days until
    stockout exceed both thresholds. *)
Theorem urgency_tier_of_a_reorder
    (compute_daily_average : list Policy.Transaction → string → Q)
    (select_best_vendor : list Policy.Vendor → Q → option Policy.Vendor)
    (self : Policy.ReorderPolicy) (now : Z) (item : Policy.InventoryItem)
    (transactions : list Policy.Transaction) (vendors : list Policy.Vendor)
    (target_stock_days : Q) (d : Policy.Decision) :
  Policy.evaluate_reorder_need compute_daily_average select_best_vendor
    self now item transactions vendors target_stock_days = Returns d →
  let avg := compute_daily_average transactions (Policy.item_sku item) in
  let days := (Policy.on_hand item / avg)%Q in
  let safety := Policy.safety_margin_days self in
  (Policy.d_needs_reorder d = false →
   Policy.summary_urgency (Policy.d_evidence_summary d) = None)
  ∧ (Policy.d_needs_reorder d = true →
     ∃ best lead,
       Policy.resolve_vendor select_best_vendor self item vendors avg (avg * 365)%Q
       = Some best
       ∧ lead = default 7%Q (Policy.lead_time best)
       ∧ ((Policy.summary_urgency (Policy.d_evidence_summary d) = Some Policy.URGENT
           ∧ (0 < avg)%Q ∧ (days <= safety)%Q)
          ∨ (Policy.summary_urgency (Policy.d_evidence_summary d) = Some Policy.HIGH
             ∧ (0 < avg)%Q ∧ (safety < days)%Q ∧ (days <= lead + safety)%Q)
          ∨ (Policy.summary_urgency (Policy.d_evidence_summary d) = Some Policy.MEDIUM
             ∧ (Policy.on_hand item <= default 0 (Policy.reorder_point item))%Q
             ∧ ((avg <= 0)%Q
                ∨ ((safety < days)%Q ∧ (lead + safety < days)%Q))))).
Proof.
  intros Heval avg days safety.
  apply evaluate_reorder_need_Returns in Heval as [_ Hshape]. cbv zeta in Hshape.
  fold avg in Hshape.
  destruct (Policy.resolve_vendor _ _ _ _ _ _) as [best|].
  - destruct Hshape as (_ & _ & _ & _ & Hneeds & _ & Hsum).
    rewrite Hsum. unfold Policy._generate_evidence_summary.
    destruct (Policy.d_needs_reorder d) eqn:Hn; split; try done. intros _.
    exists best, (default 7%Q (Policy.lead_time best)). split; [done|]. split; [done|].
    cbn [Policy.summary_urgency]. unfold Policy.urgency_of.
    unfold Policy.estimate_days_until_stockout in *. fold safety. fold safety in Hneeds.
    destruct (Qle_bool avg 0) eqn:Havg.
    + cbn [float_le]. right. right. split; [done|]. symmetry in Hneeds.
      apply Qle_bool_iff in Hneeds, Havg. split; [done|]. by left.
    + assert (0 < avg)%Q as Hpos.
      { apply Qlt_bool_true. unfold Qlt_bool. by rewrite Havg. }
      cbn [float_le] in *. fold days in Hneeds. fold days.
      destruct (Qle_bool days safety) eqn:H1.
      * left. apply Qle_bool_iff in H1. done.
      * assert (safety < days)%Q as Hgt1.
        { apply Qlt_bool_true. unfold Qlt_bool. by rewrite H1. }
        destruct (Qle_bool days (default 7%Q (Policy.lead_time best) + safety)) eqn:H2.
        -- right. left. apply Qle_bool_iff in H2. done.
        -- right. right. cbn [orb] in Hneeds. symmetry in Hneeds.
           apply Qle_bool_iff in Hneeds. split; [done|]. split; [done|].
           right. split; [done|]. apply Qlt_bool_true. unfold Qlt_bool. by rewrite H2.
  - destruct Hshape as (Hneeds & _ & _ & _ & _ & _ & Hsum & _).
    rewrite Hneeds, Hsum. by split.
Qed.

(** Scenario 2: 25 units at 3 a day are gone in 8.3 days, more than the
    safety margin of 7 and less than the 14 days of lead time and margin. *)
Lemma urgency_tier_of_a_reorder_witness :
  ∃ d,
    Policy.evaluate_reorder_need Examples.steady_demand Examples.first_vendor
      Policy.default_policy 0 Examples.widget_item [] Examples.three_vendors 30
    = Returns d
    ∧ Policy.d_needs_reorder d = true
    ∧ Policy.summary_urgency (Policy.d_evidence_summary d) = Some Policy.HIGH.
Proof.
  destruct (Policy.evaluate_reorder_need Examples.steady_demand Examples.first_vendor
              Policy.default_policy 0 Examples.widget_item [] Examples.three_vendors 30)
    as [d|exc] eqn:Heval; [|vm_compute in Heval; discriminate Heval].
  exists d. split; [reflexivity|].
  assert (Policy.d_needs_reorder d = true) as Hneeds.
  { vm_compute in Heval. by injection Heval as <-. }
  split; [exact Hneeds|].
  destruct (proj2 (urgency_tier_of_a_reorder Examples.steady_demand
              Examples.first_vendor Policy.default_policy 0 Examples.widget_item []
              Examples.three_vendors 30 d Heval) Hneeds)
    as (best & lead & Hbest & -> & [(_ & _ & Hle) | [(Hhigh & _)
         | (_ & _ & [Havg | [_ Hlt]])]]).
  - exfalso. vm_compute in Hle. by apply Hle.
  - exact Hhigh.
  - exfalso. vm_compute in Havg. by apply Havg.
  - exfalso. vm_compute in Hbest. injection Hbest as <-.
    vm_compute in Hlt. discriminate Hlt.
Defined.

(** X11. The cost in the evidence sentence is not the cost of the
    decision. For a zero-demand item at or below its reorder point that is
    resolved through the lowest-price fallback, the decision reports the
    purchase cost (EOQ times the unit price) as its total cost, while the
    evidence sentence prints what it finds under the vendor's ['total_cost']
    key: 0 when the vendors of the list have no such key. *)
Theorem evidence_cost_differs_from_decision_cost
    (compute_daily_average : list Policy.Transaction → string → Q)
    (select_best_vendor : list Policy.Vendor → Q → option Policy.Vendor)
    (self : Policy.ReorderPolicy) (now : Z) (item : Policy.InventoryItem)
    (transactions : list Policy.Transaction) (vendors : list Policy.Vendor)
    (target_stock_days : Q) :
  (compute_daily_average transactions (Policy.item_sku item) == 0)%Q →
  select_best_vendor vendors
    (compute_daily_average transactions (Policy.item_sku item) * 365)%Q = None →
  (Policy.on_hand item <= default 0 (Policy.reorder_point item))%Q →
  (∃ v, v ∈ vendors ∧ is_Some (Policy.price_per_unit v)) →
  (∀ v, v ∈ vendors → Policy.total_cost v = None) →
  ∃ d p,
    Policy.evaluate_reorder_need compute_daily_average select_best_vendor
      self now item transactions vendors target_stock_days = Returns d
    ∧ Policy.d_needs_reorder d = true
    ∧ Policy.d_total_cost d
      = (py_max (Policy.min_order_qty self)
           (default 10%Q (Policy.reorder_quantity item)) * p)%Q
    ∧ (∃ v, v ∈ vendors ∧ Policy.price_per_unit v = Some p
            ∧ Policy.d_vendor d = Some (Policy.name v))
    ∧ Policy.summary_cost (Policy.d_evidence_summary d) = Some 0%Q.
Proof.
  intros Hzero Hopt Hrp (v0 & Hv0 & Hpriced) Hkeys.
  assert (Qle_bool (compute_daily_average transactions (Policy.item_sku item)) 0 = true)
    as Hle.
  { apply Qle_bool_iff. rewrite Hzero. apply Qle_refl. }
  apply Qle_bool_iff in Hrp.
  unfold Policy.evaluate_reorder_need.
  destruct vendors as [|v1 rest] eqn:Hvendors; [by apply elem_of_nil in Hv0|].
  rewrite <- Hvendors in *. clear Hvendors v1 rest.
  unfold Policy.resolve_vendor. rewrite Hopt, Hle, Hrp. cbn [andb].
  unfold Policy.estimate_days_until_stockout. rewrite Hle.
  destruct (Policy.select_fallback_vendor vendors) as [fv|] eqn:Hfv.
  - apply select_fallback_vendor_Some in Hfv as (Hin & p & Hp & _).
    eexists _, p. split; [reflexivity|].
    cbn [Policy.d_needs_reorder Policy.d_total_cost Policy.d_vendor
         Policy.d_evidence_summary Policy.vendor_update Policy.total_annual_cost
         Policy.name Policy.price_per_unit default from_option].
    rewrite Hp. cbn [default from_option]. split_and!; [done|done|by exists fv|].
    unfold Policy._generate_evidence_summary.
    cbn [Policy.summary_cost Policy.total_cost Policy.vendor_update].
    by rewrite (Hkeys fv Hin).
  - destruct Hpriced as [p Hp].
    rewrite (select_fallback_vendor_None vendors Hfv v0 Hv0) in Hp. discriminate.
Qed.

(** Scenario 1: the decision costs 118, the sentence says 0. *)
Lemma evidence_cost_differs_from_decision_cost_witness :
  ∃ d,
    Policy.evaluate_reorder_need Examples.no_demand Examples.no_vendor
      Policy.default_policy 0 Examples.low_item [] Examples.three_vendors 30
    = Returns d
    ∧ (Policy.d_total_cost d == 118)%Q
    ∧ Policy.summary_cost (Policy.d_evidence_summary d) = Some 0%Q.
Proof.
  assert (∃ v, v ∈ Examples.three_vendors ∧ is_Some (Policy.price_per_unit v)) as Hv.
  { eexists. split; [apply list_elem_of_here | by eexists]. }
  assert (∀ v, v ∈ Examples.three_vendors → Policy.total_cost v = None) as Hkeys.
  { intros v Hin. unfold Examples.three_vendors in Hin.
    repeat (apply elem_of_cons in Hin as [->|Hin]); try done.
    by apply elem_of_nil in Hin. }
  assert (Policy.on_hand Examples.low_item
          <= default 0 (Policy.reorder_point Examples.low_item))%Q as Hrp.
  { vm_compute. discriminate. }
  destruct (evidence_cost_differs_from_decision_cost Examples.no_demand
              Examples.no_vendor Policy.default_policy 0 Examples.low_item []
              Examples.three_vendors 30 (Qeq_refl 0) eq_refl Hrp Hv Hkeys)
    as (d & p & Heval & _ & _ & _ & Hcost).
  exists d. split; [exact Heval|]. split; [|exact Hcost].
  vm_compute in Heval. injection Heval as <-. reflexivity.
Defined.

Section BatchFacts.

Import Policy.

Variable compute_daily_average : list Transaction → string → Q.
Variable select_best_vendor : list Vendor → Q → option Vendor.

Lemma evaluate_item_sku self clock i item transactions vendors days :
  result_sku (evaluate_item compute_daily_average select_best_vendor self clock i
                item transactions vendors days) = item_sku item.
Proof.
  unfold evaluate_item.
  destruct (evaluate_reorder_need _ _ _ _ _ _ _ _) as [d|exc] eqn:Heval; [|done].
  apply evaluate_reorder_need_Returns in Heval as [_ Hshape]. cbv zeta in Hshape.
  destruct (resolve_vendor _ _ _ _ _ _); cbn; tauto.
Qed.

Lemma evaluate_items_skus self clock i items transactions vendors days :
  result_sku <$> evaluate_items compute_daily_average select_best_vendor self clock i
                   items transactions vendors days
  = item_sku <$> items.
Proof.
  revert i. induction items as [|item rest IH]; intros i; [done|].
  cbn [evaluate_items fmap list_fmap]. by rewrite evaluate_item_sku, IH.
Qed.

Lemma evaluate_items_no_vendors self clock i items transactions days :
  evaluate_items compute_daily_average select_best_vendor self clock i
    items transactions [] days
  = (λ item, EvaluationError (item_sku item) "No vendors provided for evaluation")
    <$> items.
Proof.
  revert i. induction items as [|item rest IH]; intros i; [done|].
  cbn [evaluate_items fmap list_fmap]. by rewrite IH.
Qed.

Lemma priority_key_needs_reorder r :
  (priority_key r).1 = negb (result_needs_reorder r).
Proof. by destruct r. Qed.

End BatchFacts.

(** X12. [batch_evaluate_reorders] returns exactly one entry per inventory
    item, for the same SKUs: the entries are the per-item results in a new
    order, an item whose evaluation raises being represented by an error
    entry instead of stopping the batch. With an empty vendor list every
    entry is the error entry of its item, and the entries are in the order
    of the items. *)
Theorem batch_evaluate_reorders_one_entry_per_item
    (compute_daily_average : list Policy.Transaction → string → Q)
    (select_best_vendor : list Policy.Vendor → Q → option Policy.Vendor)
    (self : Policy.ReorderPolicy) (clock : nat → Z)
    (inventory_items : list Policy.InventoryItem)
    (transactions : list Policy.Transaction) (vendors : list Policy.Vendor)
    (target_stock_days : Q) :
  let results :=
    Policy.batch_evaluate_reorders compute_daily_average select_best_vendor self
      clock inventory_items transactions vendors target_stock_days in
  results ≡ₚ Policy.evaluate_items compute_daily_average select_best_vendor self
               clock 0 inventory_items transactions vendors target_stock_days
  ∧ length results = length inventory_items
  ∧ Policy.result_sku <$> results ≡ₚ Policy.item_sku <$> inventory_items
  ∧ (vendors = [] →
     results
     = (λ item, Policy.EvaluationError (Policy.item_sku item)
                  "No vendors provided for evaluation") <$> inventory_items).
Proof.
  intros results. subst results. unfold Policy.batch_evaluate_reorders.
  pose proof (sort_by_key_Permutation Policy.priority_key
                (Policy.evaluate_items compute_daily_average select_best_vendor self
                   clock 0 inventory_items transactions vendors target_stock_days))
    as Hperm.
  split_and!.
  - exact Hperm.
  - rewrite Hperm, <- (length_fmap Policy.result_sku), evaluate_items_skus.
    by rewrite length_fmap.
  - by rewrite Hperm, evaluate_items_skus.
  - intros ->. rewrite evaluate_items_no_vendors. apply sort_by_key_sorted_id.
    clear Hperm. induction inventory_items as [|item rest IH]; cbn;
      constructor; [done|].
    apply Forall_fmap, Forall_forall. intros x _. unfold key_le. cbn.
    apply Qlt_bool_false, Qle_refl.
Qed.

(** Two items evaluated without any vendor. *)
Lemma batch_evaluate_reorders_one_entry_per_item_witness :
  Policy.batch_evaluate_reorders Examples.steady_demand Examples.first_vendor
    Policy.default_policy Examples.stopped_clock
    [Examples.widget_item; Examples.low_item] [] [] 30
  = [ Policy.EvaluationError "WIDGET-001" "No vendors provided for evaluation";
      Policy.EvaluationError "TOOL-003" "No vendors provided for evaluation" ].
Proof.
  by rewrite (proj2 (proj2 (proj2 (batch_evaluate_reorders_one_entry_per_item
                Examples.steady_demand Examples.first_vendor Policy.default_policy
                Examples.stopped_clock [Examples.widget_item; Examples.low_item]
                [] [] 30))) eq_refl).
Defined.

(** X13. [batch_evaluate_reorders] returns its entries by priority: an
    entry never comes after an entry of strictly lower sort key. Hence
    every entry that asks for a reorder comes before every entry that does
    not (error entries included), and two reorders come by increasing days
    until stockout. *)
Theorem batch_evaluate_reorders_by_priority
    (compute_daily_average : list Policy.Transaction → string → Q)
    (select_best_vendor : list Policy.Vendor → Q → option Policy.Vendor)
    (self : Policy.ReorderPolicy) (clock : nat → Z)
    (inventory_items : list Policy.InventoryItem)
    (transactions : list Policy.Transaction) (vendors : list Policy.Vendor)
    (target_stock_days : Q)
    (before after : list Policy.BatchResult) (r1 r2 : Policy.BatchResult) :
  Policy.batch_evaluate_reorders compute_daily_average select_best_vendor self
    clock inventory_items transactions vendors target_stock_days
  = before ++ after →
  r1 ∈ before → r2 ∈ after →
  key_lt (Policy.priority_key r2) (Policy.priority_key r1) = false
  ∧ (Policy.result_needs_reorder r2 = true → Policy.result_needs_reorder r1 = true)
  ∧ (Policy.result_needs_reorder r1 = true →
     Policy.result_needs_reorder r2 = true →
     float_lt (Policy.priority_key r2).2 (Policy.priority_key r1).2 = false).
Proof.
  intros Hsplit H1 H2.
  pose proof (sort_by_key_sorted Policy.priority_key
                (Policy.evaluate_items compute_daily_average select_best_vendor self
                   clock 0 inventory_items transactions vendors target_stock_days))
    as Hsorted.
  fold (Policy.batch_evaluate_reorders compute_daily_average select_best_vendor self
          clock inventory_items transactions vendors target_stock_days) in Hsorted.
  rewrite Hsplit in Hsorted.
  pose proof (StronglySorted_app_1_elem_of _ _ _ _ _ Hsorted H1 H2) as Hle.
  unfold key_le in Hle. split; [exact Hle|].
  unfold key_lt in Hle. rewrite !priority_key_needs_reorder in Hle.
  destruct (Policy.result_needs_reorder r1), (Policy.result_needs_reorder r2);
    cbn in Hle; by split.
Qed.

(** The well-stocked gadget is listed first and comes out last. *)
Lemma batch_evaluate_reorders_by_priority_witness :
  ∃ r1 r2,
    Policy.batch_evaluate_reorders Examples.steady_demand Examples.first_vendor
      Policy.default_policy Examples.stopped_clock
      [Examples.gadget_item; Examples.widget_item] [] Examples.three_vendors 30
    = [r1] ++ [r2]
    ∧ Policy.result_sku r1 = "WIDGET-001"
    ∧ Policy.result_sku r2 = "GADGET-002"
    ∧ (Policy.result_needs_reorder r2 = true → Policy.result_needs_reorder r1 = true).
Proof.
  destruct (Policy.batch_evaluate_reorders Examples.steady_demand Examples.first_vendor
              Policy.default_policy Examples.stopped_clock
              [Examples.gadget_item; Examples.widget_item] [] Examples.three_vendors 30)
    as [|r1 [|r2 [|r3 rest]]] eqn:Hbatch;
    try (vm_compute in Hbatch; discriminate Hbatch).
  exists r1, r2. split; [reflexivity|].
  pose proof (batch_evaluate_reorders_by_priority Examples.steady_demand
                Examples.first_vendor Policy.default_policy Examples.stopped_clock
                [Examples.gadget_item; Examples.widget_item] [] Examples.three_vendors
                30 [r1] [r2] r1 r2 Hbatch (list_elem_of_here _ _) (list_elem_of_here _ _))
    as (_ & Hfirst & _).
  vm_compute in Hbatch. injection Hbatch as <- <-.
  split; [reflexivity|]. split; [reflexivity|]. exact Hfirst.
Defined.

(* ===================================================================== *)
(** * Further properties of the orchestrator *)

Section CycleFacts.

Import Policy Agent.

Variable compute_daily_average : list Transaction → string → Q.
Variable select_best_vendor : list Vendor → Q → option Vendor.
Variable self : AgentConfig.
Variable sample_vendors : nat → list Vendor.
Variable clock : nat → Z.
Variable rationale_for : string → Decision → Rationale.
Variable notion_page_for : string → Decision → string.
Variable auto_order_succeeds : string → Decision → bool.

Local Abbreviation process_sku :=
  (_process_sku compute_daily_average select_best_vendor self sample_vendors
     clock rationale_for notion_page_for auto_order_succeeds).
Local Abbreviation process_sku_counting :=
  (_process_sku_counting compute_daily_average select_best_vendor self
     sample_vendors clock rationale_for notion_page_for auto_order_succeeds).
Local Abbreviation collect :=
  (collect_approvals compute_daily_average select_best_vendor self sample_vendors
     clock rationale_for notion_page_for auto_order_succeeds).
Local Abbreviation process_all :=
  (process_inventory compute_daily_average select_best_vendor self sample_vendors
     clock rationale_for notion_page_for auto_order_succeeds).

(** The counting variant of [_process_sku] returns what [_process_sku]
    returns. *)
Lemma _process_sku_counting_outcome i sku_data transaction_data results :
  (process_sku_counting i sku_data transaction_data results).1
  = process_sku i sku_data transaction_data.
Proof.
  unfold _process_sku_counting, _process_sku.
  destruct (evaluate_reorder_need _ _ _ _ _ _ _ _) as [d|exc]; [|done].
  destruct (negb (d_needs_reorder d)); [done|].
  destruct (_ && negb _); [|done].
  by destruct (auto_order_succeeds _ _).
Qed.

(** What one row does to the counters. *)
Lemma _process_sku_counting_counters i sku_data transaction_data results :
  let out := process_sku_counting i sku_data transaction_data results in
  processed_skus out.2 = processed_skus results
  ∧ errors out.2 = errors results
  ∧ approval_emails_sent out.2 = approval_emails_sent results
  ∧ batch_approvals_pending out.2 = batch_approvals_pending results
  ∧ match out.1 with
    | Raises _ => out.2 = results
    | Returns None =>
        (reorders_recommended out.2 = reorders_recommended results
         ∧ auto_orders_placed out.2 = auto_orders_placed results)
        ∨ (dry_run self = false
           ∧ reorders_recommended out.2 = (reorders_recommended results + 1)%nat
           ∧ auto_orders_placed out.2 = (auto_orders_placed results + 1)%nat)
    | Returns (Some _) =>
        reorders_recommended out.2 = (reorders_recommended results + 1)%nat
        ∧ auto_orders_placed out.2 = auto_orders_placed results
    end.
Proof.
  unfold _process_sku_counting.
  destruct (evaluate_reorder_need _ _ _ _ _ _ _ _) as [d|exc]; [|by cbn].
  destruct (negb (d_needs_reorder d)); [cbn; by split_and!; try left|].
  destruct (dry_run self) eqn:Hdry.
  - rewrite andb_false_r. by cbn.
  - rewrite andb_true_r. destruct (_ && _); [|by cbn].
    destruct (auto_order_succeeds _ _); cbn; split_and!; try done.
    by right.
Qed.

Lemma process_inventory_requests i inventory_data pending_approvals results :
  (process_all i inventory_data pending_approvals results).1
  = pending_approvals ++ collect i inventory_data.
Proof.
  revert i pending_approvals results.
  induction inventory_data as [|sku_data rest IH]; intros i pend results; cbn.
  { by rewrite app_nil_r. }
  pose proof (_process_sku_counting_outcome i sku_data _fetch_transaction_data
                results) as Hout.
  destruct (process_sku_counting i sku_data _ results) as [[[req|]|exc] results'];
    cbn in Hout; rewrite <- Hout, IH; [|done|done].
  by rewrite <- (assoc_L (++)).
Qed.

(** The bookkeeping of step 2: every row ends up counted as processed or
    as an error; every recommended reorder is an order placed or a request
    pending; and no more reorders are recommended than rows processed. *)
Lemma process_inventory_counters i inventory_data pending_approvals results :
  let out := process_all i inventory_data pending_approvals results in
  (processed_skus out.2 + length (errors out.2)
   = processed_skus results + length (errors results) + length inventory_data)%nat
  ∧ (reorders_recommended out.2 + auto_orders_placed results
       + length pending_approvals
     = reorders_recommended results + auto_orders_placed out.2 + length out.1)%nat
  ∧ (reorders_recommended out.2 + processed_skus results
     ≤ reorders_recommended results + processed_skus out.2)%nat
  ∧ (auto_orders_placed results ≤ auto_orders_placed out.2)%nat
  ∧ (dry_run self = true → auto_orders_placed out.2 = auto_orders_placed results)
  ∧ approval_emails_sent out.2 = approval_emails_sent results
  ∧ batch_approvals_pending out.2 = batch_approvals_pending results.
Proof.
  revert i pending_approvals results.
  induction inventory_data as [|sku_data rest IH]; intros i pend results.
  { cbn. split_and!; try done; lia. }
  cbn [process_inventory].
  pose proof (_process_sku_counting_counters i sku_data _fetch_transaction_data
                results) as H.
  cbv zeta in H.
  destruct (process_sku_counting i sku_data _ results) as [[[req|]|exc] results'];
    cbn [fst snd] in H; destruct H as (Hp & He & Hm & Hb & H);
    try pose proof (f_equal length He) as He'.
  - destruct H as [Hr Ha].
    specialize (IH (S i) (pend ++ [req]) (count_processed results')).
    cbv zeta in IH. cbn [count_processed processed_skus errors
      reorders_recommended auto_orders_placed approval_emails_sent
      batch_approvals_pending] in IH.
    rewrite length_app in IH. cbn [length] in *.
    destruct IH as (I1 & I2 & I3 & I4 & I5 & I6 & I7).
    split_and!; try lia; try congruence;
      intros Hd; first [congruence | rewrite I5 by done; lia].
  - specialize (IH (S i) pend (count_processed results')).
    cbv zeta in IH. cbn [count_processed processed_skus errors
      reorders_recommended auto_orders_placed approval_emails_sent
      batch_approvals_pending] in IH.
    cbn [length] in *.
    destruct IH as (I1 & I2 & I3 & I4 & I5 & I6 & I7).
    destruct H as [[Hr Ha] | (Hd & Hr & Ha)].
    + split_and!; try lia; try congruence;
      intros Hd; first [congruence | rewrite I5 by done; lia].
    + split_and!; try lia; try congruence;
      intros Hd; first [congruence | rewrite I5 by done; lia].
  - subst results'.
    specialize (IH (S i) pend (add_error
      ("Error processing SKU " +:+ default "unknown" (sd_sku sku_data)
       +:+ ": " +:+ exc) results)).
    cbv zeta in IH. cbn [add_error processed_skus errors
      reorders_recommended auto_orders_placed approval_emails_sent
      batch_approvals_pending] in IH.
    rewrite length_app in IH. cbn [length] in *.
    destruct IH as (I1 & I2 & I3 & I4 & I5 & I6 & I7).
    split_and!; try lia; try congruence;
      intros Hd; first [congruence | rewrite I5 by done; lia].
Qed.

(** [_send_batch_approval_email] hands no value back, whatever the store
    and the mail connector do. *)
Lemma _send_batch_approval_email_value_None reqs batch_token now send_email w :
  (_send_batch_approval_email_value reqs batch_token now send_email w).1
  = Returns None.
Proof.
  unfold _send_batch_approval_email_value. destruct reqs as [|req reqs]; [done|].
  unfold Webhook.store_pending_approval, Webhook.store_pending_action.
  run_m. cbn.
  destruct (Webhook.pending w); cbn; [|done].
  destruct (Webhook.use_sqlite w && negb _); cbn; [done|].
  by destruct send_email.
Qed.

(** ... and it leaves the store as the storing of the batch leaves it. *)
Lemma _send_batch_approval_email_value_store reqs batch_token now send_email w :
  Webhook.pending
    (_send_batch_approval_email_value reqs batch_token now send_email w).2
  = Webhook.pending (_send_batch_approval_email reqs batch_token now w).2.
Proof.
  unfold _send_batch_approval_email_value, _send_batch_approval_email.
  destruct reqs as [|req reqs]; [done|].
  unfold Webhook.store_pending_approval, Webhook.store_pending_action.
  run_m. cbn.
  destruct (Webhook.pending w) eqn:Hw; cbn; [|done].
  destruct (Webhook.use_sqlite w && negb _); cbn; [done|].
  by destruct send_email.
Qed.

(** The rows are processed independently of one another. *)
Lemma collect_approvals_app i l1 l2 :
  collect i (l1 ++ l2) = collect i l1 ++ collect (i + length l1)%nat l2.
Proof.
  revert i. induction l1 as [|sku_data l1 IH]; intros i; cbn.
  { by rewrite Nat.add_0_r. }
  rewrite IH, Nat.add_succ_r. cbn.
  by destruct (process_sku i sku_data _) as [[req|]|exc].
Qed.

Lemma _process_sku_sku i sku_data transaction_data req :
  process_sku i sku_data transaction_data = Returns (Some req) →
  rq_sku req = default "unknown" (sd_sku sku_data).
Proof.
  unfold _process_sku.
  destruct (evaluate_reorder_need _ _ _ _ _ _ _ _) as [d|exc]; [|done].
  destruct (negb (d_needs_reorder d)); [done|].
  destruct (_ && negb _).
  - destruct (auto_order_succeeds _ _); [done|]. by intros [= <-].
  - by intros [= <-].
Qed.

Lemma collect_approvals_skus i inventory_data :
  (rq_sku <$> collect i inventory_data)
  `sublist_of` ((λ sku_data, default "unknown" (sd_sku sku_data)) <$> inventory_data).
Proof.
  revert i. induction inventory_data as [|sku_data rest IH]; intros i; cbn.
  { constructor. }
  destruct (process_sku i sku_data _) as [[req|]|exc] eqn:Hp.
  - cbn. rewrite (_process_sku_sku _ _ _ _ Hp). by apply sublist_skip.
  - by apply sublist_cons.
  - by apply sublist_cons.
Qed.

(** What the [reason] of a request says about the run. *)
Lemma _process_sku_reason i sku_data transaction_data req :
  process_sku i sku_data transaction_data = Returns (Some req) →
  let d := rq_reorder_decision req in
  let trust := _get_vendor_trust_score (default "" (d_vendor d)) in
  match rq_reason req with
  | DryRun => dry_run self = true
  | AutoOrderFailed =>
      dry_run self = false
      ∧ (d_total_cost d < auto_order_threshold self)%Q
      ∧ (vendor_trust_threshold self <= trust)%Q
      ∧ auto_order_succeeds (rq_sku req) d = false
  | NotAutoApproved total_cost vendor_trust_score =>
      dry_run self = false
      ∧ total_cost = d_total_cost d
      ∧ vendor_trust_score = trust
      ∧ ((auto_order_threshold self <= total_cost)%Q
         ∨ (vendor_trust_score < vendor_trust_threshold self)%Q)
  end.
Proof.
  unfold _process_sku.
  destruct (evaluate_reorder_need _ _ _ _ _ _ _ _) as [d|exc]; [|done].
  destruct (negb (d_needs_reorder d)); [done|].
  destruct (dry_run self) eqn:Hdry.
  - rewrite andb_false_r. by intros [= <-].
  - rewrite andb_true_r.
    destruct (Qlt_bool _ _) eqn:Hlt; cbn [andb].
    + destruct (Qle_bool _ _) eqn:Hle.
      * destruct (auto_order_succeeds _ _) eqn:Hauto; [done|].
        intros [= <-]. cbn. split_and!; try done.
        -- by apply Qlt_bool_true.
        -- by apply Qle_bool_iff.
      * intros [= <-]. cbn. split_and!; try done. right.
        apply Qnot_le_lt. intros Hc. apply Qle_bool_iff in Hc. congruence.
    + intros [= <-]. cbn. split_and!; try done. left.
      by apply Qlt_bool_false.
Qed.

Lemma collect_approvals_complete i inventory_data k sku_data req :
  inventory_data !! k = Some sku_data →
  process_sku (i + k)%nat sku_data _fetch_transaction_data = Returns (Some req) →
  req ∈ collect i inventory_data.
Proof.
  revert i k. induction inventory_data as [|sd rest IH]; intros i k; [done|].
  destruct k as [|k]; cbn.
  - intros [= ->]. rewrite Nat.add_0_r. intros ->. apply elem_of_cons. by left.
  - intros Hk. rewrite Nat.add_succ_r. intros Hp.
    specialize (IH (S i) k Hk Hp).
    destruct (process_sku i sd _) as [[r|]|exc]; [|done|done].
    apply elem_of_cons. by right.
Qed.

(** In a dry run a reorder decision always becomes a request. *)
Lemma _process_sku_dry_run i sku_data d :
  dry_run self = true →
  evaluate_reorder_need compute_daily_average select_best_vendor default_policy
    (clock i) (inventory_item_of sku_data) [] (sample_vendors i) 30 = Returns d →
  d_needs_reorder d = true →
  ∃ req, process_sku i sku_data _fetch_transaction_data = Returns (Some req)
         ∧ rq_reorder_decision req = d ∧ rq_reason req = DryRun.
Proof.
  intros Hdry Heval Hneeds. unfold _process_sku, _fetch_transaction_data.
  cbn [List.filter]. rewrite Heval, Hneeds, Hdry. cbn [negb].
  rewrite andb_false_r. eexists. split; [reflexivity|]. by cbn.
Qed.

End CycleFacts.

(** X14. The summary of a cycle adds up. [run_cycle] always returns its
    [results]; in them every inventory row is counted once, as processed
    or by an error entry, the only other error entry being the one of the
    batch e-mail, present exactly when requests are pending; every
    recommended reorder is an order placed by the agent or a request left
    for approval; and no more reorders are recommended than rows are
    processed. *)
Theorem run_cycle_results_counters
    (compute_daily_average : list Policy.Transaction → string → Q)
    (select_best_vendor : list Policy.Vendor → Q → option Policy.Vendor)
    (self : Agent.AgentConfig) (sample_vendors : nat → list Policy.Vendor)
    (clock : nat → Z)
    (rationale_for : string → Policy.Decision → Agent.Rationale)
    (notion_page_for : string → Policy.Decision → string)
    (auto_order_succeeds : string → Policy.Decision → bool)
    (inventory_data : list Agent.SkuData) (batch_token : string) (now : Z)
    (send_email : Outcome (option string)) (w : Webhook.World) :
  ∃ res,
    (Agent.run_cycle_results compute_daily_average select_best_vendor self
       sample_vendors clock rationale_for notion_page_for auto_order_succeeds
       inventory_data batch_token now send_email w).1 = Returns res
    ∧ (Agent.processed_skus res + length (Agent.errors res)
       = length inventory_data
         + (if Agent.collect_approvals compute_daily_average select_best_vendor
                 self sample_vendors clock rationale_for notion_page_for
                 auto_order_succeeds 0 inventory_data
            is [] then 0 else 1))%nat
    ∧ (Agent.reorders_recommended res
       = Agent.auto_orders_placed res
         + length (Agent.collect_approvals compute_daily_average
                     select_best_vendor self sample_vendors clock rationale_for
                     notion_page_for auto_order_succeeds 0 inventory_data))%nat
    ∧ (Agent.reorders_recommended res ≤ Agent.processed_skus res)%nat
    ∧ (Agent.processed_skus res ≤ length inventory_data)%nat.
Proof.
  unfold Agent.run_cycle_results.
  destruct inventory_data as [|sku_data rest] eqn:Hinv.
  { eexists. split; [reflexivity|]. cbn. by split_and!. }
  rewrite <- Hinv. clear Hinv sku_data rest.
  pose proof (process_inventory_requests compute_daily_average select_best_vendor
                self sample_vendors clock rationale_for notion_page_for
                auto_order_succeeds 0 inventory_data [] Agent.initial_results)
    as Hreqs.
  pose proof (process_inventory_counters compute_daily_average select_best_vendor
                self sample_vendors clock rationale_for notion_page_for
                auto_order_succeeds 0 inventory_data [] Agent.initial_results)
    as (H1 & H2 & H3 & H4 & _).
  cbn [app] in Hreqs. rewrite Hreqs in H2.
  destruct (Agent.process_inventory _ _ _ _ _ _ _ _ 0 inventory_data [] _)
    as [pending_approvals results].
  cbn [fst snd] in *. subst pending_approvals.
  cbn [Agent.initial_results Agent.processed_skus Agent.errors
       Agent.reorders_recommended Agent.auto_orders_placed length] in *.
  destruct (Agent.collect_approvals _ _ _ _ _ _ _ _ 0 inventory_data)
    as [|req reqs] eqn:Hcollect.
  { eexists. split; [reflexivity|]. cbn [length] in *. split_and!; lia. }
  unfold Webhook.bind.
  pose proof (_send_batch_approval_email_value_None (req :: reqs) batch_token now
                send_email w) as Hnone.
  destruct (Agent._send_batch_approval_email_value _ _ _ _ w) as [out w'].
  cbn [fst] in Hnone. subst out.
  eexists. split; [reflexivity|].
  cbn [Agent.add_error Agent.processed_skus Agent.errors
       Agent.reorders_recommended Agent.auto_orders_placed].
  rewrite length_app. cbn [length] in *. split_and!; lia.
Qed.

(** X15. The batch e-mail is never counted as sent. Since
    [_send_batch_approval_email] hands no value back, [run_cycle] reports
    [approval_emails_sent = 0] and [batch_approvals_pending = 0] in every
    run, and whenever requests are pending the last entry of [errors] is
    "Failed to send batch approval email", also when the batch has been
    stored and the mail connector has returned a message id. The store is
    left as the storing of the batch leaves it. *)
Theorem batch_email_never_counted
    (compute_daily_average : list Policy.Transaction → string → Q)
    (select_best_vendor : list Policy.Vendor → Q → option Policy.Vendor)
    (self : Agent.AgentConfig) (sample_vendors : nat → list Policy.Vendor)
    (clock : nat → Z)
    (rationale_for : string → Policy.Decision → Agent.Rationale)
    (notion_page_for : string → Policy.Decision → string)
    (auto_order_succeeds : string → Policy.Decision → bool)
    (inventory_data : list Agent.SkuData) (batch_token : string) (now : Z)
    (send_email : Outcome (option string)) (w w' : Webhook.World)
    (res : Agent.CycleResults) :
  Agent.run_cycle_results compute_daily_average select_best_vendor self
    sample_vendors clock rationale_for notion_page_for auto_order_succeeds
    inventory_data batch_token now send_email w = (Returns res, w') →
  Agent.approval_emails_sent res = 0%nat
  ∧ Agent.batch_approvals_pending res = 0%nat
  ∧ Webhook.pending w'
    = Webhook.pending
        (Agent.run_cycle compute_daily_average select_best_vendor self
           sample_vendors clock rationale_for notion_page_for auto_order_succeeds
           inventory_data batch_token now w).2
  ∧ (Agent.collect_approvals compute_daily_average select_best_vendor self
       sample_vendors clock rationale_for notion_page_for auto_order_succeeds
       0 inventory_data ≠ [] →
     last (Agent.errors res) = Some "Failed to send batch approval email").
Proof.
  unfold Agent.run_cycle_results, Agent.run_cycle.
  destruct inventory_data as [|sku_data rest] eqn:Hinv.
  { intros [= <- <-]. cbn. by split_and!. }
  rewrite <- Hinv. clear Hinv sku_data rest.
  pose proof (process_inventory_requests compute_daily_average select_best_vendor
                self sample_vendors clock rationale_for notion_page_for
                auto_order_succeeds 0 inventory_data [] Agent.initial_results)
    as Hreqs.
  pose proof (process_inventory_counters compute_daily_average select_best_vendor
                self sample_vendors clock rationale_for notion_page_for
                auto_order_succeeds 0 inventory_data [] Agent.initial_results)
    as (_ & _ & _ & _ & _ & H6 & H7).
  cbn [app] in Hreqs.
  destruct (Agent.process_inventory _ _ _ _ _ _ _ _ 0 inventory_data [] _)
    as [pending_approvals results].
  cbn [fst snd] in *. subst pending_approvals.
  cbn [Agent.initial_results Agent.approval_emails_sent
       Agent.batch_approvals_pending] in *.
  destruct (Agent.collect_approvals _ _ _ _ _ _ _ _ 0 inventory_data)
    as [|req reqs] eqn:Hcollect.
  { intros [= <- <-]. by split_and!. }
  unfold Webhook.bind.
  pose proof (_send_batch_approval_email_value_None (req :: reqs) batch_token now
                send_email w) as Hnone.
  pose proof (_send_batch_approval_email_value_store (req :: reqs) batch_token now
                send_email w) as Hstore.
  destruct (Agent._send_batch_approval_email_value _ _ _ _ w) as [out w1].
  cbn [fst snd] in Hnone, Hstore. subst out.
  intros [= <- <-].
  cbn [Agent.add_error Agent.approval_emails_sent Agent.batch_approvals_pending
       Agent.errors].
  split_and!; try done. intros _. by rewrite last_snoc.
Qed.

(** The eager agent's run over the two rows: the batch is stored under
    its token and the mail goes out, yet the summary counts no e-mail and
    records a failure. *)
Lemma batch_email_never_counted_witness :
  ∃ res w' m',
    Examples.counted_run Examples.empty_world = (Returns res, w')
    ∧ Webhook.pending w' = Some m'
    ∧ is_Some (m' !! "batch-1")
    ∧ Agent.approval_emails_sent res = 0%nat
    ∧ Agent.batch_approvals_pending res = 0%nat
    ∧ Agent.errors res = ["Failed to send batch approval email"].
Proof.
  destruct (Examples.counted_run Examples.empty_world) as [[res|exc] w'] eqn:Hrun;
    [|vm_compute in Hrun; discriminate Hrun].
  destruct (Webhook.pending w') as [m'|] eqn:Hm';
    [|vm_compute in Hrun; injection Hrun as <- <-; vm_compute in Hm';
      discriminate Hm'].
  exists res, w', m'. split; [reflexivity|]. split; [exact Hm'|].
  destruct (batch_email_never_counted Examples.no_demand Examples.no_vendor
              Examples.eager_agent Examples.sampled_vendors Examples.stopped_clock
              Examples.plain_rationale Examples.page_per_sku Examples.no_auto_order
              Examples.two_rows "batch-1" 0 (Returns (Some "msg-1"))
              Examples.empty_world w' res Hrun) as (He & Hb & _ & _).
  split; [|split; [exact He|split; [exact Hb|]]].
  - vm_compute in Hrun. injection Hrun as <- <-. vm_compute in Hm'.
    injection Hm' as <-. vm_compute. eexists. reflexivity.
  - vm_compute in Hrun. injection Hrun as <- <-. reflexivity.
Defined.

(** X16. A dry run places no order. With [dry_run] set, no order is
    auto-placed whatever the thresholds and the supplier, the summary
    recommends exactly as many reorders as requests are left for approval,
    every request carries the reason ['dry_run'], and every row whose
    decision asks for a reorder has its request among them. *)
Theorem dry_run_places_no_order
    (compute_daily_average : list Policy.Transaction → string → Q)
    (select_best_vendor : list Policy.Vendor → Q → option Policy.Vendor)
    (self : Agent.AgentConfig) (sample_vendors : nat → list Policy.Vendor)
    (clock : nat → Z)
    (rationale_for : string → Policy.Decision → Agent.Rationale)
    (notion_page_for : string → Policy.Decision → string)
    (auto_order_succeeds : string → Policy.Decision → bool)
    (inventory_data : list Agent.SkuData) (batch_token : string) (now : Z)
    (send_email : Outcome (option string)) (w : Webhook.World) :
  Agent.dry_run self = true →
  let reqs :=
    Agent.collect_approvals compute_daily_average select_best_vendor self
      sample_vendors clock rationale_for notion_page_for auto_order_succeeds
      0 inventory_data in
  (∀ res,
     (Agent.run_cycle_results compute_daily_average select_best_vendor self
        sample_vendors clock rationale_for notion_page_for auto_order_succeeds
        inventory_data batch_token now send_email w).1 = Returns res →
     Agent.auto_orders_placed res = 0%nat
     ∧ Agent.reorders_recommended res = length reqs)
  ∧ Forall (λ req, Agent.rq_reason req = Agent.DryRun) reqs
  ∧ ∀ k sku_data d,
      inventory_data !! k = Some sku_data →
      Policy.evaluate_reorder_need compute_daily_average select_best_vendor
        Policy.default_policy (clock k) (Agent.inventory_item_of sku_data) []
        (sample_vendors k) 30 = Returns d →
      Policy.d_needs_reorder d = true →
      ∃ req, req ∈ reqs ∧ Agent.rq_reorder_decision req = d
             ∧ Agent.rq_sku req = Policy.d_sku d.
Proof.
  intros Hdry reqs. subst reqs. split_and!.
  - intros res.
    unfold Agent.run_cycle_results.
    destruct inventory_data as [|sku_data rest] eqn:Hinv.
    { intros [= <-]. by cbn. }
    rewrite <- Hinv. clear Hinv sku_data rest.
    pose proof (process_inventory_requests compute_daily_average
                  select_best_vendor self sample_vendors clock rationale_for
                  notion_page_for auto_order_succeeds 0 inventory_data []
                  Agent.initial_results) as Hreqs.
    pose proof (process_inventory_counters compute_daily_average
                  select_best_vendor self sample_vendors clock rationale_for
                  notion_page_for auto_order_succeeds 0 inventory_data []
                  Agent.initial_results) as (_ & H2 & _ & _ & H5 & _).
    cbn [app] in Hreqs. rewrite Hreqs in H2.
    destruct (Agent.process_inventory _ _ _ _ _ _ _ _ 0 inventory_data [] _)
      as [pending_approvals results].
    cbn [fst snd] in *. subst pending_approvals.
    specialize (H5 Hdry).
    cbn [Agent.initial_results Agent.reorders_recommended
         Agent.auto_orders_placed length] in *.
    destruct (Agent.collect_approvals _ _ _ _ _ _ _ _ 0 inventory_data)
      as [|req reqs'] eqn:Hcollect.
    { intros [= <-]. cbn [length] in *. split; lia. }
    unfold Webhook.bind.
    pose proof (_send_batch_approval_email_value_None (req :: reqs') batch_token
                  now send_email w) as Hnone.
    destruct (Agent._send_batch_approval_email_value _ _ _ _ w) as [out w'].
    cbn [fst] in Hnone. subst out. intros [= <-].
    cbn [Agent.add_error Agent.reorders_recommended Agent.auto_orders_placed].
    split; lia.
  - apply Forall_forall. intros req Hin.
    apply collect_approvals_request in Hin as (k & sd & Hk & Hp).
    apply _process_sku_reason in Hp. cbv zeta in Hp.
    destruct (Agent.rq_reason req); [|done|]; destruct Hp as [Hp _]; congruence.
  - intros k sku_data d Hk Heval Hneeds.
    destruct (_process_sku_dry_run compute_daily_average select_best_vendor self
                sample_vendors clock rationale_for notion_page_for
                auto_order_succeeds k sku_data d Hdry Heval Hneeds)
      as (req & Hp & Hd & _).
    exists req. split_and!; [|done|].
    + by apply (collect_approvals_complete _ _ _ _ _ _ _ _ 0 inventory_data k sku_data).
    + apply _process_sku_request in Hp as (_ & _ & Hsku). by rewrite Hsku, Hd.
Qed.

(** The dry run over the two rows recommends one reorder, places no order
    and asks for the approval of the row below its reorder point. *)
Lemma dry_run_places_no_order_witness :
  Agent.dry_run Examples.cautious_agent = true
  ∧ ∃ res,
      (Agent.run_cycle_results Examples.no_demand Examples.no_vendor
         Examples.cautious_agent Examples.sampled_vendors Examples.stopped_clock
         Examples.plain_rationale Examples.page_per_sku Examples.no_auto_order
         Examples.two_rows "batch-1" 0 (Returns None) Examples.empty_world).1
      = Returns res
      ∧ Agent.auto_orders_placed res = 0%nat
      ∧ Agent.reorders_recommended res = 1%nat.
Proof.
  split; [reflexivity|].
  destruct (Agent.run_cycle_results Examples.no_demand Examples.no_vendor
              Examples.cautious_agent Examples.sampled_vendors
              Examples.stopped_clock Examples.plain_rationale Examples.page_per_sku
              Examples.no_auto_order Examples.two_rows "batch-1" 0 (Returns None)
              Examples.empty_world).1 as [res|exc] eqn:Hrun;
    [|vm_compute in Hrun; discriminate Hrun].
  exists res. split; [reflexivity|].
  destruct (dry_run_places_no_order Examples.no_demand Examples.no_vendor
              Examples.cautious_agent Examples.sampled_vendors
              Examples.stopped_clock Examples.plain_rationale Examples.page_per_sku
              Examples.no_auto_order Examples.two_rows "batch-1" 0 (Returns None)
              Examples.empty_world eq_refl) as (Hres & _ & _).
  destruct (Hres res Hrun) as [Hauto Hrec]. split; [exact Hauto|].
  rewrite Hrec. reflexivity.
Defined.

(** X17. The reason a request carries tells why no order was placed for
    it: ['dry_run'] only in a dry run; ['auto_order_failed'] only outside
    a dry run, for a decision cheaper than the auto-order threshold from a
    vendor trusted at the threshold or more, when the order attempt did not
    succeed; the cost-and-trust text only outside a dry run, with the cost
    of the decision and the trust score of its vendor, one of which is out
    of bounds: the cost at the threshold or above (equality included), or
    the trust score below its threshold. *)
Theorem approval_reason_explains_request
    (compute_daily_average : list Policy.Transaction → string → Q)
    (select_best_vendor : list Policy.Vendor → Q → option Policy.Vendor)
    (self : Agent.AgentConfig) (sample_vendors : nat → list Policy.Vendor)
    (clock : nat → Z)
    (rationale_for : string → Policy.Decision → Agent.Rationale)
    (notion_page_for : string → Policy.Decision → string)
    (auto_order_succeeds : string → Policy.Decision → bool)
    (inventory_data : list Agent.SkuData) (req : Agent.ApprovalRequest) :
  req ∈ Agent.collect_approvals compute_daily_average select_best_vendor self
          sample_vendors clock rationale_for notion_page_for auto_order_succeeds
          0 inventory_data →
  let d := Agent.rq_reorder_decision req in
  let trust := Agent._get_vendor_trust_score (default "" (Policy.d_vendor d)) in
  match Agent.rq_reason req with
  | Agent.DryRun => Agent.dry_run self = true
  | Agent.AutoOrderFailed =>
      Agent.dry_run self = false
      ∧ (Policy.d_total_cost d < Agent.auto_order_threshold self)%Q
      ∧ (Agent.vendor_trust_threshold self <= trust)%Q
      ∧ auto_order_succeeds (Agent.rq_sku req) d = false
  | Agent.NotAutoApproved total_cost vendor_trust_score =>
      Agent.dry_run self = false
      ∧ total_cost = Policy.d_total_cost d
      ∧ vendor_trust_score = trust
      ∧ ((Agent.auto_order_threshold self <= total_cost)%Q
         ∨ (vendor_trust_score < Agent.vendor_trust_threshold self)%Q)
  end.
Proof.
  intros Hin. apply collect_approvals_request in Hin as (k & sd & Hk & Hp).
  by apply _process_sku_reason in Hp.
Qed.

(** The eager agent, whose supplier takes no order: the request for the
    row below its reorder point says that the order attempt failed, for a
    decision that was within both thresholds. *)
Lemma approval_reason_explains_request_witness :
  ∃ req,
    Agent.collect_approvals Examples.no_demand Examples.no_vendor
      Examples.eager_agent Examples.sampled_vendors Examples.stopped_clock
      Examples.plain_rationale Examples.page_per_sku Examples.no_auto_order
      0 Examples.two_rows = [req]
    ∧ Agent.rq_reason req = Agent.AutoOrderFailed
    ∧ (Policy.d_total_cost (Agent.rq_reorder_decision req) < 500)%Q.
Proof.
  destruct (Agent.collect_approvals Examples.no_demand Examples.no_vendor
              Examples.eager_agent Examples.sampled_vendors Examples.stopped_clock
              Examples.plain_rationale Examples.page_per_sku Examples.no_auto_order
              0 Examples.two_rows) as [|req [|req' reqs]] eqn:Hc;
    [vm_compute in Hc; discriminate Hc| |vm_compute in Hc; discriminate Hc].
  exists req. split; [reflexivity|].
  assert (Agent.rq_reason req = Agent.AutoOrderFailed) as Hreason.
  { vm_compute in Hc. injection Hc as <-. reflexivity. }
  split; [exact Hreason|].
  assert (req ∈ Agent.collect_approvals Examples.no_demand Examples.no_vendor
            Examples.eager_agent Examples.sampled_vendors Examples.stopped_clock
            Examples.plain_rationale Examples.page_per_sku Examples.no_auto_order
            0 Examples.two_rows) as Hin.
  { rewrite Hc. apply elem_of_cons. by left. }
  pose proof (approval_reason_explains_request Examples.no_demand
                Examples.no_vendor Examples.eager_agent Examples.sampled_vendors
                Examples.stopped_clock Examples.plain_rationale
                Examples.page_per_sku Examples.no_auto_order Examples.two_rows
                req Hin) as H.
  cbv zeta in H. rewrite Hreason in H. exact (proj1 (proj2 H)).
Defined.

(** X18. The rows of the inventory are processed independently: the
    requests collected from a list of rows are those of its first part
    followed by those of the rest, so that a row that fails or needs no
    reorder takes nothing away from the others; and the SKUs of the
    requests follow the order of the rows, each row giving at most one. *)
Theorem collect_approvals_rows_independent
    (compute_daily_average : list Policy.Transaction → string → Q)
    (select_best_vendor : list Policy.Vendor → Q → option Policy.Vendor)
    (self : Agent.AgentConfig) (sample_vendors : nat → list Policy.Vendor)
    (clock : nat → Z)
    (rationale_for : string → Policy.Decision → Agent.Rationale)
    (notion_page_for : string → Policy.Decision → string)
    (auto_order_succeeds : string → Policy.Decision → bool)
    (rows1 rows2 : list Agent.SkuData) :
  Agent.collect_approvals compute_daily_average select_best_vendor self
    sample_vendors clock rationale_for notion_page_for auto_order_succeeds
    0 (rows1 ++ rows2)
  = Agent.collect_approvals compute_daily_average select_best_vendor self
      sample_vendors clock rationale_for notion_page_for auto_order_succeeds
      0 rows1
    ++ Agent.collect_approvals compute_daily_average select_best_vendor self
         sample_vendors clock rationale_for notion_page_for auto_order_succeeds
         (length rows1) rows2
  ∧ (Agent.rq_sku
       <$> Agent.collect_approvals compute_daily_average select_best_vendor self
             sample_vendors clock rationale_for notion_page_for
             auto_order_succeeds 0 (rows1 ++ rows2))
    `sublist_of`
    ((λ sku_data, default "unknown" (Agent.sd_sku sku_data)) <$> (rows1 ++ rows2)).
Proof.
  split.
  - apply (collect_approvals_app _ _ _ _ _ _ _ _ 0).
  - apply collect_approvals_skus.
Qed.

(** X19. The single approve endpoint does not look at the action type. A
    batch that [_send_batch_approval_email] has stored (the store call
    returned [True]), presented to [/webhook/approve] with its token before
    it expires, is approved as if it were one request: a single order is
    placed with vendor ['MULTIPLE'] for SKU ['BATCH'] and the summed
    quantity, none for the line items, no page is updated, the sheet is
    updated for SKU ['BATCH'], and the batch is marked approved. The page
    of the answer shows the summed cost, as the store keeps it. *)
Theorem batch_token_on_single_approve_endpoint
    (WEBHOOK_SECRET : string) (ext : Webhook.Collaborators)
    (reqs : list Agent.ApprovalRequest) (batch_token : string) (now later : Z)
    (w : Webhook.World) (r : Webhook.OrderResult) :
  (Agent._send_batch_approval_email reqs batch_token now w).1 = Returns true →
  later < now + DAY →
  let total_qty :=
    Webhook.py_sum
      ((λ req, Policy.d_qty (Agent.rq_reorder_decision req)) <$> reqs) in
  let total :=
    Webhook.py_sum
      ((λ req, Policy.d_total_cost (Agent.rq_reorder_decision req)) <$> reqs) in
  Webhook.place_order ext "MULTIPLE" "BATCH" total_qty = Returns r →
  let w1 := (Agent._send_batch_approval_email reqs batch_token now w).2 in
  let out :=
    Webhook.approve_action WEBHOOK_SECRET ext batch_token WEBHOOK_SECRET later w1 in
  out.1 = Returns (Webhook.HTMLResponse 200
            (Webhook.ApprovedPage "BATCH" (default "N/A" (Webhook.order_id r))
               "MULTIPLE" total_qty
               (if Webhook.use_sqlite w then Webhook.sqlite_real total else total)
               (default "TBD" (Webhook.delivery_date r))))
  ∧ Webhook.trace out.2
    = Webhook.trace w
      ++ [ Webhook.StoreInsert batch_token; Webhook.StoreRead batch_token;
           Webhook.PlaceOrder "MULTIPLE" "BATCH" total_qty;
           Webhook.SheetUpdate "BATCH" "Ordered";
           Webhook.StoreUpdate batch_token "approved" ]
  ∧ ∃ m', Webhook.pending out.2 = Some m'
          ∧ Webhook.status <$> m' !! batch_token = Some "approved".
Proof.
  intros Hstored Hlater total_qty total Horder. cbv zeta.
  destruct reqs as [|req0 reqs']; [discriminate Hstored|].
  unfold Agent._send_batch_approval_email in *.
  destruct (Webhook.pending w) as [m|] eqn:Hm.
  2:{ rewrite (store_pending_action_unreadable w _ _ _ Hm) in Hstored.
      discriminate Hstored. }
  rewrite (store_pending_action_readable w m _ _ _ Hm) in Hstored |- *.
  destruct (Webhook.use_sqlite w && negb _) eqn:Hfail; [discriminate Hstored|].
  cbn [snd]. clear Hstored Hfail.
  set (stored :=
         {| Webhook.data :=
              if Webhook.use_sqlite w
              then Webhook.sqlite_row (Agent.batch_action_data (req0 :: reqs'))
              else Agent.batch_action_data (req0 :: reqs');
            Webhook.expires_at := now + DAY;
            Webhook.status := "pending" |}).
  assert (Webhook.sku (Webhook.data stored) = "BATCH"
          ∧ Webhook.vendor (Webhook.data stored) = "MULTIPLE"
          ∧ Webhook.quantity (Webhook.data stored) = total_qty
          ∧ Webhook.total_cost (Webhook.data stored)
            = (if Webhook.use_sqlite w then Webhook.sqlite_real total else total)
          ∧ truthy (Webhook.notion_page_id (Webhook.data stored)) = false)
    as (Hsku & Hvendor & Hqty & Hcost & Hpage).
  { subst stored. cbn [Webhook.data]. by destruct (Webhook.use_sqlite w). }
  assert (Webhook.fetch_active (<[batch_token := stored]> m) batch_token later
          = Some stored) as Ha.
  { apply fetch_active_Some. rewrite lookup_insert_eq.
    split_and!; [done|done|by cbn]. }
  clearbody stored.
  unfold Webhook.approve_action. rewrite String.eqb_refl. cbn [negb]. run_m.
  rewrite (get_pending_action_readable
             (Webhook.with_pending (<[batch_token := stored]> m)
                (Webhook.log_event (Webhook.StoreInsert batch_token) w))
             (<[batch_token := stored]> m) batch_token later eq_refl), Ha.
  rewrite Hsku, Hvendor, Hqty, Hcost, Hpage, Horder.
  destruct (Webhook.update_inventory_status ext _ _ _);
    unfold Webhook.update_action_status, Webhook.log_event, Webhook.with_pending;
    cbn; (split; [done|]); (split; [by rewrite <- !(assoc_L (++))|]);
    eexists; (split; [reflexivity|]);
    by rewrite lookup_alter_eq, lookup_insert_eq.
Qed.

(** The batch of the example run, approved through the single endpoint. *)
Lemma batch_token_on_single_approve_endpoint_witness :
  ∃ req qty,
    Agent.collect_approvals Examples.no_demand Examples.no_vendor
      Examples.cautious_agent Examples.sampled_vendors Examples.stopped_clock
      Examples.plain_rationale Examples.page_per_sku Examples.no_auto_order
      0 Examples.two_rows = [req]
    ∧ qty = Policy.d_qty (Agent.rq_reorder_decision req)
    ∧ (Agent._send_batch_approval_email [req] "batch-1" 0
         Examples.empty_world).1 = Returns true
    ∧ Webhook.trace
        (Webhook.approve_action "s3cret" Examples.reliable "batch-1" "s3cret" 1
           (Agent._send_batch_approval_email [req] "batch-1" 0
              Examples.empty_world).2).2
      = [ Webhook.StoreInsert "batch-1"; Webhook.StoreRead "batch-1";
          Webhook.PlaceOrder "MULTIPLE" "BATCH" (Webhook.py_sum [qty]);
          Webhook.SheetUpdate "BATCH" "Ordered";
          Webhook.StoreUpdate "batch-1" "approved" ].
Proof.
  destruct (Agent.collect_approvals Examples.no_demand Examples.no_vendor
              Examples.cautious_agent Examples.sampled_vendors
              Examples.stopped_clock Examples.plain_rationale Examples.page_per_sku
              Examples.no_auto_order 0 Examples.two_rows)
    as [|req [|req' reqs]] eqn:Hc;
    [vm_compute in Hc; discriminate Hc| |vm_compute in Hc; discriminate Hc].
  exists req, (Policy.d_qty (Agent.rq_reorder_decision req)).
  split; [reflexivity|]. split; [reflexivity|].
  assert ((Agent._send_batch_approval_email [req] "batch-1" 0
             Examples.empty_world).1 = Returns true) as Hstored by reflexivity.
  assert (1 < 0 + DAY) as Hlater by (vm_compute; reflexivity).
  split; [exact Hstored|].
  exact (proj1 (proj2
    (batch_token_on_single_approve_endpoint "s3cret" Examples.reliable [req]
       "batch-1" 0 1 Examples.empty_world (Examples.order_placed "BATCH")
       Hstored Hlater eq_refl))).
Defined.

Section TrustFacts.

Import Policy Agent.

Lemma lower_ascii_idemp c : lower_ascii (lower_ascii c) = lower_ascii c.
Proof. by destruct c as [[] [] [] [] [] [] [] []]. Qed.

Lemma lower_idemp s : lower (lower s) = lower s.
Proof. induction s as [|c s IH]; cbn; [done|]. by rewrite lower_ascii_idemp, IH. Qed.

Lemma all_vendors_trust_score v :
  v ∈ all_vendors → _get_vendor_trust_score (name v) = 8 # 10.
Proof.
  unfold all_vendors. intros Hin.
  repeat (apply elem_of_cons in Hin as [->|Hin]); try reflexivity.
  by apply elem_of_nil in Hin.
Qed.

Variable select_best_vendor : list Vendor → Q → option Vendor.

(** The vendor a decision names is a vendor of the list, as soon as the
    optimizer picks its vendor from the list. *)
Lemma resolve_vendor_from_list self item vendors avg_daily annual_demand best :
  (∀ v, select_best_vendor vendors annual_demand = Some v →
        ∃ v0, v0 ∈ vendors ∧ name v = name v0) →
  resolve_vendor select_best_vendor self item vendors avg_daily annual_demand
  = Some best →
  ∃ v0, v0 ∈ vendors ∧ name best = name v0.
Proof.
  intros Hopt. unfold resolve_vendor.
  destruct (select_best_vendor vendors annual_demand) as [v|] eqn:Hv.
  { intros [= <-]. by apply Hopt. }
  destruct (_ && _); [|done].
  destruct (select_fallback_vendor vendors) as [fv|] eqn:Hfv; [|done].
  intros [= <-]. apply select_fallback_vendor_Some in Hfv as [Hin _].
  by exists fv.
Qed.

End TrustFacts.

(** X20. With the vendor table of the orchestrator the trust test never
    decides. Every vendor of the table scores the default 0.8, so that when
    the optimizer picks its vendor from the list it is given and the trust
    threshold is at most 0.8 (its default), the vendor of every request is
    trusted enough: a request that carries the cost-and-trust text is there
    because of its cost alone, which is at the auto-order threshold or
    above. *)
Theorem trust_never_blocks_table_vendors
    (compute_daily_average : list Policy.Transaction → string → Q)
    (select_best_vendor : list Policy.Vendor → Q → option Policy.Vendor)
    (self : Agent.AgentConfig) (sample_vendors : nat → list Policy.Vendor)
    (clock : nat → Z)
    (rationale_for : string → Policy.Decision → Agent.Rationale)
    (notion_page_for : string → Policy.Decision → string)
    (auto_order_succeeds : string → Policy.Decision → bool)
    (inventory_data : list Agent.SkuData) (req : Agent.ApprovalRequest) :
  (∀ i v, v ∈ sample_vendors i → v ∈ Agent.all_vendors) →
  (∀ vendors demand v,
     select_best_vendor vendors demand = Some v →
     ∃ v0, v0 ∈ vendors ∧ Policy.name v = Policy.name v0) →
  (Agent.vendor_trust_threshold self <= 8 # 10)%Q →
  req ∈ Agent.collect_approvals compute_daily_average select_best_vendor self
          sample_vendors clock rationale_for notion_page_for auto_order_succeeds
          0 inventory_data →
  Agent._get_vendor_trust_score
    (default "" (Policy.d_vendor (Agent.rq_reorder_decision req))) = 8 # 10
  ∧ match Agent.rq_reason req with
    | Agent.NotAutoApproved total_cost _ =>
        (Agent.auto_order_threshold self <= total_cost)%Q
    | _ => True
    end.
Proof.
  intros Hsample Hopt Hthreshold Hin.
  apply collect_approvals_request in Hin as (k & sd & Hk & Hp).
  cbn [Nat.add] in Hp.
  pose proof (_process_sku_request _ _ _ _ _ _ _ _ _ _ _ Hp)
    as (Heval & Hneeds & _).
  pose proof (evaluate_reorder_need_Returns _ _ _ _ _ _ _ _ _ Heval) as [_ Hd].
  cbv zeta in Hd.
  destruct (Policy.resolve_vendor _ _ _ _ _ _) as [best|] eqn:Hbest;
    [|destruct Hd as [Hd _]; congruence].
  destruct Hd as (Hvendor & _).
  apply resolve_vendor_from_list in Hbest as (v0 & Hv0 & Hname);
    [|intros v; apply Hopt].
  assert (Agent._get_vendor_trust_score
            (default "" (Policy.d_vendor (Agent.rq_reorder_decision req)))
          = 8 # 10) as Htrust.
  { rewrite Hvendor. cbn [default from_option]. rewrite Hname.
    apply all_vendors_trust_score. by eapply Hsample. }
  split; [exact Htrust|].
  apply _process_sku_reason in Hp. cbv zeta in Hp.
  destruct (Agent.rq_reason req) as [| |c t]; [done|done|].
  destruct Hp as (_ & _ & Ht & [Hc|Hc]); [done|].
  exfalso. rewrite Ht, Htrust in Hc.
  by apply (Qlt_not_le _ _ Hc).
Qed.

(** The eager agent over the two rows, with four vendors of the table. *)
Lemma trust_never_blocks_table_vendors_witness :
  (Agent.vendor_trust_threshold Examples.eager_agent <= 8 # 10)%Q
  ∧ ∃ req,
      Agent.collect_approvals Examples.no_demand Examples.no_vendor
        Examples.eager_agent Examples.sampled_vendors Examples.stopped_clock
        Examples.plain_rationale Examples.page_per_sku Examples.no_auto_order
        0 Examples.two_rows = [req]
      ∧ Policy.d_vendor (Agent.rq_reorder_decision req)
        = Some "Industrial Supply Co"
      ∧ Agent._get_vendor_trust_score
          (default "" (Policy.d_vendor (Agent.rq_reorder_decision req))) = 8 # 10.
Proof.
  assert (Agent.vendor_trust_threshold Examples.eager_agent <= 8 # 10)%Q as Hthr.
  { apply Qle_refl. }
  split; [exact Hthr|].
  destruct (Agent.collect_approvals Examples.no_demand Examples.no_vendor
              Examples.eager_agent Examples.sampled_vendors Examples.stopped_clock
              Examples.plain_rationale Examples.page_per_sku Examples.no_auto_order
              0 Examples.two_rows) as [|req [|req' reqs]] eqn:Hc;
    [vm_compute in Hc; discriminate Hc| |vm_compute in Hc; discriminate Hc].
  exists req. split; [reflexivity|]. split.
  { vm_compute in Hc. injection Hc as <-. reflexivity. }
  assert (∀ i v, v ∈ Examples.sampled_vendors i → v ∈ Agent.all_vendors) as Hsample.
  { intros i v Hv. unfold Examples.sampled_vendors in Hv.
    rewrite <- (take_drop 4 Agent.all_vendors). apply elem_of_app. by left. }
  assert (∀ vendors demand v,
            Examples.no_vendor vendors demand = Some v →
            ∃ v0, v0 ∈ vendors ∧ Policy.name v = Policy.name v0) as Hopt.
  { intros vendors demand v Hv. discriminate Hv. }
  assert (req ∈ Agent.collect_approvals Examples.no_demand Examples.no_vendor
            Examples.eager_agent Examples.sampled_vendors Examples.stopped_clock
            Examples.plain_rationale Examples.page_per_sku Examples.no_auto_order
            0 Examples.two_rows) as Hin.
  { rewrite Hc. apply elem_of_cons. by left. }
  exact (proj1 (trust_never_blocks_table_vendors Examples.no_demand
                  Examples.no_vendor Examples.eager_agent Examples.sampled_vendors
                  Examples.stopped_clock Examples.plain_rationale
                  Examples.page_per_sku Examples.no_auto_order Examples.two_rows
                  req Hsample Hopt Hthr Hin)).
Defined.

(** X21. The trust score of a vendor name: one of the four scores of the
    table, hence between 0.75 and 0.95; the same for a name and for its
    lower-case form; and another score than the default 0.8 only for the
    names that read [vendor_a], [vendor_b] or [vendor_c] in lower case. *)
Theorem vendor_trust_score_range (vendor : string) :
  (75 # 100 <= Agent._get_vendor_trust_score vendor)%Q
  ∧ (Agent._get_vendor_trust_score vendor <= 95 # 100)%Q
  ∧ Agent._get_vendor_trust_score (Agent.lower vendor)
    = Agent._get_vendor_trust_score vendor
  ∧ (Agent._get_vendor_trust_score vendor = 8 # 10
     ∨ Agent.lower vendor ∈ ["vendor_a"; "vendor_b"; "vendor_c"]).
Proof.
  split_and!.
  - unfold Agent._get_vendor_trust_score.
    repeat (destruct (String.eqb _ _)); discriminate.
  - unfold Agent._get_vendor_trust_score.
    repeat (destruct (String.eqb _ _)); discriminate.
  - unfold Agent._get_vendor_trust_score. by rewrite lower_idemp.
  - unfold Agent._get_vendor_trust_score.
    destruct (String.eqb _ "vendor_a") eqn:Ha.
    { right. apply String.eqb_eq in Ha as ->. set_solver. }
    destruct (String.eqb _ "vendor_b") eqn:Hb.
    { right. apply String.eqb_eq in Hb as ->. set_solver. }
    destruct (String.eqb _ "vendor_c") eqn:Hc.
    { right. apply String.eqb_eq in Hc as ->. set_solver. }
    by left.
Qed.

(* ===================================================================== *)
(** * Properties of the connectors *)

Section ParsingFacts.

Import UnifiedMCPConnector.

Variable float : string → option FloatValue.

Lemma cell_nonempty row k c : cell row k = Some c → c ≠ "".
Proof.
  unfold cell. destruct (row !! k) as [c'|]; [|done].
  destruct (String.eqb c' "") eqn:He; [done|].
  intros [= <-]. by apply String.eqb_neq.
Qed.

Lemma cost_of_trust_ge_1 x :
  match cost_of_trust x with Finite c => (1 <= c)%Q | Infinity => True end.
Proof. destruct x; cbn; try done. apply py_max_l. Qed.

(** An item that comes out of a row. *)
Lemma parse_row_item i row item :
  parse_row float i row = inr item →
  category item = "General"
  ∧ sku item = default ("UNKNOWN-" +:+ pretty i) (cell row 0)
  ∧ sku item ≠ ""
  ∧ match cost item with Finite c => (1 <= c)%Q | Infinity => True end.
Proof.
  unfold parse_row.
  destruct (int_cell float row 2 0) as [e|stock]; [done|].
  destruct (int_cell float row 4 7) as [e|lead]; [done|].
  destruct (int_cell float row 5 10) as [e|moq]; [done|].
  destruct (int_cell float row 7 50) as [e|thr]; [done|].
  destruct (float_cell float row 8 (Number 80)) as [e|trust]; [done|].
  intros [= <-]. cbn. split_and!; [done|done| |apply cost_of_trust_ge_1].
  destruct (cell row 0) as [c|] eqn:Hc; cbn; [by eapply cell_nonempty|done].
Qed.

Lemma parse_rows_items i rows acc items :
  parse_rows float i rows acc = inr items →
  ∃ new, items = acc ++ new
         ∧ (length new ≤ length rows)%nat
         ∧ Forall (λ item,
             category item = "General" ∧ sku item ≠ ""
             ∧ match cost item with Finite c => (1 <= c)%Q | Infinity => True end)
             new.
Proof.
  revert i acc. induction rows as [|row rest IH]; intros i acc;
    cbn [parse_rows length].
  { intros [= <-]. exists []. by rewrite app_nil_r. }
  destruct (4 <=? length row)%nat.
  - destruct (parse_row float i row) as [[]|item] eqn:Hrow;
      [|intros Hp; discriminate Hp|].
    + intros (new & -> & Hlen & Hall)%IH. exists new. split_and!; [done|lia|done].
    + intros (new & -> & Hlen & Hall)%IH. exists (item :: new).
      rewrite <- (assoc_L (++)). split_and!; [done|cbn; lia|].
      constructor; [|done].
      by destruct (parse_row_item _ _ _ Hrow) as (? & _ & ? & ?).
  - intros (new & -> & Hlen & Hall)%IH. exists new. split_and!; [done|lia|done].
Qed.



End ParsingFacts.

(** X22. What [_parse_inventory_rows] returns. There are no more items
    than data rows (none for a sheet with fewer than two rows); every item
    has a non-empty SKU, the category ['General'] and a cost of at least
    1, whatever the trust score read from the sheet. *)
Theorem parsed_items_are_well_formed
    (float : string → option UnifiedMCPConnector.FloatValue)
    (rows : list (list string)) (items : list UnifiedMCPConnector.InventoryItem) :
  UnifiedMCPConnector._parse_inventory_rows float rows = inr items →
  (length items ≤ length rows - 1)%nat
  ∧ Forall (λ item,
      UnifiedMCPConnector.category item = "General"
      ∧ UnifiedMCPConnector.sku item ≠ ""
      ∧ match UnifiedMCPConnector.cost item with
        | Finite c => (1 <= c)%Q
        | Infinity => True
        end) items.
Proof.
  unfold UnifiedMCPConnector._parse_inventory_rows.
  destruct (length rows <? 2)%nat eqn:Hlen.
  { intros [= <-]. split; [cbn; lia|constructor]. }
  intros (new & -> & Hnew & Hall)%parse_rows_items. cbn [app].
  split; [|done]. destruct rows as [|header rows]; cbn in *; lia.
Qed.

(** A sheet with a header, a good row and a row whose stock is no
    number: one item, for the good row. *)
Lemma parsed_items_are_well_formed_witness :
  ∃ item,
    UnifiedMCPConnector._parse_inventory_rows Examples.float_of_text
      [Examples.sheet_header; Examples.good_row; Examples.text_row] = inr [item]
    ∧ UnifiedMCPConnector.sku item = "TOOL-003"
    ∧ UnifiedMCPConnector.cost item = Finite (py_max 1 (100 - 80)).
Proof.
  destruct (UnifiedMCPConnector._parse_inventory_rows Examples.float_of_text
              [Examples.sheet_header; Examples.good_row; Examples.text_row])
    as [e|[|item [|item' items]]] eqn:Hparse;
    try (vm_compute in Hparse; discriminate Hparse).
  exists item. split; [reflexivity|].
  pose proof (parsed_items_are_well_formed Examples.float_of_text _ _ Hparse)
    as [_ Hall].
  vm_compute in Hparse. injection Hparse as <-. split; reflexivity.
Defined.



Section DemoPageFacts.

Import Demo ComposioNotionConnector.

(** Page ids are told apart by the second only. *)
Lemma demo_page_id_eq t1 t2 :
  demo_page_id t1 = demo_page_id t2 ↔ Z.quot t1 1000000 = Z.quot t2 1000000.
Proof.
  unfold demo_page_id. split; [|by intros ->].
  intros H. apply (inj (String.app "demo_page_")) in H.
  by apply (inj pretty) in H.
Qed.

Lemma write_file_twice name c1 c2 dir :
  write_file name c2 (write_file name c1 dir) = write_file name c2 dir.
Proof. unfold write_file. cbn. by rewrite insert_insert_eq. Qed.

(** [json] is not bound where [_query_demo_database] looks it up. *)
Lemma json_unbound : bool_decide ("json" ∈ module_globals) = false.
Proof. reflexivity. Qed.

(** With [json] unbound every turn of the loop ends in the [except]. *)
Lemma query_loop_unbound globals limit files demo_pages :
  bool_decide ("json" ∈ globals) = false →
  query_loop globals limit files demo_pages = demo_pages.
Proof.
  intros Hjson. induction files as [|[name content] rest IH];
    cbn [query_loop]; [done|]. by rewrite Hjson.
Qed.

End DemoPageFacts.

(** X24. Demo page ids are unique per second only. Two demo pages created
    through [create_reorder_page] within the same second get the same id,
    and the second page replaces the first: the directory is as if the
    first had never been created. Pages created in different seconds get
    different ids and are both kept. *)
Theorem demo_page_ids_collide_within_a_second
    (mcp_page1 mcp_page2 : option string) (t1 t2 : Z)
    (r1 r2 : UnifiedMCPConnector.ReorderRequest) (dir : Demo.DemoDir) :
  let first := UnifiedMCPConnector.create_reorder_page true mcp_page1 t1 r1 dir in
  let second :=
    UnifiedMCPConnector.create_reorder_page true mcp_page2 t2 r2 first.2 in
  (Z.quot t1 1000000 = Z.quot t2 1000000 →
   first.1 = second.1
   ∧ second.2
     = (UnifiedMCPConnector.create_reorder_page true mcp_page2 t2 r2 dir).2)
  ∧ (Z.quot t1 1000000 ≠ Z.quot t2 1000000 →
     first.1 ≠ second.1
     ∧ ∃ files page1 page2,
         second.2 = Some files
         ∧ files !! Demo.demo_page_id t1 = Some (Demo.Json page1)
         ∧ files !! Demo.demo_page_id t2 = Some (Demo.Json page2)
         ∧ Demo.pg_sku page1 = Some (UnifiedMCPConnector.rr_sku r1)
         ∧ Demo.pg_sku page2 = Some (UnifiedMCPConnector.rr_sku r2)).
Proof.
  cbv zeta. unfold UnifiedMCPConnector.create_reorder_page. cbn [fst snd].
  unfold UnifiedMCPConnector._save_demo_notion_page. split.
  - intros Hsec. apply demo_page_id_eq in Hsec. rewrite Hsec.
    split; [done|]. by rewrite write_file_twice.
  - intros Hsec.
    assert (Demo.demo_page_id t1 ≠ Demo.demo_page_id t2) as Hne.
    { intros H. by apply demo_page_id_eq in H. }
    split; [congruence|].
    unfold Demo.write_file. cbn [default from_option id].
    eexists _, _, _. split; [reflexivity|].
    rewrite lookup_insert_ne by done. rewrite !lookup_insert_eq.
    split; [reflexivity|]. split; [reflexivity|]. split; reflexivity.
Qed.

(** Two requests half a second apart, and two requests a second apart. *)
Lemma demo_page_ids_collide_within_a_second_witness :
  Z.quot 1200000 1000000 = Z.quot 1700000 1000000
  ∧ Z.quot 1200000 1000000 ≠ Z.quot 2200000 1000000
  ∧ (UnifiedMCPConnector.create_reorder_page true None 1700000
       Examples.gloves_request
       (UnifiedMCPConnector.create_reorder_page true None 1200000
          Examples.helmet_request None).2).2
    = (UnifiedMCPConnector.create_reorder_page true None 1700000
         Examples.gloves_request None).2
  ∧ (UnifiedMCPConnector.create_reorder_page true None 1200000
       Examples.helmet_request None).1
    ≠ (UnifiedMCPConnector.create_reorder_page true None 2200000
         Examples.gloves_request
         (UnifiedMCPConnector.create_reorder_page true None 1200000
            Examples.helmet_request None).2).1.
Proof.
  assert (Z.quot 1200000 1000000 = Z.quot 1700000 1000000) as Hsame
    by reflexivity.
  assert (Z.quot 1200000 1000000 ≠ Z.quot 2200000 1000000) as Hother
    by (vm_compute; discriminate).
  split; [exact Hsame|]. split; [exact Hother|]. split.
  - exact (proj2 (proj1 (demo_page_ids_collide_within_a_second None None
                           1200000 1700000 Examples.helmet_request
                           Examples.gloves_request None) Hsame)).
  - exact (proj1 (proj2 (demo_page_ids_collide_within_a_second None None
                           1200000 2200000 Examples.helmet_request
                           Examples.gloves_request None) Hother)).
Defined.

(** X25. A demo page created and then updated. [_create_demo_page]
    returns the URL of the page, not its id. Updating the page under its
    id succeeds and leaves the directory as if the page had been written
    with the new status in the first place: SKU, quantity, vendor and
    cost are kept, and the order confirmation is recorded when one is
    given. Updating under a name for which there is no file, or whose
    file is no JSON object, returns [False] and changes nothing. *)
Theorem demo_page_create_then_update
    (mcp_result : bool) (now : Z) (sku : string) (qty : Q) (vendor_name : string)
    (total_cost : Q) (status : string) (order_confirm : option string)
    (dir : Demo.DemoDir) :
  let page_id := Demo.demo_page_id now in
  let created :=
    ComposioNotionConnector._create_demo_page now sku qty vendor_name total_cost
      dir in
  created.1 = "demo://notion/page/" +:+ page_id
  ∧ ComposioNotionConnector.update_reorder_status true mcp_result page_id status
      order_confirm created.2
    = (true,
       Demo.write_file page_id
         (Demo.Json
            {| Demo.pg_page_id := Some page_id;
               Demo.pg_id := None;
               Demo.pg_sku := Some sku;
               Demo.pg_quantity := Some qty;
               Demo.pg_vendor := Some vendor_name;
               Demo.pg_total_cost := Some total_cost;
               Demo.pg_cost := None;
               Demo.pg_status := Some status;
               Demo.pg_order_confirmation :=
                 if truthy order_confirm then order_confirm else None |})
         dir)
  ∧ ∀ name d,
      (d = None ∨ ∃ files, d = Some files
                           ∧ (files !! name = None
                              ∨ files !! name = Some Demo.NotJson)) →
      ComposioNotionConnector.update_reorder_status true mcp_result name status
        order_confirm d = (false, d).
Proof.
  cbv zeta. split; [done|]. split.
  - unfold ComposioNotionConnector.update_reorder_status,
      ComposioNotionConnector._update_demo_page,
      ComposioNotionConnector._create_demo_page.
    cbn [snd]. unfold Demo.write_file at 1 2. rewrite lookup_insert_eq.
    cbn [Demo.pg_page_id Demo.pg_id Demo.pg_sku Demo.pg_quantity Demo.pg_vendor
         Demo.pg_total_cost Demo.pg_cost Demo.pg_status
         Demo.pg_order_confirmation].
    f_equal. apply write_file_twice.
  - intros name d [->|(files & -> & [H|H])];
      unfold ComposioNotionConnector.update_reorder_status,
        ComposioNotionConnector._update_demo_page; [done| |]; by rewrite H.
Qed.

(** X26. The demo query lists no page. [_query_demo_database] evaluates
    [json.load] in a module that binds [json] nowhere the method can see:
    every file it opens ends in the [except] of the loop, and the query
    returns the empty list for every directory and every limit. A page
    that [_create_demo_page] has just written, and that
    [_update_demo_page] (which imports [json] itself) reads and rewrites
    with success, is not listed; neither is a page saved by
    [UnifiedMCPConnector.create_reorder_page]. *)
Theorem demo_query_lists_no_page
    (limit : Z) (dir : Demo.DemoDir) (now : Z) (sku : string) (qty : Q)
    (vendor_name : string) (total_cost : Q) (status : string)
    (mcp_page : option string) (r : UnifiedMCPConnector.ReorderRequest) :
  ComposioNotionConnector._query_demo_database limit dir = []
  ∧ (let created :=
       (ComposioNotionConnector._create_demo_page now sku qty vendor_name
          total_cost dir).2 in
     (ComposioNotionConnector._update_demo_page (Demo.demo_page_id now) status
        None created).1 = true
     ∧ ComposioNotionConnector._query_demo_database limit created = []
     ∧ ComposioNotionConnector._query_demo_database limit
         (ComposioNotionConnector._update_demo_page (Demo.demo_page_id now)
            status None created).2 = [])
  ∧ ComposioNotionConnector._query_demo_database limit
      (UnifiedMCPConnector.create_reorder_page true mcp_page now r dir).2 = [].
Proof.
  assert (∀ d, ComposioNotionConnector._query_demo_database limit d = [])
    as Hnone.
  { intros [files|]; [|done].
    unfold ComposioNotionConnector._query_demo_database,
      ComposioNotionConnector._query_demo_database_in.
    apply query_loop_unbound, json_unbound. }
  split; [apply Hnone|]. split; [|apply Hnone].
  cbv zeta. split; [|split; apply Hnone].
  unfold ComposioNotionConnector._update_demo_page,
    ComposioNotionConnector._create_demo_page, Demo.write_file.
  cbn [snd]. by rewrite lookup_insert_eq.
Qed.
